(** * Sonechka.OS: the event-sourcing derivation engine

    A shallow embedding of [AppStateManager.deriveState] (the variant with
    step dependencies, workout and development rituals) together with the
    types of [types.ts], followed by the properties of the derivation that
    the specification states.

    The development has two parts.

    The first part reads the pass on ordinary logs: [rituals[id]] and
    [plants[id]] are lookups among the entries of the object, and a date
    moves by whole days of 86400000 ms.  This is what the code does when
    the ids the events carry name nothing a lookup can find on
    [Object.prototype], the dates lie well inside the range of [Date], and
    the host's zone has no clock changes.

    The second part ([Js], [Live]) follows the code beyond that: lookups
    that fall through to [Object.prototype], writes that land on it and
    outlive the pass, [for ... in] over inherited properties, days counted
    on the calendar of the host's zone, the errors the pass throws, and
    listeners that act while they are called.  [JsFacts.deriveState_ordinary]
    shows that on ordinary logs the two parts derive the same state.

    Conventions of both parts.
    - An ISO-8601 timestamp is the instant it denotes, in milliseconds since
      the epoch ([Z]).  Day counts of [baseInterval] are whole numbers.
    - A JavaScript [number] that carries a measurement is an exact rational
      or one of the three special values; comparisons follow IEEE 754.
    - A plain object used as a record of named entries is an association
      list in insertion order (the order [for ... in] and [Object.assign]
      observe).
    - Every read of the wall clock ([Date.now ()], [new Date ()]) is an
      effect: the k-th read of a run returns [clock k]. *)

From Stdlib Require Import ZArith QArith List String Bool Lia.
Import ListNotations.

Open Scope string_scope.
Open Scope Z_scope.

(** ** Plain objects as ordered records of entries *)

Module Obj.

Definition t (A : Type) : Type := list (string * A).

(** [o[k]] among the entries of [o]: the value of [o[k]] for every key that
    reaches nothing on [Object.prototype] ([Js.reach] has the rest). *)
Fixpoint get {A : Type} (o : t A) (k : string) : option A :=
  match o with
  | [] => None
  | (k', v) :: rest => if String.eqb k k' then Some v else get rest k
  end.

(** [o[k] = v]: an existing entry keeps its place, a new one goes last. *)
Fixpoint set {A : Type} (o : t A) (k : string) (v : A) : t A :=
  match o with
  | [] => [(k, v)]
  | (k', v') :: rest =>
      if String.eqb k k' then (k', v) :: rest else (k', v') :: set rest k v
  end.

(** [Object.assign(target, source)] *)
Definition assign {A : Type} (target source : t A) : t A :=
  fold_left (fun o kv => set o (fst kv) (snd kv)) source target.

Definition keys {A : Type} (o : t A) : list string := map fst o.

End Obj.

(** ** types.ts *)

(** A measured [number]. *)
Inductive number : Type :=
| Finite (q : Q)
| PosInf
| NegInf
| NaN.

Module Num.

(** [a < b] *)
Definition ltb (a b : number) : bool :=
  match a, b with
  | Finite x, Finite y => negb (Qle_bool y x)
  | NegInf, Finite _ | NegInf, PosInf | Finite _, PosInf => true
  | _, _ => false
  end.

(** [a <= b] *)
Definition leb (a b : number) : bool :=
  match a, b with
  | Finite x, Finite y => Qle_bool x y
  | NegInf, Finite _ | NegInf, PosInf | NegInf, NegInf
  | Finite _, PosInf | PosInf, PosInf => true
  | _, _ => false
  end.

(** The order the two tests decide. *)
Definition lt (a b : number) : Prop :=
  match a, b with
  | Finite x, Finite y => (x < y)%Q
  | NegInf, Finite _ | NegInf, PosInf | Finite _, PosInf => True
  | _, _ => False
  end.

Definition le (a b : number) : Prop :=
  match a, b with
  | Finite x, Finite y => (x <= y)%Q
  | NegInf, Finite _ | NegInf, PosInf | NegInf, NegInf
  | Finite _, PosInf | PosInf, PosInf => True
  | _, _ => False
  end.

End Num.

Inductive DropType : Type := systane | emoxipin | midramax.

Record PlantProfile : Type := mkProfile {
  baseInterval : Z * Z;                 (* [minDays, maxDays] *)
  winterMultiplier : Q;
  humidityMultiplier : option Q;
  criticality : Z
}.

Module Risk.
Inductive t : Type := low | medium | high.
End Risk.

Module Plant.
(** [PlantState] *)
Record t : Type := mk {
  id : string;
  name : string;
  profile : PlantProfile;
  lastWatered : option Z;
  nextDue : Z;
  riskLevel : Risk.t;
  isWinter : bool
}.
End Plant.

Module Step.
Record t : Type := mk {
  id : string;
  name : string;
  completed : bool;
  dependencies : option (list string)
}.
End Step.

Module Ritual.
(** [RitualState]; [trainer] and [duration] are the two extra properties
    the workout entries carry. *)
Record t : Type := mk {
  id : string;
  name : string;
  completed : bool;
  steps : list Step.t;
  dependencies : option (list string);
  trainer : option string;
  duration : option Z
}.
End Ritual.

Inductive Event : Type :=
| app_init (ts : Z)
| ritual_step_completed (ts : Z) (ritualId stepId : string)
| med_taken (ts : Z) (medId : string) (dose : option number)
| eye_drop_applied (ts : Z) (dropType : DropType)
| watering_done (ts : Z) (plantId : string)
| glucose_measured (ts : Z) (value : number)
| plant_profile_updated (ts : Z) (plantId : string) (p : PlantProfile)
| focus_lost (ts : Z)
| backup_created (ts : Z) (path : string).

Record Meta : Type := mkMeta {
  userId : string;
  deviceName : option string;
  lastBackup : option Z
}.

Record AppState : Type := mkAppState {
  version : string;
  lastSaved : Z;
  events : list Event;
  meta : Meta
}.

Module GStatus.
Inductive t : Type := low | optimal | high | unknown.
End GStatus.

Record Glucose : Type := mkGlucose {
  last : option (number * Z);           (* { value, ts } *)
  status : GStatus.t
}.

Module Anchors.
Record t : Type := mk {
  selfcare : option string;
  plants : option string;
  health : option string
}.
End Anchors.

Module Dev.
(** [developmentCounters] *)
Record t : Type := mk {
  lecture : Z;
  practical : Z;
  zoo : Z;
  fiction_ru : Z;
  words : Z;
  soap : Z
}.
End Dev.

Record WorkTracking : Type := mkWork {
  emailChecks : Z;
  weekendMarked : bool
}.

Record DerivedState : Type := mkDerived {
  today : Z;                            (* the instant the date label is printed from *)
  rituals : Obj.t Ritual.t;
  plants : Obj.t Plant.t;
  glucose : Glucose;
  anchors : Anchors.t;
  overdueCount : Z;
  development : Dev.t;
  work : WorkTracking
}.

(** ** The wall clock as an effect *)

Definition Clock : Type := nat -> Z.

(** A computation receives the clock and the number of reads made so far,
    and returns its value with the new number of reads. *)
Definition Eff (A : Type) : Type := Clock -> nat -> A * nat.

Definition ret {A : Type} (a : A) : Eff A := fun _ n => (a, n).

Definition bind {A B : Type} (m : Eff A) (f : A -> Eff B) : Eff B :=
  fun c n => let (a, n') := m c n in f a c n'.

(** [Date.now ()], and [new Date ()] read as its instant. *)
Definition Date_now : Eff Z := fun c n => (c n, S n).

Notation "x <- m ;; k" := (bind m (fun x => k))
  (at level 61, m at next level, right associativity).

(** The value a computation returns when started after [n] reads. *)
Definition value_of {A : Type} (m : Eff A) (c : Clock) (n : nat) : A := fst (m c n).

(** A clock that stands still at the instant [T]. *)
Definition fixed_at (T : Z) (c : Clock) : Prop := forall k, c k = T.

(** ** The catalogs [deriveState] starts every pass from *)

Definition defaultRituals : Obj.t Ritual.t :=
  [ ("ritual_morning_prep",
     Ritual.mk "ritual_morning_prep" "Утренняя подготовка" false
       [ Step.mk "eye_drops_systane" "Капли Систейн" false None;
         Step.mk "estraderm_morning" "Эстрожель (утро)" false None;
         Step.mk "med_fortedertrim" "Фортедер.trim" false None;
         Step.mk "med_folic" "Фолиевая кислота" false None;
         Step.mk "med_mg_1" "Магний" false None ]
       None None None);
    ("ritual_lunch_prep",
     Ritual.mk "ritual_lunch_prep" "Обеденная подготовка" false
       [ Step.mk "meal_breakfast" "Завтрак" false (Some []);
         Step.mk "med_ki_1" "Йод" false (Some ["meal_breakfast"]);
         Step.mk "med_mg_2" "Магний" false (Some ["meal_breakfast"]);
         Step.mk "med_stimol_2" "Стимол" false (Some ["meal_breakfast"]);
         Step.mk "med_omega3" "Омега-3" false (Some ["meal_breakfast"]) ]
       (Some ["meal_breakfast"]) None None);
    ("ritual_evening_prep",
     Ritual.mk "ritual_evening_prep" "Вечерняя подготовка" false
       [ Step.mk "meal_dinner" "Ужин" false (Some []);
         Step.mk "eye_emoxipin_4" "Капли Эмоксипин" false (Some ["meal_dinner"]);
         Step.mk "med_ki_2" "Йод" false (Some ["meal_dinner"; "eye_emoxipin_4"]);
         Step.mk "med_mg_3" "Магний" false (Some ["meal_dinner"]);
         Step.mk "med_stimol_3" "Стимол" false (Some ["meal_dinner"]);
         Step.mk "eye_midramax" "Капли Мидрамакс" false (Some ["meal_dinner"]);
         Step.mk "estraderm_evening" "Эстрожель (вечер)" false (Some ["meal_dinner"]) ]
       (Some ["meal_dinner"]) None None);
    ("ritual_skin_care_morning",
     Ritual.mk "ritual_skin_care_morning" "Утренний уход за кожей" false
       [ Step.mk "skincare_step_1" "Очищение" false (Some ["estraderm_morning"; "eye_drops_systane"]);
         Step.mk "skincare_step_2" "Тоник" false (Some ["skincare_step_1"]);
         Step.mk "skincare_step_3" "Сыворотка" false (Some ["skincare_step_2"]);
         Step.mk "skincare_step_4" "Крем" false (Some ["skincare_step_3"]) ]
       (Some ["estraderm_morning"; "eye_drops_systane"]) None None);
    ("ritual_makeup",
     Ritual.mk "ritual_makeup" "Макияж" false
       [ Step.mk "makeup_primer" "База под макияж" false (Some ["ritual_skin_care_morning"]);
         Step.mk "makeup_foundation" "Тональный крем" false (Some ["makeup_primer"]);
         Step.mk "makeup_blush" "Румяна" false (Some ["makeup_foundation"]);
         Step.mk "makeup_eyes" "Макияж глаз" false (Some ["makeup_foundation"]);
         Step.mk "makeup_lips" "Помада" false (Some ["makeup_eyes"]) ]
       (Some ["ritual_skin_care_morning"]) None None);
    ("ritual_dental",
     Ritual.mk "ritual_dental" "Чистка зубов" false
       [ Step.mk "dental_brush" "Чистка зубов" false None;
         Step.mk "dental_floss" "Зубная нить" false None;
         Step.mk "dental_mouthwash" "Ополаскиватель" false None ]
       None None None);
    ("ritual_evening_care",
     Ritual.mk "ritual_evening_care" "Вечерний уход" false
       [ Step.mk "evening_skincare_step_1" "Очищение" false (Some ["eye_midramax"]);
         Step.mk "evening_skincare_step_2" "Тоник" false (Some ["evening_skincare_step_1"]);
         Step.mk "evening_skincare_step_3" "Сыворотка" false (Some ["evening_skincare_step_2"]);
         Step.mk "evening_skincare_step_4" "Ночной крем" false (Some ["evening_skincare_step_3"]) ]
       (Some ["eye_midramax"]) None None) ].

Definition workoutRituals : Obj.t Ritual.t :=
  [ ("w1d3m",
     Ritual.mk "w1d3m" "Танцы антистресс" false
       [ Step.mk "w1d3m_start" "Начать тренировку" false None ]
       None (Some "Илана Сухорукова") (Some 20));
    ("w1d4m",
     Ritual.mk "w1d4m" "Зарядки без коврика" false
       [ Step.mk "w1d4m_start" "Начать тренировку" false None ]
       None (Some "Иванна Идуш") (Some 8));
    ("w1d4d",
     Ritual.mk "w1d4d" "Секси денс" false
       [ Step.mk "w1d4d_start" "Начать тренировку" false None ]
       None (Some "Маша Мерикка") (Some 20));
    ("w1d5e",
     Ritual.mk "w1d5e" "ВЕЧЕР Зарядки для лица" false
       [ Step.mk "w1d5e_eye_drops" "Капли Систейн" false None;
         Step.mk "w1d5e_start" "Начать тренировку" false (Some ["w1d5e_eye_drops"]) ]
       None (Some "Иванна Идуш") (Some 10));
    ("w1d6e",
     Ritual.mk "w1d6e" "ДЕНЬ Работа с гиперлордозом" false
       [ Step.mk "w1d6e_glucose_check" "Проверить глюкозу ≥ 4.5" false None;
         Step.mk "w1d6e_start" "Начать тренировку" false (Some ["w1d6e_glucose_check"]) ]
       None (Some "Кристина Вершинина") (Some 30));
    ("w1d6g",
     Ritual.mk "w1d6g" "ВЕЧЕР Фейсфитнес" false
       [ Step.mk "w1d6g_eye_drops" "Капли Систейн" false None;
         Step.mk "w1d6g_glucose_check" "Проверить глюкозу ≥ 4.5" false None;
         Step.mk "w1d6g_start" "Начать тренировку" false (Some ["w1d6g_eye_drops"; "w1d6g_glucose_check"]) ]
       None (Some "Иванна Идуш") (Some 25));
    ("w2d1e",
     Ritual.mk "w2d1e" "ДЕНЬ Functional Core" false
       [ Step.mk "w2d1e_check_weights" "Проверить гантели 0.75 кг" false None;
         Step.mk "w2d1e_start" "Начать тренировку" false (Some ["w2d1e_check_weights"]) ]
       None (Some "Елизавета Прокудина") (Some 30));
    ("w2d2e",
     Ritual.mk "w2d2e" "ДЕНЬ Йога для здоровой спины" false
       [ Step.mk "w2d2e_glucose_check" "Проверить глюкозу ≥ 4.5" false None;
         Step.mk "w2d2e_start" "Начать тренировку" false (Some ["w2d2e_glucose_check"]) ]
       None (Some "Лера Буры") (Some 20));
    ("w2d3m",
     Ritual.mk "w2d3m" "ДЕНЬ Упражнения на осанку" false
       [ Step.mk "w2d3m_glucose_check" "Проверить глюкозу ≥ 4.5" false None;
         Step.mk "w2d3m_start" "Начать тренировку" false (Some ["w2d3m_glucose_check"]) ]
       None (Some "Иванна Идуш") (Some 15));
    ("w2d4m",
     Ritual.mk "w2d4m" "ВЕЧЕР Танцы для похудения" false
       [ Step.mk "w2d4m_start" "Начать тренировку" false None ]
       None (Some "Илана Сухорукова") (Some 25));
    ("w2d5e",
     Ritual.mk "w2d5e" "ДЕНЬ Пресс + ягодицы" false
       [ Step.mk "w2d5e_start" "Начать тренировку" false None ]
       None (Some "Маша Мерикка") (Some 20));
    ("w2d6e",
     Ritual.mk "w2d6e" "ВЕЧЕР Тренировка на баланс" false
       [ Step.mk "w2d6e_start" "Начать тренировку" false None ]
       None (Some "Иванна Идуш") (Some 18));
    ("w2d6g",
     Ritual.mk "w2d6g" "ДЕНЬ Мягкая йога" false
       [ Step.mk "w2d6g_start" "Начать тренировку" false None ]
       None (Some "Лера Буры") (Some 25));
    ("w3d1e",
     Ritual.mk "w3d1e" "ВЕЧЕР Упражнения для спины" false
       [ Step.mk "w3d1e_glucose_check" "Проверить глюкозу ≥ 4.5" false None;
         Step.mk "w3d1e_start" "Начать тренировку" false (Some ["w3d1e_glucose_check"]) ]
       None (Some "Кристина Вершинина") (Some 20));
    ("w3d2e",
     Ritual.mk "w3d2e" "ДЕНЬ Танцы с элементами силовой" false
       [ Step.mk "w3d2e_start" "Начать тренировку" false None ]
       None (Some "Маша Мерикка") (Some 30));
    ("w3d3m",
     Ritual.mk "w3d3m" "ВЕЧЕР Упражнения для шеи" false
       [ Step.mk "w3d3m_glucose_check" "Проверить глюкозу ≥ 4.5" false None;
         Step.mk "w3d3m_start" "Начать тренировку" false (Some ["w3d3m_glucose_check"]) ]
       None (Some "Иванна Идуш") (Some 12));
    ("w3d4m",
     Ritual.mk "w3d4m" "ДЕНЬ Кардио тренировка" false
       [ Step.mk "w3d4m_start" "Начать тренировку" false None ]
       None (Some "Илана Сухорукова") (Some 22));
    ("w3d5e",
     Ritual.mk "w3d5e" "ВЕЧЕР Растяжка" false
       [ Step.mk "w3d5e_start" "Начать тренировку" false None ]
       None (Some "Лера Буры") (Some 15));
    ("w3d6e",
     Ritual.mk "w3d6e" "ДЕНЬ Фейсфитнес" false
       [ Step.mk "w3d6e_eye_drops" "Капли Систейн" false None;
         Step.mk "w3d6e_start" "Начать тренировку" false (Some ["w3d6e_eye_drops"]) ]
       None (Some "Иванна Идуш") (Some 18));
    ("w3d6g",
     Ritual.mk "w3d6g" "ВЕЧЕР Танцы антистресс" false
       [ Step.mk "w3d6g_start" "Начать тренировку" false None ]
       None (Some "Илана Сухорукова") (Some 20));
    ("w4d1e",
     Ritual.mk "w4d1e" "ДЕНЬ Силовая тренировка" false
       [ Step.mk "w4d1e_check_weights" "Проверить гантели 0.75 кг" false None;
         Step.mk "w4d1e_start" "Начать тренировку" false (Some ["w4d1e_check_weights"]) ]
       None (Some "Маша Мерикка") (Some 35));
    ("w4d2e",
     Ritual.mk "w4d2e" "ВЕЧЕР Упражнения для похудения" false
       [ Step.mk "w4d2e_start" "Начать тренировку" false None ]
       None (Some "Иванна Идуш") (Some 25));
    ("w4d3m",
     Ritual.mk "w4d3m" "ДЕНЬ Йога для гибкости" false
       [ Step.mk "w4d3m_start" "Начать тренировку" false None ]
       None (Some "Лера Буры") (Some 30));
    ("w4d4m",
     Ritual.mk "w4d4m" "ВЕЧЕР Упражнения на осанку" false
       [ Step.mk "w4d4m_glucose_check" "Проверить глюкозу ≥ 4.5" false None;
         Step.mk "w4d4m_start" "Начать тренировку" false (Some ["w4d4m_glucose_check"]) ]
       None (Some "Кристина Вершинина") (Some 15));
    ("w4d5e",
     Ritual.mk "w4d5e" "ДЕНЬ Танцы для тонуса" false
       [ Step.mk "w4d5e_start" "Начать тренировку" false None ]
       None (Some "Илана Сухорукова") (Some 20));
    ("w4d6e",
     Ritual.mk "w4d6e" "ВЕЧЕР Пресс и ягодицы" false
       [ Step.mk "w4d6e_start" "Начать тренировку" false None ]
       None (Some "Маша Мерикка") (Some 18));
    ("w4d6g",
     Ritual.mk "w4d6g" "ДЕНЬ Медитация и дыхание" false
       [ Step.mk "w4d6g_start" "Начать тренировку" false None ]
       None (Some "Иванна Идуш") (Some 15));
    ("w5d1e",
     Ritual.mk "w5d1e" "ВЕЧЕР Йога для расслабления" false
       [ Step.mk "w5d1e_start" "Начать тренировку" false None ]
       None (Some "Лера Буры") (Some 25));
    ("w5d2e",
     Ritual.mk "w5d2e" "ДЕНЬ Кардио и силовые" false
       [ Step.mk "w5d2e_start" "Начать тренировку" false None ]
       None (Some "Илана Сухорукова") (Some 30));
    ("w5d3m",
     Ritual.mk "w5d3m" "ВЕЧЕР Упражнения для спины" false
       [ Step.mk "w5d3m_glucose_check" "Проверить глюкозу ≥ 4.5" false None;
         Step.mk "w5d3m_start" "Начать тренировку" false (Some ["w5d3m_glucose_check"]) ]
       None (Some "Кристина Вершинина") (Some 20));
    ("w5d4m",
     Ritual.mk "w5d4m" "ДЕНЬ Танцы для тела" false
       [ Step.mk "w5d4m_start" "Начать тренировку" false None ]
       None (Some "Маша Мерикка") (Some 25));
    ("w5d5e",
     Ritual.mk "w5d5e" "ВЕЧЕР Растяжка и расслабление" false
       [ Step.mk "w5d5e_start" "Начать тренировку" false None ]
       None (Some "Иванна Идуш") (Some 20));
    ("w5d6e",
     Ritual.mk "w5d6e" "ДЕНЬ Фейсфитнес" false
       [ Step.mk "w5d6e_eye_drops" "Капли Систейн" false None;
         Step.mk "w5d6e_start" "Начать тренировку" false (Some ["w5d6e_eye_drops"]) ]
       None (Some "Иванна Идуш") (Some 18));
    ("w5d6g",
     Ritual.mk "w5d6g" "ВЕЧЕР Тренировка на баланс" false
       [ Step.mk "w5d6g_start" "Начать тренировку" false None ]
       None (Some "Лера Буры") (Some 18));
    ("w6d1e",
     Ritual.mk "w6d1e" "ДЕНЬ Силовая тренировка" false
       [ Step.mk "w6d1e_check_weights" "Проверить гантели 0.75 кг" false None;
         Step.mk "w6d1e_start" "Начать тренировку" false (Some ["w6d1e_check_weights"]) ]
       None (Some "Маша Мерикка") (Some 35));
    ("w6d2e",
     Ritual.mk "w6d2e" "ВЕЧЕР Упражнения для похудения" false
       [ Step.mk "w6d2e_start" "Начать тренировку" false None ]
       None (Some "Иванна Идуш") (Some 25));
    ("w6d3m",
     Ritual.mk "w6d3m" "ДЕНЬ Йога для гибкости" false
       [ Step.mk "w6d3m_start" "Начать тренировку" false None ]
       None (Some "Лера Буры") (Some 30));
    ("w6d4m",
     Ritual.mk "w6d4m" "ВЕЧЕР Упражнения на осанку" false
       [ Step.mk "w6d4m_glucose_check" "Проверить глюкозу ≥ 4.5" false None;
         Step.mk "w6d4m_start" "Начать тренировку" false (Some ["w6d4m_glucose_check"]) ]
       None (Some "Кристина Вершинина") (Some 15));
    ("w6d5e",
     Ritual.mk "w6d5e" "ДЕНЬ Танцы для тонуса" false
       [ Step.mk "w6d5e_start" "Начать тренировку" false None ]
       None (Some "Илана Сухорукова") (Some 20));
    ("w6d6e",
     Ritual.mk "w6d6e" "ВЕЧЕР Пресс и ягодицы" false
       [ Step.mk "w6d6e_start" "Начать тренировку" false None ]
       None (Some "Маша Мерикка") (Some 18));
    ("w6d6g",
     Ritual.mk "w6d6g" "ДЕНЬ Медитация и дыхание" false
       [ Step.mk "w6d6g_start" "Начать тренировку" false None ]
       None (Some "Иванна Идуш") (Some 15));
    ("w7d4h",
     Ritual.mk "w7d4h" "ВЕЧЕР Зарядки для лица" false
       [ Step.mk "w7d4h_eye_drops" "Капли Систейн" false None;
         Step.mk "w7d4h_start" "Начать тренировку" false (Some ["w7d4h_eye_drops"]) ]
       None (Some "Иванна Идуш") (Some 10)) ].

Definition developmentRituals : Obj.t Ritual.t :=
  [ ("lecture",
     Ritual.mk "lecture" "Лекция" false
       [ Step.mk "lecture_done" "Посмотреть лекцию" false None ]
       (Some []) None None);
    ("practical",
     Ritual.mk "practical" "Практика" false
       [ Step.mk "practical_done" "Выполнить практику" false None ]
       (Some []) None None);
    ("zoo",
     Ritual.mk "zoo" "Зоопсихология" false
       [ Step.mk "zoo_done" "Занятие по зоопсихологии" false None ]
       (Some []) None None);
    ("fiction_ru",
     Ritual.mk "fiction_ru" "Худ. литература" false
       [ Step.mk "fiction_ru_done" "Прочитать главу" false None ]
       (Some []) None None);
    ("words",
     Ritual.mk "words" "Англ. слова" false
       [ Step.mk "words_learned" "Выучить 10 слов" false None ]
       (Some []) None None);
    ("soap",
     Ritual.mk "soap" "Мыловарение" false
       [ Step.mk "soap_session" "Сделать сессию" false None ]
       (Some []) None None);
    ("work_email",
     Ritual.mk "work_email" "Проверка почты" false
       [ Step.mk "work_email_check_1" "Первая проверка" false None;
         Step.mk "work_email_check_2" "Вторая проверка" false None ]
       (Some []) None None);
    ("work_weekend",
     Ritual.mk "work_weekend" "Отметка выходного" false
       [ Step.mk "work_weekend_mark" "Отметить выходной" false None ]
       (Some []) None None) ].

Definition seed (key name : string) (p : PlantProfile) (days : Z)
  : Eff (string * Plant.t) :=
  now <- Date_now ;;
  ret (key, Plant.mk key name p None (now + days * 24 * 60 * 60 * 1000)
              Risk.low false).

Definition defaultPlants : Eff (Obj.t Plant.t) :=
  p1 <- seed "plant_schefflera_gerda" "Шеффлера Герда"
          (mkProfile (7, 10) 1.3 None 3) 7 ;;
  p2 <- seed "plant_schefflera_nora" "Шеффлера Нора"
          (mkProfile (8, 12) 1.3 None 3) 8 ;;
  p3 <- seed "plant_ficus_elastica" "Фикус эластика"
          (mkProfile (10, 14) 1.2 None 4) 10 ;;
  p4 <- seed "plant_monstera" "Монстера"
          (mkProfile (6, 9) 1.1 (Some 0.8%Q) 4) 6 ;;
  p5 <- seed "plant_nolina" "Нолина"
          (mkProfile (21, 28) 1.0 None 1) 21 ;;
  p6 <- seed "plant_dracena" "Драцена"
          (mkProfile (7, 10) 1.3 None 3) 7 ;;
  p7 <- seed "plant_peperomia" "Пеперомия"
          (mkProfile (10, 14) 1.2 None 2) 10 ;;
  p8 <- seed "plant_yucca_big" "Юкка большая"
          (mkProfile (14, 21) 1.0 None 1) 14 ;;
  p9 <- seed "plant_yucca_small" "Юкка маленькая"
          (mkProfile (14, 21) 1.0 None 2) 14 ;;
  p10 <- seed "plant_philodendron" "Филодендрон"
          (mkProfile (5, 7) 1.0 None 3) 5 ;;
  p11 <- seed "plant_elka_conica" "Ель коника"
          (mkProfile (10, 14) 1.0 None 5) 10 ;;
  ret [p1; p2; p3; p4; p5; p6; p7; p8; p9; p10; p11].

(** ** The local variables the event loop updates *)

Module L.
Record t : Type := mk {
  rituals : Obj.t Ritual.t;
  plants : Obj.t Plant.t;
  glucose : Glucose;
  developmentCounters : Dev.t;
  workTracking : WorkTracking
}.
End L.

(** ** Steps and their dependencies *)

(** [steps.find(s => s.id === stepId)] *)
Definition find_step (steps : list Step.t) (stepId : string) : option Step.t :=
  find (fun s => String.eqb (Step.id s) stepId) steps.

(** [step.completed = true] through the reference [find] returned: the
    first step bearing the id is the one written. *)
Fixpoint mark_completed (steps : list Step.t) (stepId : string) : list Step.t :=
  match steps with
  | [] => []
  | s :: rest =>
      if String.eqb (Step.id s) stepId
      then Step.mk (Step.id s) (Step.name s) true (Step.dependencies s) :: rest
      else s :: mark_completed rest stepId
  end.

Definition with_steps (r : Ritual.t) (steps : list Step.t) : Ritual.t :=
  Ritual.mk (Ritual.id r) (Ritual.name r) (Ritual.completed r) steps
            (Ritual.dependencies r) (Ritual.trainer r) (Ritual.duration r).

Definition with_completed (r : Ritual.t) (b : bool) : Ritual.t :=
  Ritual.mk (Ritual.id r) (Ritual.name r) b (Ritual.steps r)
            (Ritual.dependencies r) (Ritual.trainer r) (Ritual.duration r).

(** One dependency id: a sibling step first, then a ritual, else satisfied. *)
Definition dependency_satisfied (rituals : Obj.t Ritual.t) (ritual : Ritual.t)
    (depId : string) : bool :=
  match find_step (Ritual.steps ritual) depId with
  | Some depStep => Step.completed depStep
  | None =>
      match Obj.get rituals depId with
      | Some r => Ritual.completed r
      | None => true
      end
  end.

Definition dependenciesMet (rituals : Obj.t Ritual.t) (ritual : Ritual.t)
    (step : Step.t) : bool :=
  match Step.dependencies step with
  | Some deps => forallb (dependency_satisfied rituals ritual) deps
  | None => true
  end.

(** [case "ritual_step_completed"] *)
Definition complete_step (rituals : Obj.t Ritual.t) (ritualId stepId : string)
  : Obj.t Ritual.t :=
  match Obj.get rituals ritualId with
  | Some ritual =>
      match find_step (Ritual.steps ritual) stepId with
      | Some step =>
          if dependenciesMet rituals ritual step then
            let ritual' := with_steps ritual (mark_completed (Ritual.steps ritual) stepId) in
            let allStepsCompleted := forallb Step.completed (Ritual.steps ritual') in
            Obj.set rituals ritualId (with_completed ritual' allStepsCompleted)
          else rituals
      | None => rituals
      end
  | None => rituals
  end.

(** The direct write of [case "eye_drop_applied"]: the step is marked, the
    ritual's own flag is not touched. *)
Definition apply_drop (rituals : Obj.t Ritual.t) (ritualId stepId : string)
  : Obj.t Ritual.t :=
  match Obj.get rituals ritualId with
  | Some ritual =>
      match find_step (Ritual.steps ritual) stepId with
      | Some _ =>
          Obj.set rituals ritualId
            (with_steps ritual (mark_completed (Ritual.steps ritual) stepId))
      | None => rituals
      end
  | None => rituals
  end.

Definition eye_drop (rituals : Obj.t Ritual.t) (dropType : DropType)
  : Obj.t Ritual.t :=
  match dropType with
  | systane =>
      let r1 := apply_drop rituals "ritual_morning_prep" "eye_drops_systane" in
      let r2 := apply_drop r1 "w1d5e" "w1d5e_eye_drops" in
      apply_drop r2 "w1d6g" "w1d6g_eye_drops"
  | emoxipin => apply_drop rituals "ritual_evening_prep" "eye_emoxipin_4"
  | midramax => apply_drop rituals "ritual_evening_prep" "eye_midramax"
  end.

(** The tallies kept for every [ritual_step_completed], by step id alone. *)
Definition count_development (d : Dev.t) (stepId : string) : Dev.t :=
  if String.eqb stepId "lecture_done" then
    Dev.mk (Dev.lecture d + 1) (Dev.practical d) (Dev.zoo d) (Dev.fiction_ru d) (Dev.words d) (Dev.soap d)
  else if String.eqb stepId "practical_done" then
    Dev.mk (Dev.lecture d) (Dev.practical d + 1) (Dev.zoo d) (Dev.fiction_ru d) (Dev.words d) (Dev.soap d)
  else if String.eqb stepId "zoo_done" then
    Dev.mk (Dev.lecture d) (Dev.practical d) (Dev.zoo d + 1) (Dev.fiction_ru d) (Dev.words d) (Dev.soap d)
  else if String.eqb stepId "fiction_ru_done" then
    Dev.mk (Dev.lecture d) (Dev.practical d) (Dev.zoo d) (Dev.fiction_ru d + 1) (Dev.words d) (Dev.soap d)
  else if String.eqb stepId "words_learned" then
    Dev.mk (Dev.lecture d) (Dev.practical d) (Dev.zoo d) (Dev.fiction_ru d) (Dev.words d + 1) (Dev.soap d)
  else if String.eqb stepId "soap_session" then
    Dev.mk (Dev.lecture d) (Dev.practical d) (Dev.zoo d) (Dev.fiction_ru d) (Dev.words d) (Dev.soap d + 1)
  else d.

Definition count_work (w : WorkTracking) (stepId : string) : WorkTracking :=
  if String.eqb stepId "work_email_check_1" || String.eqb stepId "work_email_check_2"
  then mkWork (emailChecks w + 1) (weekendMarked w)
  else if String.eqb stepId "work_weekend_mark"
  then mkWork (emailChecks w) true
  else w.

(** ** Watering and glucose *)

(** [(nextDue.getTime() - now.getTime()) / (1000 * 60 * 60)], as the exact
    quotient: the two tests made on it, [> 12] and [> 0], come out the
    same on the rounded quotient, whole milliseconds being far coarser
    than its rounding. *)
Definition timeDiffHours (nextDue now : Z) : Q :=
  (inject_Z (nextDue - now) / inject_Z (1000 * 60 * 60))%Q.

Definition risk_of (nextDue now : Z) : Risk.t :=
  let h := timeDiffHours nextDue now in
  if negb (Qle_bool h 12) then Risk.low
  else if negb (Qle_bool h 0) then Risk.medium
  else Risk.high.

(** [case "watering_done"], for a plant the catalog has:
    [setDate (getDate () + intervalDays)] on the event's date, then the
    risk against a fresh [new Date ()].  The days are those of a zone
    without clock changes, and the date stays a date ([Js.water] has the
    host's zone and the range of [Date]). *)
Definition water (plant : Plant.t) (ts : Z) : Eff Plant.t :=
  let intervalDays := fst (baseInterval (Plant.profile plant)) in
  let nextDue := ts + intervalDays * (24 * 60 * 60 * 1000) in
  now <- Date_now ;;
  ret (Plant.mk (Plant.id plant) (Plant.name plant) (Plant.profile plant)
         (Some ts) nextDue (risk_of nextDue now) (Plant.isWinter plant)).

(** The tiers of [case "glucose_measured"].  The literal [4.2] denotes the
    double nearest to 4.2; no double lies between the two, so a measured
    double is below the one exactly when it is below the other. *)
Definition classify (value : number) : GStatus.t :=
  if Num.ltb value (Finite 4.2) then GStatus.low
  else if Num.leb value (Finite 6.0) then GStatus.optimal
  else GStatus.high.

Definition with_profile (plant : Plant.t) (p : PlantProfile) : Plant.t :=
  Plant.mk (Plant.id plant) (Plant.name plant) p (Plant.lastWatered plant)
           (Plant.nextDue plant) (Plant.riskLevel plant) (Plant.isWinter plant).

(** ** The event loop *)

(** The body of [for (const event of this.state.events)]. *)
Definition process (st : L.t) (event : Event) : Eff L.t :=
  match event with
  | ritual_step_completed _ ritualId stepId =>
      ret (L.mk (complete_step (L.rituals st) ritualId stepId)
                (L.plants st) (L.glucose st)
                (count_development (L.developmentCounters st) stepId)
                (count_work (L.workTracking st) stepId))
  | eye_drop_applied _ dropType =>
      ret (L.mk (eye_drop (L.rituals st) dropType)
                (L.plants st) (L.glucose st)
                (L.developmentCounters st) (L.workTracking st))
  | watering_done ts plantId =>
      match Obj.get (L.plants st) plantId with
      | Some plant =>
          plant' <- water plant ts ;;
          ret (L.mk (L.rituals st) (Obj.set (L.plants st) plantId plant')
                    (L.glucose st) (L.developmentCounters st) (L.workTracking st))
      | None => ret st
      end
  | glucose_measured ts value =>
      ret (L.mk (L.rituals st) (L.plants st)
                (mkGlucose (Some (value, ts)) (classify value))
                (L.developmentCounters st) (L.workTracking st))
  | plant_profile_updated _ plantId p =>
      match Obj.get (L.plants st) plantId with
      | Some plant =>
          ret (L.mk (L.rituals st) (Obj.set (L.plants st) plantId (with_profile plant p))
                    (L.glucose st) (L.developmentCounters st) (L.workTracking st))
      | None => ret st
      end
  | med_taken _ _ _ | app_init _ | focus_lost _ | backup_created _ _ => ret st
  end.

Fixpoint process_all (events : list Event) (st : L.t) : Eff L.t :=
  match events with
  | [] => ret st
  | event :: rest => st' <- process st event ;; process_all rest st'
  end.

(** ** After the loop: overdue count and anchors *)

(** The key of the first entry, in property order, at the given risk:
    what [for (const plantId in plants)] finds while nothing is written on
    [Object.prototype] ([Js.visited] has what it visits then). *)
Fixpoint first_at_risk (plants : Obj.t Plant.t) (r : Risk.t) : option string :=
  match plants with
  | [] => None
  | (plantId, plant) :: rest =>
      match Plant.riskLevel plant, r with
      | Risk.low, Risk.low | Risk.medium, Risk.medium | Risk.high, Risk.high =>
          Some plantId
      | _, _ => first_at_risk rest r
      end
  end.

(** A string-or-undefined used as a condition. *)
Definition truthy (s : option string) : bool :=
  match s with
  | Some v => negb (String.eqb v "")
  | None => false
  end.

(** The loop behind [overdueCount], over the entries of [plants]. *)
Definition count_overdue (plants : Obj.t Plant.t) (now : Z) : Z :=
  fold_left (fun n kv => if now >? Plant.nextDue (snd kv) then n + 1 else n) plants 0.

Definition health_anchor (rituals : Obj.t Ritual.t) (glucose : Glucose)
  : option string :=
  let h0 :=
    match last glucose, status glucose with
    | Some _, GStatus.low => Some "rest_teabreak"
    | _, _ => None
    end in
  match Obj.get rituals "ritual_morning_prep" with
  | Some morningRitual =>
      if negb (Ritual.completed morningRitual) then
        match find (fun step => negb (Step.completed step)) (Ritual.steps morningRitual) with
        | Some pendingStep => Some (Step.id pendingStep)
        | None => h0
        end
      else h0
  | None => h0
  end.

Definition plants_anchor (plants : Obj.t Plant.t) : option string :=
  let a := first_at_risk plants Risk.high in
  if negb (truthy a) then
    match first_at_risk plants Risk.medium with
    | Some plantId => Some plantId
    | None => a
    end
  else a.

Definition initialRituals : Obj.t Ritual.t :=
  Obj.assign (Obj.assign defaultRituals workoutRituals) developmentRituals.

(** The values the local variables hold when the loop starts. *)
Definition initial (plants0 : Obj.t Plant.t) : L.t :=
  L.mk initialRituals plants0 (mkGlucose None GStatus.unknown)
       (Dev.mk 0 0 0 0 0 0) (mkWork 0 false).

(** What is returned, from the locals and the two instants read outside
    the loop. *)
Definition finish (today : Z) (st : L.t) (now : Z) : DerivedState :=
  mkDerived today (L.rituals st) (L.plants st) (L.glucose st)
    (Anchors.mk None (plants_anchor (L.plants st))
                (health_anchor (L.rituals st) (L.glucose st)))
    (count_overdue (L.plants st) now)
    (L.developmentCounters st) (L.workTracking st).

Definition deriveState (events : list Event) : Eff DerivedState :=
  today <- Date_now ;;
  plants0 <- defaultPlants ;;
  st <- process_all events (initial plants0) ;;
  now <- Date_now ;;
  ret (finish today st now).

(** [event.type === "glucose_measured"] *)
Definition is_glucose_measured (event : Event) : bool :=
  match event with
  | glucose_measured _ _ => true
  | _ => false
  end.

(** ** The manager's entry points *)

(** [addEvent]: the event goes last in the log, [lastSaved] is stamped, and
    the state handed to the state listeners is a fresh derivation. *)
Definition addEvent (state : AppState) (event : Event)
  : Eff (AppState * DerivedState) :=
  stamp <- Date_now ;;
  let state' := mkAppState (version state) stamp (events state ++ [event]) (meta state) in
  derivedState <- deriveState (events state') ;;
  ret (state', derivedState).

Definition getDerivedState (state : AppState) : Eff DerivedState :=
  deriveState (events state).

(** * The earlier variant of the manager

    The repository keeps a second [AppStateManager.ts], without step
    dependencies, workout and development rituals, tallies, and the
    morning-step and medium-risk anchors.  Its plants, watering and glucose
    code is the same text. *)

Module Legacy.

Definition defaultRituals : Obj.t Ritual.t :=
  [ ("ritual_morning_prep",
     Ritual.mk "ritual_morning_prep" "Утренняя подготовка" false
       [ Step.mk "eye_drops_systane" "Капли Систейн" false None;
         Step.mk "estraderm_morning" "Эстрожель (утро)" false None;
         Step.mk "med_fortedertrim" "Фортедер.trim" false None;
         Step.mk "med_folic" "Фолиевая кислота" false None;
         Step.mk "med_mg_1" "Магний" false None ]
       None None None);
    ("ritual_lunch_prep",
     Ritual.mk "ritual_lunch_prep" "Обеденная подготовка" false
       [ Step.mk "meal_breakfast" "Завтрак" false None;
         Step.mk "med_ki_1" "Йод" false None;
         Step.mk "med_mg_2" "Магний" false None;
         Step.mk "med_stimol_2" "Стимол" false None;
         Step.mk "med_omega3" "Омега-3" false None ]
       (Some ["meal_breakfast"]) None None);
    ("ritual_evening_prep",
     Ritual.mk "ritual_evening_prep" "Вечерняя подготовка" false
       [ Step.mk "meal_dinner" "Ужин" false None;
         Step.mk "eye_emoxipin_4" "Капли Эмоксипин" false None;
         Step.mk "med_ki_2" "Йод" false None;
         Step.mk "med_mg_3" "Магний" false None;
         Step.mk "med_stimol_3" "Стимол" false None;
         Step.mk "eye_midramax" "Капли Мидрамакс" false None;
         Step.mk "estraderm_evening" "Эстрожель (вечер)" false None ]
       (Some ["meal_dinner"]) None None);
    ("ritual_skin_care_morning",
     Ritual.mk "ritual_skin_care_morning" "Утренний уход за кожей" false
       [ Step.mk "skincare_step_1" "Очищение" false None;
         Step.mk "skincare_step_2" "Тоник" false None;
         Step.mk "skincare_step_3" "Сыворотка" false None;
         Step.mk "skincare_step_4" "Крем" false None ]
       (Some ["estraderm_morning"; "eye_drops_systane"]) None None);
    ("ritual_makeup",
     Ritual.mk "ritual_makeup" "Макияж" false
       [ Step.mk "makeup_primer" "База под макияж" false None;
         Step.mk "makeup_foundation" "Тональный крем" false None;
         Step.mk "makeup_blush" "Румяна" false None;
         Step.mk "makeup_eyes" "Макияж глаз" false None;
         Step.mk "makeup_lips" "Помада" false None ]
       (Some ["ritual_skin_care_morning"]) None None);
    ("ritual_dental",
     Ritual.mk "ritual_dental" "Чистка зубов" false
       [ Step.mk "dental_brush" "Чистка зубов" false None;
         Step.mk "dental_floss" "Зубная нить" false None;
         Step.mk "dental_mouthwash" "Ополаскиватель" false None ]
       None None None);
    ("ritual_evening_care",
     Ritual.mk "ritual_evening_care" "Вечерний уход" false
       [ Step.mk "evening_skincare_step_1" "Очищение" false None;
         Step.mk "evening_skincare_step_2" "Тоник" false None;
         Step.mk "evening_skincare_step_3" "Сыворотка" false None;
         Step.mk "evening_skincare_step_4" "Ночной крем" false None ]
       (Some ["eye_midramax"]) None None) ].

Record Locals : Type := mkLocals {
  l_rituals : Obj.t Ritual.t;
  l_plants : Obj.t Plant.t;
  l_glucose : Glucose
}.

(** [case "ritual_step_completed"]: the step is completed whenever it is
    found. *)
Definition complete_step (rituals : Obj.t Ritual.t) (ritualId stepId : string)
  : Obj.t Ritual.t :=
  match Obj.get rituals ritualId with
  | Some ritual =>
      match find_step (Ritual.steps ritual) stepId with
      | Some step =>
          let ritual' := with_steps ritual (mark_completed (Ritual.steps ritual) stepId) in
          let allStepsCompleted := forallb Step.completed (Ritual.steps ritual') in
          Obj.set rituals ritualId (with_completed ritual' allStepsCompleted)
      | None => rituals
      end
  | None => rituals
  end.

Definition eye_drop (rituals : Obj.t Ritual.t) (dropType : DropType)
  : Obj.t Ritual.t :=
  match dropType with
  | systane => apply_drop rituals "ritual_morning_prep" "eye_drops_systane"
  | emoxipin => apply_drop rituals "ritual_evening_prep" "eye_emoxipin_4"
  | midramax => apply_drop rituals "ritual_evening_prep" "eye_midramax"
  end.

Definition process (st : Locals) (event : Event) : Eff Locals :=
  match event with
  | ritual_step_completed _ ritualId stepId =>
      ret (mkLocals (complete_step (l_rituals st) ritualId stepId)
                    (l_plants st) (l_glucose st))
  | eye_drop_applied _ dropType =>
      ret (mkLocals (eye_drop (l_rituals st) dropType) (l_plants st) (l_glucose st))
  | watering_done ts plantId =>
      match Obj.get (l_plants st) plantId with
      | Some plant =>
          plant' <- water plant ts ;;
          ret (mkLocals (l_rituals st) (Obj.set (l_plants st) plantId plant')
                        (l_glucose st))
      | None => ret st
      end
  | glucose_measured ts value =>
      ret (mkLocals (l_rituals st) (l_plants st)
                    (mkGlucose (Some (value, ts)) (classify value)))
  | plant_profile_updated _ plantId p =>
      match Obj.get (l_plants st) plantId with
      | Some plant =>
          ret (mkLocals (l_rituals st)
                        (Obj.set (l_plants st) plantId (with_profile plant p))
                        (l_glucose st))
      | None => ret st
      end
  | med_taken _ _ _ | app_init _ | focus_lost _ | backup_created _ _ => ret st
  end.

Fixpoint process_all (events : list Event) (st : Locals) : Eff Locals :=
  match events with
  | [] => ret st
  | event :: rest => st' <- process st event ;; process_all rest st'
  end.

(** [DerivedState] as [types.ts] declares it. *)
Record Derived : Type := mkDerived {
  today : Z;
  rituals : Obj.t Ritual.t;
  plants : Obj.t Plant.t;
  glucose : Glucose;
  anchors : Anchors.t;
  overdueCount : Z
}.

Definition deriveState (events : list Event) : Eff Derived :=
  today <- Date_now ;;
  plants0 <- defaultPlants ;;
  st <- process_all events
          (mkLocals defaultRituals plants0 (mkGlucose None GStatus.unknown)) ;;
  now <- Date_now ;;
  ret (mkDerived today (l_rituals st) (l_plants st) (l_glucose st)
         (Anchors.mk None
            (first_at_risk (l_plants st) Risk.high)
            (match last (l_glucose st), status (l_glucose st) with
             | Some _, GStatus.low => Some "rest_teabreak"
             | _, _ => None
             end))
         (count_overdue (l_plants st) now)).

End Legacy.

(** * Notions the statements use *)

(** A computation is [steady] when, on clocks standing at one instant, its
    value depends on neither the clock nor the reads made before it. *)
Definition steady {A : Type} (m : Eff A) : Prop :=
  forall (T : Z) (c c' : Clock) (n n' : nat),
    fixed_at T c -> fixed_at T c' -> value_of m c n = value_of m c' n'.

(** The locals at the end of the loop of one pass. *)
Definition loop (events : list Event) : Eff L.t :=
  today <- Date_now ;;
  plants0 <- defaultPlants ;;
  process_all events (initial plants0).

(** The locals apart from the two tallies. *)
Definition core (st : L.t) : Obj.t Ritual.t * Obj.t Plant.t * Glucose :=
  (L.rituals st, L.plants st, L.glucose st).

(** A test on a step of a ritual, [false] when the ritual or the step is
    not there. *)
Definition step_has (P : Step.t -> bool) (rituals : Obj.t Ritual.t)
    (ritualId stepId : string) : bool :=
  match Obj.get rituals ritualId with
  | Some ritual =>
      match find_step (Ritual.steps ritual) stepId with
      | Some step => P step
      | None => false
      end
  | None => false
  end.

(** The [completed] flag of a step of a ritual. *)
Definition step_done : Obj.t Ritual.t -> string -> string -> bool :=
  step_has Step.completed.

(** The ritual has a step of that id. *)
Definition step_present : Obj.t Ritual.t -> string -> string -> bool :=
  step_has (fun _ => true).

(** No string occurs twice. *)
Fixpoint distinct (l : list string) : bool :=
  match l with
  | [] => true
  | x :: rest => negb (existsb (String.eqb x) rest) && distinct rest
  end.

(** An unmet dependency, in the words of the specification: a sibling step
    that is not completed or, for an id that names no sibling, a ritual
    that is not completed. *)
Definition dependency_unmet (rituals : Obj.t Ritual.t) (ritual : Ritual.t)
    (depId : string) : bool :=
  match find_step (Ritual.steps ritual) depId with
  | Some depStep => negb (Step.completed depStep)
  | None =>
      match Obj.get rituals depId with
      | Some r => negb (Ritual.completed r)
      | None => false
      end
  end.

Definition has_unmet_dependency (rituals : Obj.t Ritual.t) (ritual : Ritual.t)
    (step : Step.t) : bool :=
  match Step.dependencies step with
  | Some deps => existsb (dependency_unmet rituals ritual) deps
  | None => false
  end.

(** The risk tiers in the words of the specification: [high] if
    [now > nextDue], [medium] if [nextDue - now <= 12h], else [low]. *)
Definition risk_in_words (now nextDue : Z) : Risk.t :=
  if now >? nextDue then Risk.high
  else if nextDue - now <=? 12 * (60 * 60 * 1000) then Risk.medium
  else Risk.low.

(** Every plant's risk level is the tier of its [nextDue] against [T]. *)
Definition risk_current (T : Z) (plants : Obj.t Plant.t) : Prop :=
  Forall (fun plant => Plant.riskLevel plant = risk_of (Plant.nextDue plant) T)
         (map snd plants).

(** The event names the plant in a [watering_done]. *)
Definition waters (plantId : string) (event : Event) : bool :=
  match event with
  | watering_done _ p => String.eqb p plantId
  | _ => false
  end.

(** The three fields a watering writes. *)
Definition watering_view (plant : Plant.t) : option Z * Z * Risk.t :=
  (Plant.lastWatered plant, Plant.nextDue plant, Plant.riskLevel plant).

(** The steps whose display name is the given one, as ritual and step id. *)
Definition steps_named (name : string) (rituals : Obj.t Ritual.t)
  : list (string * string) :=
  flat_map (fun kv =>
              map (fun s => (fst kv, Step.id s))
                  (filter (fun s => String.eqb (Step.name s) name)
                          (Ritual.steps (snd kv))))
           rituals.

(** The name the catalog gives every step that asks for Systane drops. *)
Definition systane_step_name : string := "Капли Систейн".

(** ** Sample inputs *)

Definition sample_state : AppState :=
  mkAppState "1.0" 0
    [ app_init 0;
      ritual_step_completed 10 "ritual_lunch_prep" "meal_breakfast";
      watering_done 20 "plant_monstera";
      glucose_measured 30 (Finite 5.1) ]
    (mkMeta "user" None None).

Definition emoxipin_first : list Event := [ eye_drop_applied 0 emoxipin ].

Definition emoxipin_step_event : Event :=
  ritual_step_completed 1 "ritual_evening_prep" "eye_emoxipin_4".

Definition water_gerda_at_0 : list Event :=
  [ watering_done 0 "plant_schefflera_gerda" ].

Definition water_monstera_long_ago : list Event :=
  [ watering_done 0 "plant_monstera" ].

Definition systane_only : list Event := [ eye_drop_applied 0 systane ].

Definition morning_with_drops_last : list Event :=
  [ ritual_step_completed 1 "ritual_morning_prep" "estraderm_morning";
    ritual_step_completed 2 "ritual_morning_prep" "med_fortedertrim";
    ritual_step_completed 3 "ritual_morning_prep" "med_folic";
    ritual_step_completed 4 "ritual_morning_prep" "med_mg_1";
    eye_drop_applied 5 systane ].

Definition low_glucose_only : list Event := [ glucose_measured 0 (Finite 3.0) ].

(** * Further notions: what the loop keeps and what events do *)

(** A step without its [completed] flag. *)
Definition step_shape (s : Step.t) : string * string * option (list string) :=
  (Step.id s, Step.name s, Step.dependencies s).

(** An entry of [rituals] without the flags of the ritual and its steps. *)
Definition ritual_shape (kv : string * Ritual.t)
  : string * (string * string * list (string * string * option (list string))
              * option (list string) * option string * option Z) :=
  (fst kv,
   (Ritual.id (snd kv), Ritual.name (snd kv),
    map step_shape (Ritual.steps (snd kv)),
    Ritual.dependencies (snd kv), Ritual.trainer (snd kv),
    Ritual.duration (snd kv))).

Definition rituals_shape (rituals : Obj.t Ritual.t) :=
  map ritual_shape rituals.

(** An entry of [plants] without what watering and profile updates write. *)
Definition plant_identity (kv : string * Plant.t) : string * string * string * bool :=
  (fst kv, Plant.id (snd kv), Plant.name (snd kv), Plant.isWinter (snd kv)).

(** The keys of the plant catalog, in the order of the literal. *)
Definition plantIds : list string :=
  [ "plant_schefflera_gerda"; "plant_schefflera_nora"; "plant_ficus_elastica";
    "plant_monstera"; "plant_nolina"; "plant_dracena"; "plant_peperomia";
    "plant_yucca_big"; "plant_yucca_small"; "plant_philodendron";
    "plant_elka_conica" ].

(** An event the loop has no write for: the four kinds without a handler
    body, and a watering or profile update that names no plant of the
    catalog. *)
Definition inert (event : Event) : bool :=
  match event with
  | app_init _ | med_taken _ _ _ | focus_lost _ | backup_created _ _ => true
  | watering_done _ p | plant_profile_updated _ p _ =>
      negb (existsb (String.eqb p) plantIds)
  | ritual_step_completed _ _ _ | eye_drop_applied _ _ | glucose_measured _ _ => false
  end.

Definition inert_sample : list Event :=
  [ watering_done 5 "plant_schefflera_gerda"; glucose_measured 6 (Finite 4.0) ].

(** The rituals the eye-drop handler writes into. *)
Definition drop_rituals : list string :=
  [ "ritual_morning_prep"; "ritual_evening_prep"; "w1d5e"; "w1d6g" ].

(** What the loop keeps of the flag of a ritual: it is never up before
    every step is completed, and outside the rituals eye drops write into
    it is exactly the conjunction of the steps' flags. *)
Definition flag_kept (kv : string * Ritual.t) : Prop :=
  (Ritual.completed (snd kv) = true ->
   forallb Step.completed (Ritual.steps (snd kv)) = true) /\
  (existsb (String.eqb (fst kv)) drop_rituals = false ->
   Ritual.completed (snd kv) = forallb Step.completed (Ritual.steps (snd kv))).

Definition dental_in_full : list Event :=
  [ ritual_step_completed 1 "ritual_dental" "dental_brush";
    ritual_step_completed 2 "ritual_dental" "dental_floss";
    ritual_step_completed 3 "ritual_dental" "dental_mouthwash" ].

(** The event is a [ritual_step_completed] carrying that step id. *)
Definition names_step (stepId : string) (event : Event) : bool :=
  match event with
  | ritual_step_completed _ _ s => String.eqb s stepId
  | _ => false
  end.

(** How many events of the log are [ritual_step_completed] events carrying
    that step id, whatever ritual they name. *)
Fixpoint completions_of (stepId : string) (log : list Event) : Z :=
  match log with
  | [] => 0
  | event :: rest => Z.b2z (names_step stepId event) + completions_of stepId rest
  end.

Definition lecture_thrice : list Event :=
  [ ritual_step_completed 1 "lecture" "lecture_done";
    ritual_step_completed 2 "no_such_ritual" "lecture_done";
    ritual_step_completed 3 "lecture" "lecture_done";
    ritual_step_completed 4 "work_email" "work_email_check_1";
    ritual_step_completed 5 "work_email" "work_email_check_1" ].

(** The ritual has the step, and every dependency the step declares names
    neither a step of the ritual nor a ritual: none can hold it back. *)
Definition ungated (rituals : Obj.t Ritual.t) (ritualId stepId : string) : bool :=
  match Obj.get rituals ritualId with
  | Some ritual =>
      match find_step (Ritual.steps ritual) stepId with
      | Some step =>
          match Step.dependencies step with
          | Some deps =>
              forallb (fun d =>
                         match find_step (Ritual.steps ritual) d, Obj.get rituals d with
                         | None, None => true
                         | _, _ => false
                         end) deps
          | None => true
          end
      | None => false
      end
  | None => false
  end.

(** The steps that declare dependencies none of which can hold them back. *)
Definition idle_dependencies (rituals : Obj.t Ritual.t) : list (string * string) :=
  flat_map (fun kv =>
              map (fun s => (fst kv, Step.id s))
                  (filter (fun s =>
                             match Step.dependencies s with
                             | Some (_ :: _) => ungated rituals (fst kv) (Step.id s)
                             | _ => false
                             end)
                          (Ritual.steps (snd kv))))
           rituals.

Definition two_plants_due : list Event :=
  [ watering_done 0 "plant_nolina"; watering_done 0 "plant_monstera" ].

Definition monthly : PlantProfile := mkProfile (30, 40) 1.0 None 2.

(** * The manager with its listeners

    [AppStateManager] as a whole: the state it owns and the two listener
    arrays.  A callback is known by its reference, a number here, and
    listeners only observe: what a call of [addEvent] does to them is the
    list of calls it makes, in order. *)

Module Manager.

Definition Listener : Type := nat.

Record t : Type := mk {
  state : AppState;
  eventListeners : list Listener;
  stateListeners : list Listener
}.

Inductive Call : Type :=
| event_call (listener : Listener) (event : Event)
| state_call (listener : Listener) (derivedState : DerivedState).

(** [listeners.indexOf(callback)], [None] for -1. *)
Fixpoint indexOf (listeners : list Listener) (callback : Listener) : option nat :=
  match listeners with
  | [] => None
  | l :: rest =>
      if Nat.eqb l callback then Some 0%nat
      else option_map S (indexOf rest callback)
  end.

(** [listeners.splice(index, 1)] *)
Fixpoint splice (listeners : list Listener) (index : nat) : list Listener :=
  match listeners, index with
  | [], _ => []
  | _ :: rest, O => rest
  | l :: rest, S i => l :: splice rest i
  end.

(** The function [subscribeToEvents] and [subscribeToState] return. *)
Definition unsubscribe (listeners : list Listener) (callback : Listener)
  : list Listener :=
  match indexOf listeners callback with
  | Some index => splice listeners index
  | None => listeners
  end.

Definition subscribeToEvents (m : t) (callback : Listener) : t :=
  mk (state m) (eventListeners m ++ [callback]) (stateListeners m).

Definition unsubscribeFromEvents (m : t) (callback : Listener) : t :=
  mk (state m) (unsubscribe (eventListeners m) callback) (stateListeners m).

Definition subscribeToState (m : t) (callback : Listener) : t :=
  mk (state m) (eventListeners m) (stateListeners m ++ [callback]).

Definition unsubscribeFromState (m : t) (callback : Listener) : t :=
  mk (state m) (eventListeners m) (unsubscribe (stateListeners m) callback).

(** [addEvent]: push, stamp, call the event listeners, derive, call the
    state listeners - with listeners that return without touching the
    manager ([Live] has listeners that act). *)
Definition addEvent (m : t) (event : Event) : Eff (t * list Call) :=
  r <- addEvent (state m) event ;;
  ret (mk (fst r) (eventListeners m) (stateListeners m),
       (map (fun l => event_call l event) (eventListeners m)
        ++ map (fun l => state_call l (snd r)) (stateListeners m))%list).

(** [new AppStateManager(initialState)]; the identifier [uuidv4 ()] draws
    and the device name are given. *)
Definition construct (initialState : option AppState) (uuid deviceName : string)
  : Eff (t * list Call) :=
  match initialState with
  | Some s => ret (mk s [] [], [])
  | None =>
      stamp <- Date_now ;;
      ts <- Date_now ;;
      addEvent (mk (mkAppState "1.0" stamp [] (mkMeta uuid (Some deviceName) None))
                   [] [])
               (app_init ts)
  end.

Definition getDerivedState (m : t) : Eff DerivedState := getDerivedState (state m).

Definition getAppState (m : t) : AppState := state m.

End Manager.

Definition listening_manager : Manager.t :=
  Manager.mk sample_state [7%nat; 8%nat] [9%nat].

(** * The page: what [main.ts] shows and what a click does

    The variant of [SonechkaUI] that computes its anchors from the derived
    state.  Of the rendering, the list of anchor items and the data of the
    ritual cards are modelled, not the markup; the day of the week and the
    outcome of the glucose dialog are given. *)

Inductive ItemName : Type :=
| glucose_label (value : number)        (* `Глюкоза (${value})` *)
| label (text : string).

Module AnchorItem.
Record t : Type := mk {
  name : ItemName;
  status : string;
  type : string;
  ritualId : option string;
  plantId : option string;
  stepId : option string
}.
End AnchorItem.

Module UI.

(** The item for the first step not completed of a ritual whose flag is
    down; written out twice in [renderAnchors], for the morning ritual as
    ['health'] and for the make-up ritual as ['selfcare']. *)
Definition pending_item (state : DerivedState) (ritualKey type : string)
  : list AnchorItem.t :=
  match Obj.get (rituals state) ritualKey with
  | Some ritual =>
      if negb (Ritual.completed ritual) then
        match find (fun step => negb (Step.completed step)) (Ritual.steps ritual) with
        | Some pendingStep =>
            [ AnchorItem.mk (label (Step.name pendingStep)) "⏳" type
                     (Some ritualKey) None (Some (Step.id pendingStep)) ]
        | None => []
        end
      else []
  | None => []
  end.

Definition health_items (state : DerivedState) : list AnchorItem.t :=
  match status (glucose state), last (glucose state) with
  | GStatus.low, Some (value, _) =>
      [ AnchorItem.mk (glucose_label value) "🔴" "glucose" None None None ]
  | _, _ => pending_item state "ritual_morning_prep" "health"
  end.

Definition statusIcon (r : Risk.t) : string :=
  match r with
  | Risk.high => "🔴"
  | Risk.medium => "🟡"
  | Risk.low => "🟢"
  end.

Definition plant_items (state : DerivedState) : list AnchorItem.t :=
  if truthy (Anchors.plants (anchors state)) then
    match Anchors.plants (anchors state) with
    | Some key =>
        match Obj.get (plants state) key with
        | Some plant =>
            [ AnchorItem.mk (label (Plant.name plant)) (statusIcon (Plant.riskLevel plant))
                     "plant" None (Some (Plant.id plant)) None ]
        | None => []
        end
    | None => []
    end
  else [].

Definition work_items (state : DerivedState) (dayOfWeek : Z) : list AnchorItem.t :=
  if emailChecks (work state) <? 2 then
    if (1 <=? dayOfWeek) && (dayOfWeek <=? 5) then
      [ AnchorItem.mk (label "Проверка почты") "⏳" "work" (Some "work_email") None None ]
    else []
  else [].

Definition anchorItems (state : DerivedState) (dayOfWeek : Z) : list AnchorItem.t :=
  (health_items state ++ plant_items state
   ++ pending_item state "ritual_makeup" "selfcare"
   ++ work_items state dayOfWeek)%list.

(** [anchorItems.slice(0, 5)] *)
Definition limitedAnchors (state : DerivedState) (dayOfWeek : Z) : list AnchorItem.t :=
  firstn 5 (anchorItems state dayOfWeek).

(** [a || b] on strings that may be undefined. *)
Definition or_else (a : option string) (b : string) : string :=
  match a with
  | Some s => if String.eqb s "" then b else s
  | None => b
  end.

(** The three arguments the markup of an item passes to
    [handleAnchorClick].  The markup splices them between single quotes;
    the ids of the catalog hold no quote and no markup character. *)
Definition click_arguments (item : AnchorItem.t) : string * string * string :=
  (AnchorItem.type item,
   or_else (AnchorItem.ritualId item) (or_else (AnchorItem.plantId item) ""),
   or_else (AnchorItem.stepId item) "").

Definition is_empty (s : string) : bool := String.eqb s "".

(** [markStepComplete], up to the call of [addEvent]. *)
Definition markStepComplete (ritualId stepId : string) : Eff Event :=
  ts <- Date_now ;;
  ret (ritual_step_completed ts ritualId stepId).

(** [handleAnchorClick], up to the call of [addEvent]: the event it adds,
    if any.  [answer] is what [parseFloat] made of the dialog's text,
    [None] when the dialog was dismissed. *)
Definition handleAnchorClick (type id stepId : string) (answer : option number)
  : Eff (option Event) :=
  if String.eqb type "plant" && negb (is_empty id) then
    ts <- Date_now ;;
    ret (Some (watering_done ts id))
  else if String.eqb type "glucose" then
    match answer with
    | Some NaN | None => ret None
    | Some value =>
        ts <- Date_now ;;
        ret (Some (glucose_measured ts value))
    end
  else if String.eqb type "health" || String.eqb type "selfcare"
          || String.eqb type "work" then
    if negb (is_empty id) && negb (is_empty stepId) then
      event <- markStepComplete id stepId ;;
      ret (Some event)
    else ret None
  else ret None.

(** A click on a rendered item. *)
Definition click (item : AnchorItem.t) (answer : option number) : Eff (option Event) :=
  handleAnchorClick (fst (fst (click_arguments item)))
                    (snd (fst (click_arguments item)))
                    (snd (click_arguments item)) answer.

(** [updateDayEndButton]: the value it gives [disabled]. *)
Definition dayEndDisabled (state : DerivedState) : bool :=
  let flag key :=
    match Obj.get (rituals state) key with
    | Some ritual => Ritual.completed ritual
    | None => false
    end in
  let healthRitualsComplete := flag "ritual_morning_prep" && flag "ritual_evening_prep" in
  let glucoseOk :=
    match status (glucose state) with
    | GStatus.low => false
    | _ => true
    end in
  let workComplete := 2 <=? emailChecks (work state) in
  negb (healthRitualsComplete && glucoseOk && workComplete).

(** [renderRituals]: the rituals it lists, and the arguments of the
    buttons it draws, in the order of the page. *)
Definition incompleteRituals (state : DerivedState) : list Ritual.t :=
  filter (fun ritual => negb (Ritual.completed ritual)) (map snd (rituals state)).

Definition stepButtons (state : DerivedState) : list (string * string) :=
  flat_map
    (fun ritual =>
       map (fun step => (Ritual.id ritual, Step.id step))
           (filter (fun step => negb (Step.completed step)) (Ritual.steps ritual)))
    (incompleteRituals state).

End UI.

(** Every ritual sits under its own id, no key occurs twice, and no ritual
    has two steps of one id. *)
Definition well_keyed (rs : Obj.t Ritual.t) : bool :=
  distinct (Obj.keys rs) &&
  forallb (fun kv => String.eqb (Ritual.id (snd kv)) (fst kv) &&
                     distinct (map Step.id (Ritual.steps (snd kv)))) rs.

Definition full_day_with_drops_last : list Event :=
  (morning_with_drops_last ++
   [ ritual_step_completed 10 "ritual_evening_prep" "meal_dinner";
     ritual_step_completed 11 "ritual_evening_prep" "eye_emoxipin_4";
     ritual_step_completed 12 "ritual_evening_prep" "med_ki_2";
     ritual_step_completed 13 "ritual_evening_prep" "med_mg_3";
     ritual_step_completed 14 "ritual_evening_prep" "med_stimol_3";
     ritual_step_completed 15 "ritual_evening_prep" "eye_midramax";
     ritual_step_completed 16 "ritual_evening_prep" "estraderm_evening";
     ritual_step_completed 17 "work_email" "work_email_check_1";
     ritual_step_completed 18 "work_email" "work_email_check_2" ])%list.

Definition full_day : list Event :=
  [ ritual_step_completed 1 "ritual_morning_prep" "eye_drops_systane";
    ritual_step_completed 2 "ritual_morning_prep" "estraderm_morning";
    ritual_step_completed 3 "ritual_morning_prep" "med_fortedertrim";
    ritual_step_completed 4 "ritual_morning_prep" "med_folic";
    ritual_step_completed 5 "ritual_morning_prep" "med_mg_1";
    ritual_step_completed 10 "ritual_evening_prep" "meal_dinner";
    ritual_step_completed 11 "ritual_evening_prep" "eye_emoxipin_4";
    ritual_step_completed 12 "ritual_evening_prep" "med_ki_2";
    ritual_step_completed 13 "ritual_evening_prep" "med_mg_3";
    ritual_step_completed 14 "ritual_evening_prep" "med_stimol_3";
    ritual_step_completed 15 "ritual_evening_prep" "eye_midramax";
    ritual_step_completed 16 "ritual_evening_prep" "estraderm_evening";
    ritual_step_completed 17 "work_email" "work_email_check_1";
    ritual_step_completed 18 "work_email" "work_email_check_2" ].


(** * The pass inside its realm

    The definitions above read [rituals[id]] and [plants[id]] as lookups
    among the entries of the object, and move dates by whole days of
    86400000 ms.  That is what the code does for the ids and dates an
    ordinary log carries.  This part follows the code where it leaves
    that ground:
    - a lookup that finds no entry goes on to [Object.prototype], whose
      members ([__proto__], [constructor], [toString], ...) are truthy;
    - a write through such a lookup lands on an object that outlives the
      pass: [Object.prototype] itself, one of its functions, or the
      profile object of an earlier event;
    - [for ... in] also visits what the program has added to
      [Object.prototype];
    - [setDate (getDate () + n)] counts days on the calendar of the host's
      zone, and [toISOString] throws outside the range of [Date];
    - a [TypeError] or [RangeError] ends the pass.
    Day counts are whole numbers, and every event of the log is an object
    of its own, named by its place in the log. *)

(** The rows of the [plants] literal: key, name, profile, and the days its
    first [nextDue] lies ahead. *)
Definition plantCatalog : list (string * string * PlantProfile * Z) :=
  [ ("plant_schefflera_gerda", "Шеффлера Герда", mkProfile (7, 10) 1.3 None 3, 7);
    ("plant_schefflera_nora", "Шеффлера Нора", mkProfile (8, 12) 1.3 None 3, 8);
    ("plant_ficus_elastica", "Фикус эластика", mkProfile (10, 14) 1.2 None 4, 10);
    ("plant_monstera", "Монстера", mkProfile (6, 9) 1.1 (Some 0.8%Q) 4, 6);
    ("plant_nolina", "Нолина", mkProfile (21, 28) 1.0 None 1, 21);
    ("plant_dracena", "Драцена", mkProfile (7, 10) 1.3 None 3, 7);
    ("plant_peperomia", "Пеперомия", mkProfile (10, 14) 1.2 None 2, 10);
    ("plant_yucca_big", "Юкка большая", mkProfile (14, 21) 1.0 None 1, 14);
    ("plant_yucca_small", "Юкка маленькая", mkProfile (14, 21) 1.0 None 2, 14);
    ("plant_philodendron", "Филодендрон", mkProfile (5, 7) 1.0 None 3, 5);
    ("plant_elka_conica", "Ель коника", mkProfile (10, 14) 1.0 None 5, 10) ].

(** The literal, row by row. *)
Fixpoint seed_rows (rows : list (string * string * PlantProfile * Z))
  : Eff (Obj.t Plant.t) :=
  match rows with
  | [] => ret []
  | (key, name, p, days) :: rest =>
      entry <- seed key name p days ;;
      entries <- seed_rows rest ;;
      ret (entry :: entries)
  end.

Module Js.

Inductive Error : Type := TypeError | RangeError.

Inductive Outcome (A : Type) : Type :=
| Returns (a : A)
| Throws (e : Error).

Arguments Returns {A} a.
Arguments Throws {A} e.

(** ** Dates *)

(** The largest time value of a [Date]. *)
Definition maxTime : Z := 8640000000000000.

Definition TimeClip (t : Z) : option Z :=
  if Z.abs t <=? maxTime then Some t else None.

Definition msPerDay : Z := 86400000.

(** The host's time zone: the offset of local time at an instant, and the
    offset [UTC] takes for a local time value. *)
Record Zone : Type := mkZone {
  offsetAt : Z -> Z;
  offsetOfLocal : Z -> Z
}.

Definition LocalTime (zone : Zone) (t : Z) : Z := t + offsetAt zone t.

Definition UTC (zone : Zone) (t : Z) : Z := t - offsetOfLocal zone t.

(** [d = new Date (ts); d.setDate (d.getDate () + n)]: the time value
    [d.toISOString ()] prints, if [d] is still a date.  A timestamp beyond
    the range of [Date] is a string [Date] cannot read. *)
Definition dueDate (zone : Zone) (ts n : Z) : option Z :=
  match TimeClip ts with
  | Some t => TimeClip (UTC zone (LocalTime zone t + n * msPerDay))
  | None => None
  end.

(** A zone whose offset never changes. *)
Definition fixedZone (offset : Z) : Zone := mkZone (fun _ => offset) (fun _ => offset).

Definition utc : Zone := fixedZone 0.

(** ** What the program can leave outside its locals *)

(** The four properties the handlers write, each with the kind of value
    written under it: the profile object of the event at a place of the
    log, the [ts] string of an event, a string printed by [toISOString],
    a risk level. *)
Inductive Val : Type :=
| profile (cell : nat) (p : PlantProfile)
| lastWatered (ts : Z)
| nextDue (t : Z)
| riskLevel (r : Risk.t).

Inductive Name : Type := n_profile | n_lastWatered | n_nextDue | n_riskLevel.

Definition name_of (v : Val) : Name :=
  match v with
  | profile _ _ => n_profile
  | lastWatered _ => n_lastWatered
  | nextDue _ => n_nextDue
  | riskLevel _ => n_riskLevel
  end.

Definition key_of (n : Name) : string :=
  match n with
  | n_profile => "profile"
  | n_lastWatered => "lastWatered"
  | n_nextDue => "nextDue"
  | n_riskLevel => "riskLevel"
  end.

Definition same_name (a b : Name) : bool :=
  match a, b with
  | n_profile, n_profile | n_lastWatered, n_lastWatered
  | n_nextDue, n_nextDue | n_riskLevel, n_riskLevel => true
  | _, _ => false
  end.

(** Written properties of one object, in the order of their creation. *)
Definition Props : Type := list Val.

Definition get_prop (props : Props) (n : Name) : option Val :=
  find (fun v => same_name (name_of v) n) props.

(** [o.name = v]: a property that exists keeps its place. *)
Fixpoint set_prop (props : Props) (v : Val) : Props :=
  match props with
  | [] => [v]
  | w :: rest =>
      if same_name (name_of w) (name_of v) then v :: rest
      else w :: set_prop rest v
  end.

(** The functions [Object.prototype] holds. *)
Definition builtinNames : list string :=
  [ "constructor"; "__defineGetter__"; "__defineSetter__"; "hasOwnProperty";
    "__lookupGetter__"; "__lookupSetter__"; "isPrototypeOf";
    "propertyIsEnumerable"; "toString"; "valueOf"; "toLocaleString" ].

(** What outlives a pass: the properties written on [Object.prototype],
    on its functions, and on the profile objects of the log's events. *)
Record Realm : Type := mkRealm {
  objectPrototype : Props;
  builtins : Obj.t Props;
  cells : list (nat * Props)
}.

(** The realm the program has not written to. *)
Definition cleanRealm : Realm := mkRealm [] [] [].

Definition clean (realm : Realm) : Prop := objectPrototype realm = [].

Fixpoint cell_props (cs : list (nat * Props)) (cell : nat) : Props :=
  match cs with
  | [] => []
  | (c, props) :: rest => if Nat.eqb c cell then props else cell_props rest cell
  end.

Fixpoint cell_update (cs : list (nat * Props)) (cell : nat) (v : Val)
  : list (nat * Props) :=
  match cs with
  | [] => [(cell, [v])]
  | (c, props) :: rest =>
      if Nat.eqb c cell then (c, set_prop props v) :: rest
      else (c, props) :: cell_update rest cell v
  end.

(** What [o[k]] evaluates to when [o] is a plain object that has no entry
    [k]: [Object.prototype] itself, one of its functions, the profile
    object or one of the strings written on it.  All of them are truthy:
    the strings are timestamps and risk levels, never empty. *)
Inductive Reached : Type :=
| the_prototype
| a_builtin (name : string)
| a_profile (cell : nat) (p : PlantProfile)
| a_string.

Definition reach (realm : Realm) (k : string) : option Reached :=
  if String.eqb k "__proto__" then Some the_prototype
  else if existsb (String.eqb k) builtinNames then Some (a_builtin k)
  else if String.eqb k "profile" then
    match get_prop (objectPrototype realm) n_profile with
    | Some (profile cell p) => Some (a_profile cell p)
    | _ => None
    end
  else if String.eqb k "lastWatered" then
    option_map (fun _ => a_string) (get_prop (objectPrototype realm) n_lastWatered)
  else if String.eqb k "nextDue" then
    option_map (fun _ => a_string) (get_prop (objectPrototype realm) n_nextDue)
  else if String.eqb k "riskLevel" then
    option_map (fun _ => a_string) (get_prop (objectPrototype realm) n_riskLevel)
  else None.

(** The written properties an object holds itself. *)
Definition own_props (realm : Realm) (x : Reached) : Props :=
  match x with
  | the_prototype => objectPrototype realm
  | a_builtin name =>
      match Obj.get (builtins realm) name with
      | Some props => props
      | None => []
      end
  | a_profile cell _ => cell_props (cells realm) cell
  | a_string => []
  end.

(** [x.name]: the object's own property, else the one of
    [Object.prototype]. *)
Definition read (realm : Realm) (x : Reached) (n : Name) : option Val :=
  match get_prop (own_props realm x) n with
  | Some v => Some v
  | None => get_prop (objectPrototype realm) n
  end.

(** [x.name = v] in strict code: an object takes the property, a string
    refuses it. *)
Definition write (realm : Realm) (x : Reached) (v : Val) : option Realm :=
  match x with
  | the_prototype =>
      Some (mkRealm (set_prop (objectPrototype realm) v) (builtins realm) (cells realm))
  | a_builtin name =>
      Some (mkRealm (objectPrototype realm)
              (Obj.set (builtins realm) name (set_prop (own_props realm x) v))
              (cells realm))
  | a_profile cell _ =>
      Some (mkRealm (objectPrototype realm) (builtins realm)
              (cell_update (cells realm) cell v))
  | a_string => None
  end.

(** ** Computations: the realm, the clock, and errors *)

Definition M (A : Type) : Type := Realm -> Clock -> nat -> Outcome A * Realm * nat.

Definition ret {A : Type} (a : A) : M A := fun realm _ n => (Returns a, realm, n).

Definition throw {A : Type} (e : Error) : M A := fun realm _ n => (Throws e, realm, n).

Definition bind {A B : Type} (m : M A) (f : A -> M B) : M B :=
  fun realm c n =>
    match m realm c n with
    | (Returns a, realm', n') => f a realm' c n'
    | (Throws e, realm', n') => (Throws e, realm', n')
    end.

Notation "x <~ m ;; k" := (bind m (fun x => k))
  (at level 61, m at next level, right associativity).

(** [Date.now ()], and [new Date ()] read as its instant. *)
Definition now : M Z := fun realm c n => (Returns (c n), realm, S n).

Definition the_realm : M Realm := fun realm _ n => (Returns realm, realm, n).

Definition put (realm : Realm) : M unit := fun _ _ n => (Returns tt, realm, n).

(** A computation of the pass that touches neither the realm nor an
    error. *)
Definition lift {A : Type} (m : Eff A) : M A :=
  fun realm c n => let (a, n') := m c n in (Returns a, realm, n').

Definition assign (x : Reached) (v : Val) : M unit :=
  realm <~ the_realm ;;
  match write realm x v with
  | Some realm' => put realm'
  | None => throw TypeError
  end.

(** ** The catalog of plants *)

(** One entry of the [plants] literal:
    [new Date (Date.now () + days * 24 * 60 * 60 * 1000).toISOString ()]. *)
Definition seed (row : string * string * PlantProfile * Z) : M (string * Plant.t) :=
  let '(key, name, p, days) := row in
  t <~ now ;;
  match TimeClip (t + days * 24 * 60 * 60 * 1000) with
  | Some due => ret (key, Plant.mk key name p None due Risk.low false)
  | None => throw RangeError
  end.

Fixpoint seed_all (rows : list (string * string * PlantProfile * Z))
  : M (Obj.t Plant.t) :=
  match rows with
  | [] => ret []
  | row :: rest =>
      entry <~ seed row ;;
      entries <~ seed_all rest ;;
      ret (entry :: entries)
  end.

Definition defaultPlants : M (Obj.t Plant.t) := seed_all plantCatalog.

(** ** Steps and their dependencies *)

(** One dependency id: a sibling step first, then [rituals[depId]].  What
    the lookup reaches on [Object.prototype] is truthy and has no
    [completed]. *)
Definition dependency_satisfied (realm : Realm) (rituals : Obj.t Ritual.t)
    (ritual : Ritual.t) (depId : string) : bool :=
  match find_step (Ritual.steps ritual) depId with
  | Some depStep => Step.completed depStep
  | None =>
      match Obj.get rituals depId with
      | Some r => Ritual.completed r
      | None =>
          match reach realm depId with
          | Some _ => false
          | None => true
          end
      end
  end.

Definition dependenciesMet (realm : Realm) (rituals : Obj.t Ritual.t)
    (ritual : Ritual.t) (step : Step.t) : bool :=
  match Step.dependencies step with
  | Some deps => forallb (dependency_satisfied realm rituals ritual) deps
  | None => true
  end.

(** [case "ritual_step_completed"].  A ritual id that reaches a member of
    [Object.prototype] passes the test [if (rituals[event.ritualId])], and
    [.steps.find] is then called on [undefined]. *)
Definition complete_step (rituals : Obj.t Ritual.t) (ritualId stepId : string)
  : M (Obj.t Ritual.t) :=
  realm <~ the_realm ;;
  match Obj.get rituals ritualId with
  | Some ritual =>
      match find_step (Ritual.steps ritual) stepId with
      | Some step =>
          if dependenciesMet realm rituals ritual step then
            let ritual' := with_steps ritual (mark_completed (Ritual.steps ritual) stepId) in
            let allStepsCompleted := forallb Step.completed (Ritual.steps ritual') in
            ret (Obj.set rituals ritualId (with_completed ritual' allStepsCompleted))
          else ret rituals
      | None => ret rituals
      end
  | None =>
      match reach realm ritualId with
      | Some _ => throw TypeError
      | None => ret rituals
      end
  end.

(** ** Watering and profiles *)

(** [case "watering_done"] for an entry of [plants]. *)
Definition water (zone : Zone) (plant : Plant.t) (ts : Z) : M Plant.t :=
  let intervalDays := fst (baseInterval (Plant.profile plant)) in
  match dueDate zone ts intervalDays with
  | Some due =>
      t <~ now ;;
      ret (Plant.mk (Plant.id plant) (Plant.name plant) (Plant.profile plant)
             (Some ts) due (risk_of due t) (Plant.isWinter plant))
  | None => throw RangeError
  end.

(** The same statements when [plants[event.plantId]] is not an entry of
    [plants]. *)
Definition water_reached (zone : Zone) (x : Reached) (ts : Z) : M unit :=
  _ <~ assign x (lastWatered ts) ;;
  realm <~ the_realm ;;
  match read realm x n_profile with
  | Some (profile _ p) =>
      match dueDate zone ts (fst (baseInterval p)) with
      | Some due =>
          _ <~ assign x (nextDue due) ;;
          t <~ now ;;
          assign x (riskLevel (risk_of due t))
      | None => throw RangeError
      end
  | _ => throw TypeError
  end.

(** ** The event loop *)

(** The body of [for (const event of this.state.events)], for the event at
    the place [cell] of the log. *)
Definition process (zone : Zone) (cell : nat) (st : L.t) (event : Event) : M L.t :=
  match event with
  | ritual_step_completed _ ritualId stepId =>
      let development := count_development (L.developmentCounters st) stepId in
      let work := count_work (L.workTracking st) stepId in
      rituals' <~ complete_step (L.rituals st) ritualId stepId ;;
      ret (L.mk rituals' (L.plants st) (L.glucose st) development work)
  | eye_drop_applied _ dropType =>
      ret (L.mk (eye_drop (L.rituals st) dropType)
                (L.plants st) (L.glucose st)
                (L.developmentCounters st) (L.workTracking st))
  | watering_done ts plantId =>
      match Obj.get (L.plants st) plantId with
      | Some plant =>
          plant' <~ water zone plant ts ;;
          ret (L.mk (L.rituals st) (Obj.set (L.plants st) plantId plant')
                    (L.glucose st) (L.developmentCounters st) (L.workTracking st))
      | None =>
          realm <~ the_realm ;;
          match reach realm plantId with
          | Some x => _ <~ water_reached zone x ts ;; ret st
          | None => ret st
          end
      end
  | glucose_measured ts value =>
      ret (L.mk (L.rituals st) (L.plants st)
                (mkGlucose (Some (value, ts)) (classify value))
                (L.developmentCounters st) (L.workTracking st))
  | plant_profile_updated _ plantId p =>
      match Obj.get (L.plants st) plantId with
      | Some plant =>
          ret (L.mk (L.rituals st) (Obj.set (L.plants st) plantId (with_profile plant p))
                    (L.glucose st) (L.developmentCounters st) (L.workTracking st))
      | None =>
          realm <~ the_realm ;;
          match reach realm plantId with
          | Some x => _ <~ assign x (profile cell p) ;; ret st
          | None => ret st
          end
      end
  | med_taken _ _ _ | app_init _ | focus_lost _ | backup_created _ _ => ret st
  end.

Fixpoint process_all (zone : Zone) (cell : nat) (events : list Event) (st : L.t)
  : M L.t :=
  match events with
  | [] => ret st
  | event :: rest =>
      st' <~ process zone cell st event ;;
      process_all zone (S cell) rest st'
  end.

(** ** After the loop *)

(** What [for (const plantId in plants)] visits, with what the loops read
    of [plants[plantId]]: its [nextDue] and its [riskLevel].  The entries
    of [plants] come first, then what the program has added to
    [Object.prototype]. *)
Definition inherited (realm : Realm) (v : Val)
  : list (string * (option Val * option Val)) :=
  match reach realm (key_of (name_of v)) with
  | Some x => [ (key_of (name_of v), (read realm x n_nextDue, read realm x n_riskLevel)) ]
  | None => []
  end.

Definition visited (realm : Realm) (plants : Obj.t Plant.t)
  : list (string * (option Val * option Val)) :=
  (map (fun kv => (fst kv, (Some (nextDue (Plant.nextDue (snd kv))),
                            Some (riskLevel (Plant.riskLevel (snd kv)))))) plants
   ++ flat_map (fun v => if existsb (String.eqb (key_of (name_of v))) (Obj.keys plants)
                         then [] else inherited realm v)
               (objectPrototype realm))%list.

Definition is_risk (v : option Val) (r : Risk.t) : bool :=
  match v, r with
  | Some (riskLevel Risk.low), Risk.low
  | Some (riskLevel Risk.medium), Risk.medium
  | Some (riskLevel Risk.high), Risk.high => true
  | _, _ => false
  end.

Definition first_at_risk (seen : list (string * (option Val * option Val)))
    (r : Risk.t) : option string :=
  option_map fst (find (fun kv => is_risk (snd (snd kv)) r) seen).

(** [now > new Date (plant.nextDue)]; a date made of [undefined] is
    beyond every instant. *)
Definition is_overdue (v : option Val) (t : Z) : bool :=
  match v with
  | Some (nextDue due) => t >? due
  | _ => false
  end.

Definition count_overdue (seen : list (string * (option Val * option Val)))
    (t : Z) : Z :=
  fold_left (fun n kv => if is_overdue (fst (snd kv)) t then n + 1 else n) seen 0.

Definition plants_anchor (seen : list (string * (option Val * option Val)))
  : option string :=
  let a := first_at_risk seen Risk.high in
  if negb (truthy a) then
    match first_at_risk seen Risk.medium with
    | Some plantId => Some plantId
    | None => a
    end
  else a.

Definition finish (realm : Realm) (today : Z) (st : L.t) (t : Z) : DerivedState :=
  mkDerived today (L.rituals st) (L.plants st) (L.glucose st)
    (Anchors.mk None (plants_anchor (visited realm (L.plants st)))
                (health_anchor (L.rituals st) (L.glucose st)))
    (count_overdue (visited realm (L.plants st)) t)
    (L.developmentCounters st) (L.workTracking st).

Definition deriveState (zone : Zone) (events : list Event) : M DerivedState :=
  today <~ now ;;
  plants0 <~ defaultPlants ;;
  st <~ process_all zone 0 events (initial plants0) ;;
  t <~ now ;;
  realm <~ the_realm ;;
  ret (finish realm today st t).

Definition getDerivedState (zone : Zone) (state : AppState) : M DerivedState :=
  deriveState zone (events state).

(** Two calls of [getDerivedState] in a row. *)
Definition derive_twice (zone : Zone) (events : list Event)
  : M (DerivedState * DerivedState) :=
  first <~ deriveState zone events ;;
  second <~ deriveState zone events ;;
  ret (first, second).

(** ** The logs the first part is about *)

(** The names a lookup can find on [Object.prototype]. *)
Definition reserved : list string :=
  ("__proto__" :: builtinNames ++ ["profile"; "lastWatered"; "nextDue"; "riskLevel"])%list.

(** An id that reaches nothing on [Object.prototype], whatever the program
    has written there. *)
Definition plain (k : string) : bool := negb (existsb (String.eqb k) reserved).

Definition plain_event (event : Event) : bool :=
  match event with
  | ritual_step_completed _ ritualId _ => plain ritualId
  | watering_done _ plantId => plain plantId
  | plant_profile_updated _ plantId _ => plain plantId
  | _ => true
  end.

(** Instants and day counts that keep every date of a pass inside the
    range of [Date]: instants within 8 * 10^15 ms of the epoch, intervals
    of at most 7 * 10^6 days. *)
Definition moderate_instant (t : Z) : bool := Z.abs t <=? 8000000000000000.

Definition moderate_days (n : Z) : bool := Z.abs n <=? 7000000.

Definition moderate_event (event : Event) : bool :=
  match event with
  | watering_done ts _ => moderate_instant ts
  | plant_profile_updated _ _ p => moderate_days (fst (baseInterval p))
  | _ => true
  end.

(** An ordinary log: plain ids, moderate dates. *)
Definition ordinary (events : list Event) : bool :=
  forallb (fun e => plain_event e && moderate_event e) events.

Definition moderate_clock (c : Clock) : Prop :=
  forall k, moderate_instant (c k) = true.

(** A computation that leaves the realm as it finds it, and throws nothing
    but a [RangeError]. *)
Definition keeps_realm {A : Type} (m : M A) : Prop :=
  forall (realm : Realm) (c : Clock) (n : nat),
    snd (fst (m realm c n)) = realm /\
    forall e, fst (fst (m realm c n)) = Throws e -> e = RangeError.

End Js.

(** Every dependency a step declares is a plain id. *)
Definition plain_dependencies (rituals : Obj.t Ritual.t) : bool :=
  forallb (fun kv =>
             forallb (fun step =>
                        match Step.dependencies step with
                        | Some deps => forallb Js.plain deps
                        | None => true
                        end)
                     (Ritual.steps (snd kv)))
          rituals.

(** Every plant's shortest interval is moderate. *)
Definition moderate_profiles (plants : Obj.t Plant.t) : bool :=
  forallb (fun kv => Js.moderate_days (fst (baseInterval (Plant.profile (snd kv)))))
          plants.

(** ** Sample inputs *)

Definition daily : PlantProfile := mkProfile (1, 2) 1.0 None 1.

(** A watering of [profile], then a profile written through [__proto__]. *)
Definition polluting_log : list Event :=
  [ watering_done 0 "profile"; plant_profile_updated 1 "__proto__" daily ].

Definition thirty_days : Z := 2592000000.

(** A zone that moves its clocks forward by an hour at the instant
    [change]: one hour ahead of UTC before, two hours after. *)
Definition springForward (change : Z) : Js.Zone :=
  Js.mkZone (fun t => if t <? change then 3600000 else 7200000)
            (fun local => if local <? change + 7200000 then 3600000 else 7200000).


Definition startup_log : list Event := [ app_init 0 ].

Definition six_days : Z := 518400000.

Definition seven_days : Z := 604800000.

(** * The manager with callbacks that act

    [addEvent] calls the listeners while it runs, from the arrays as they
    are at that moment: [for ... of] asks the array for its next element
    at every turn.  A callback can call the manager in turn, use a handle
    [subscribeToEvents] or [subscribeToState] returned, or throw; nothing
    in [addEvent] catches.  A callback is a number, the arrays hold
    numbers as in [Manager], and what each callback does when called is
    given by [Callbacks].  Callbacks reach the manager through its methods
    and leave the event or the state they are given as it is.  The call
    stack is taken to be deep enough. *)

Module Live.

(** What a callback does, in order, while it runs. *)
Inductive Action : Type :=
| unsubscribeFromEvents (callback : Manager.Listener)
| unsubscribeFromState (callback : Manager.Listener)
| subscribeToEvents (callback : Manager.Listener)
| subscribeToState (callback : Manager.Listener)
| addEvent (event : Event)
| getDerivedState
| throw (e : Js.Error).

Record Callbacks : Type := mkCallbacks {
  onEvent : Manager.Listener -> Event -> list Action;
  onState : Manager.Listener -> DerivedState -> list Action
}.

(** Callbacks that do nothing to the manager and return. *)
Definition passive : Callbacks := mkCallbacks (fun _ _ => []) (fun _ _ => []).

(** What is left to do: the rest of a callback's body, the rest of the
    loop over the event listeners of one [addEvent] (followed by its
    derivation and its loop over the state listeners), the rest of that
    second loop. *)
Inductive Frame : Type :=
| body (todo : list Action)
| notifyEvents (index : nat) (event : Event)
| notifyState (index : nat) (derivedState : DerivedState).

(** The manager, the realm, the reads of the clock made so far, and the
    calls of listeners made so far. *)
Record World : Type := mkWorld {
  manager : Manager.t;
  realm : Js.Realm;
  reads : nat;
  calls : list Manager.Call
}.

Inductive Status : Type :=
| Running (stack : list Frame) (w : World)
| Finished (o : Js.Outcome unit) (w : World).

Definition with_manager (w : World) (m : Manager.t) : World :=
  mkWorld m (realm w) (reads w) (calls w).

Definition called (w : World) (call : Manager.Call) : World :=
  mkWorld (manager w) (realm w) (reads w) (calls w ++ [call]).

(** [this.state.events.push (event); this.state.lastSaved = ...] *)
Definition push (c : Clock) (w : World) (event : Event) : World :=
  let m := manager w in
  let s := Manager.state m in
  mkWorld (Manager.mk (mkAppState (version s) (c (reads w)) (events s ++ [event]) (meta s))
                      (Manager.eventListeners m) (Manager.stateListeners m))
          (realm w) (S (reads w)) (calls w).

Definition step (cb : Callbacks) (zone : Js.Zone) (c : Clock)
    (stack : list Frame) (w : World) : Status :=
  match stack with
  | [] => Finished (Js.Returns tt) w
  | body [] :: rest => Running rest w
  | body (action :: todo) :: rest =>
      match action with
      | unsubscribeFromEvents l =>
          Running (body todo :: rest)
                  (with_manager w (Manager.unsubscribeFromEvents (manager w) l))
      | unsubscribeFromState l =>
          Running (body todo :: rest)
                  (with_manager w (Manager.unsubscribeFromState (manager w) l))
      | subscribeToEvents l =>
          Running (body todo :: rest)
                  (with_manager w (Manager.subscribeToEvents (manager w) l))
      | subscribeToState l =>
          Running (body todo :: rest)
                  (with_manager w (Manager.subscribeToState (manager w) l))
      | addEvent event =>
          Running (notifyEvents 0 event :: body todo :: rest) (push c w event)
      | getDerivedState =>
          match Js.deriveState zone (events (Manager.state (manager w)))
                               (realm w) c (reads w) with
          | (Js.Returns _, realm', reads') =>
              Running (body todo :: rest)
                      (mkWorld (manager w) realm' reads' (calls w))
          | (Js.Throws e, realm', reads') =>
              Finished (Js.Throws e) (mkWorld (manager w) realm' reads' (calls w))
          end
      | throw e => Finished (Js.Throws e) w
      end
  | notifyEvents index event :: rest =>
      match nth_error (Manager.eventListeners (manager w)) index with
      | Some l =>
          Running (body (onEvent cb l event) :: notifyEvents (S index) event :: rest)
                  (called w (Manager.event_call l event))
      | None =>
          match Js.deriveState zone (events (Manager.state (manager w)))
                               (realm w) c (reads w) with
          | (Js.Returns d, realm', reads') =>
              Running (notifyState 0 d :: rest)
                      (mkWorld (manager w) realm' reads' (calls w))
          | (Js.Throws e, realm', reads') =>
              Finished (Js.Throws e) (mkWorld (manager w) realm' reads' (calls w))
          end
      end
  | notifyState index d :: rest =>
      match nth_error (Manager.stateListeners (manager w)) index with
      | Some l =>
          Running (body (onState cb l d) :: notifyState (S index) d :: rest)
                  (called w (Manager.state_call l d))
      | None => Running rest w
      end
  end.

(** The run after so many steps. *)
Fixpoint run (cb : Callbacks) (zone : Js.Zone) (c : Clock) (fuel : nat)
    (stack : list Frame) (w : World) : Status :=
  match fuel with
  | O => Running stack w
  | S fuel' =>
      match step cb zone c stack w with
      | Running stack' w' => run cb zone c fuel' stack' w'
      | Finished o w' => Finished o w'
      end
  end.


(** A call of [addEvent] from outside, watched for [fuel] steps. *)
Definition call_addEvent (cb : Callbacks) (zone : Js.Zone) (c : Clock) (fuel : nat)
    (w : World) (event : Event) : Status :=
  run cb zone c fuel [body [addEvent event]] w.

End Live.

(** The manager after [push]. *)
Definition pushed (c : Clock) (w : Live.World) (event : Event) : Manager.t :=
  Live.manager (Live.push c w event).


(** A realm in which an earlier pass has left a profile on
    [Object.prototype]. *)
Definition writtenRealm : Js.Realm := Js.mkRealm [Js.profile 1 daily] [] [].

(** The callback 7 uses its handle when it is called. *)
Definition leaving : Live.Callbacks :=
  Live.mkCallbacks
    (fun l _ => if Nat.eqb l 7 then [Live.unsubscribeFromEvents 7%nat] else [])
    (fun _ _ => []).

Definition listening_world : Live.World :=
  Live.mkWorld listening_manager Js.cleanRealm 0 [].

(** * Properties *)

(** ** Entries of an object *)

Module ObjFacts.

Lemma get_set_same {A : Type} (o : Obj.t A) (k : string) (v : A) :
  Obj.get (Obj.set o k v) k = Some v.
Proof.
  induction o as [| [k' v'] rest IH]; simpl.
  - now rewrite String.eqb_refl.
  - destruct (String.eqb k k') eqn:E; simpl; rewrite E; auto.
Qed.

Lemma get_set_other {A : Type} (o : Obj.t A) (k k' : string) (v : A) :
  k' <> k -> Obj.get (Obj.set o k v) k' = Obj.get o k'.
Proof.
  intros Hne. induction o as [| [k0 v0] rest IH]; simpl.
  - apply String.eqb_neq in Hne. now rewrite Hne.
  - destruct (String.eqb k k0) eqn:E; simpl.
    + apply String.eqb_eq in E. subst k0.
      apply String.eqb_neq in Hne. now rewrite Hne.
    + now rewrite IH.
Qed.

Lemma get_set {A : Type} (o : Obj.t A) (k k' : string) (v : A) :
  Obj.get (Obj.set o k v) k' = if String.eqb k' k then Some v else Obj.get o k'.
Proof.
  destruct (String.eqb k' k) eqn:E.
  - apply String.eqb_eq in E. subst. apply get_set_same.
  - apply String.eqb_neq in E. now apply get_set_other.
Qed.

Lemma get_values {A : Type} (o : Obj.t A) (k : string) (v : A) :
  Obj.get o k = Some v -> In v (map snd o).
Proof.
  induction o as [| [k' v'] rest IH]; simpl; [discriminate |].
  destruct (String.eqb k k'); intros H.
  - injection H as ->. now left.
  - right. now apply IH.
Qed.

(** A property of all values survives a write of a value that has it. *)
Lemma Forall_set {A : Type} (P : A -> Prop) (o : Obj.t A) (k : string) (v : A) :
  Forall P (map snd o) -> P v -> Forall P (map snd (Obj.set o k v)).
Proof.
  intros Ho Hv. induction o as [| [k' v'] rest IH]; simpl.
  - constructor; [assumption | constructor].
  - inversion Ho as [| ? ? Hhd Htl]; subst.
    destruct (String.eqb k k'); simpl; constructor; auto.
Qed.

End ObjFacts.

(** ** Running computations *)

Section Running.

Context {A B : Type}.

Lemma bind_run (m : Eff A) (f : A -> Eff B) (c : Clock) (n : nat) :
  bind m f c n = f (fst (m c n)) c (snd (m c n)).
Proof. unfold bind. now destruct (m c n). Qed.

Lemma value_of_bind (m : Eff A) (f : A -> Eff B) (c : Clock) (n : nat) :
  value_of (bind m f) c n = value_of (f (value_of m c n)) c (snd (m c n)).
Proof. unfold value_of. now rewrite bind_run. Qed.

End Running.

Lemma steady_ret {A : Type} (a : A) : steady (ret a).
Proof. intros T c c' n n' _ _. reflexivity. Qed.

Lemma steady_now : steady Date_now.
Proof.
  intros T c c' n n' Hc Hc'. unfold value_of, Date_now. simpl.
  now rewrite Hc, Hc'.
Qed.

Lemma steady_bind {A B : Type} (m : Eff A) (f : A -> Eff B) :
  steady m -> (forall a, steady (f a)) -> steady (bind m f).
Proof.
  intros Hm Hf T c c' n n' Hc Hc'.
  rewrite !value_of_bind.
  rewrite (Hm T c c' n n' Hc Hc').
  now apply (Hf _ T).
Qed.

Ltac steady_tac :=
  repeat first
    [ apply steady_ret
    | apply steady_now
    | apply steady_bind; [| intros ?] ].

Lemma steady_seed (key name : string) (p : PlantProfile) (days : Z) :
  steady (seed key name p days).
Proof. unfold seed. steady_tac. Qed.

Lemma steady_defaultPlants : steady defaultPlants.
Proof.
  unfold defaultPlants.
  repeat (apply steady_bind; [apply steady_seed | intros ?]).
  apply steady_ret.
Qed.

Lemma steady_water (plant : Plant.t) (ts : Z) : steady (water plant ts).
Proof. unfold water. steady_tac. Qed.

Lemma steady_process (st : L.t) (event : Event) : steady (process st event).
Proof.
  destruct event; simpl; try apply steady_ret.
  - destruct (Obj.get (L.plants st) plantId); [| apply steady_ret].
    apply steady_bind; [apply steady_water | intros ?; apply steady_ret].
  - destruct (Obj.get (L.plants st) plantId); apply steady_ret.
Qed.

Lemma steady_process_all (events : list Event) :
  forall st, steady (process_all events st).
Proof.
  induction events as [| e rest IH]; intros st; simpl.
  - apply steady_ret.
  - apply steady_bind; [apply steady_process | intros st'; apply IH].
Qed.

Lemma steady_deriveState (events : list Event) : steady (deriveState events).
Proof.
  unfold deriveState.
  apply steady_bind; [apply steady_now | intros today].
  apply steady_bind; [apply steady_defaultPlants | intros plants0].
  apply steady_bind; [apply steady_process_all | intros st].
  apply steady_bind; [apply steady_now | intros now].
  apply steady_ret.
Qed.

(** ** The loop, event by event *)

Lemma process_all_app (l1 l2 : list Event) :
  forall st c n,
    process_all (l1 ++ l2) st c n =
    process_all l2 (fst (process_all l1 st c n)) c (snd (process_all l1 st c n)).
Proof.
  induction l1 as [| e rest IH]; intros st c n; simpl.
  - reflexivity.
  - rewrite !bind_run. apply IH.
Qed.

Lemma loop_app (l1 l2 : list Event) (c : Clock) (n : nat) :
  loop (l1 ++ l2) c n =
  process_all l2 (fst (loop l1 c n)) c (snd (loop l1 c n)).
Proof.
  unfold loop. rewrite !bind_run. apply process_all_app.
Qed.

Lemma loop_snoc (l : list Event) (e : Event) (c : Clock) (n : nat) :
  loop (l ++ [e]) c n = process (fst (loop l c n)) e c (snd (loop l c n)).
Proof.
  rewrite loop_app. simpl. rewrite bind_run. simpl.
  now destruct (process (fst (loop l c n)) e c (snd (loop l c n))).
Qed.

Lemma deriveState_loop (events : list Event) (c : Clock) (n : nat) :
  value_of (deriveState events) c n =
  finish (c n) (value_of (loop events) c n) (c (snd (loop events c n))).
Proof.
  unfold value_of, deriveState, loop.
  rewrite !bind_run. reflexivity.
Qed.

(** A property of the locals that every event preserves holds when the
    loop ends. *)
Lemma process_all_invariant (c : Clock) (P : L.t -> Prop) :
  (forall st e n, P st -> P (fst (process st e c n))) ->
  forall events st n, P st -> P (fst (process_all events st c n)).
Proof.
  intros Hstep events.
  induction events as [| e rest IH]; intros st n Hst; simpl.
  - exact Hst.
  - rewrite bind_run. apply IH. now apply Hstep.
Qed.

Lemma loop_invariant (c : Clock) (P : L.t -> Prop) :
  (forall n, P (initial (fst (defaultPlants c n)))) ->
  (forall st e n, P st -> P (fst (process st e c n))) ->
  forall events n, P (value_of (loop events) c n).
Proof.
  intros Hinit Hstep events n. unfold value_of, loop.
  rewrite !bind_run. apply process_all_invariant; auto.
Qed.

(** ** Adding an event *)

(** [addEvent] puts the event last and hands out the derivation of the
    longer log. *)
Lemma addEvent_log (state : AppState) (event : Event) (c : Clock) (n : nat) :
  events (fst (value_of (addEvent state event) c n)) = (events state ++ [event])%list /\
  snd (value_of (addEvent state event) c n) =
  value_of (deriveState (events state ++ [event])) c (S n).
Proof.
  unfold value_of, addEvent. rewrite !bind_run. simpl. split; reflexivity.
Qed.

(** ** Glucose *)

Lemma process_glucose_other (st : L.t) (e : Event) (c : Clock) (n : nat) :
  is_glucose_measured e = false ->
  L.glucose (fst (process st e c n)) = L.glucose st.
Proof.
  destruct e; simpl; try discriminate; intros _; try reflexivity.
  - destruct (Obj.get (L.plants st) plantId); [| reflexivity].
    rewrite bind_run. reflexivity.
  - destruct (Obj.get (L.plants st) plantId); reflexivity.
Qed.

Lemma process_all_glucose_other (events : list Event) :
  forallb (fun e => negb (is_glucose_measured e)) events = true ->
  forall st c n, L.glucose (fst (process_all events st c n)) = L.glucose st.
Proof.
  induction events as [| e rest IH]; simpl; intros H st c n.
  - reflexivity.
  - apply andb_true_iff in H. destruct H as [He Hrest].
    rewrite bind_run, IH by assumption.
    apply process_glucose_other. now destruct (is_glucose_measured e).
Qed.

Lemma deriveState_glucose (events : list Event) (c : Clock) (n : nat) :
  glucose (value_of (deriveState events) c n) = L.glucose (value_of (loop events) c n).
Proof. now rewrite deriveState_loop. Qed.

(** C10. A log with no [glucose_measured] event derives a glucose summary
    whose [last] is undefined and whose [status] is [unknown], a fourth
    value apart from [low], [optimal] and [high]. *)
Theorem glucose_unknown_without_measurement :
  forall (log : list Event) (c : Clock) (n : nat),
    forallb (fun e => negb (is_glucose_measured e)) log = true ->
    let g := glucose (value_of (deriveState log) c n) in
    last g = None /\ status g = GStatus.unknown /\
    GStatus.unknown <> GStatus.low /\
    GStatus.unknown <> GStatus.optimal /\
    GStatus.unknown <> GStatus.high.
Proof.
  intros log c n Hlog g. subst g.
  rewrite deriveState_glucose. unfold value_of, loop.
  rewrite !bind_run, process_all_glucose_other by assumption.
  simpl. repeat split; discriminate.
Qed.

Lemma glucose_unknown_without_measurement_witness :
  let log := [ app_init 0; eye_drop_applied 5 systane;
               watering_done 9 "plant_nolina" ] in
  let g := glucose (value_of (deriveState log) (fun k => Z.of_nat k) 0) in
  last g = None /\ status g = GStatus.unknown.
Proof.
  intros log g.
  destruct (glucose_unknown_without_measurement log (fun k => Z.of_nat k) 0
              eq_refl) as (H1 & H2 & _).
  split; assumption.
Defined.

Lemma classify_spec (value : number) :
  (Num.lt value (Finite 4.2) -> classify value = GStatus.low) /\
  (Num.le (Finite 4.2) value -> Num.le value (Finite 6.0) ->
   classify value = GStatus.optimal) /\
  (Num.lt (Finite 6.0) value -> classify value = GStatus.high).
Proof.
  unfold classify.
  destruct value as [q | | |]; simpl; repeat split; try tauto.
  - intros H. destruct (Qle_bool 4.2 q) eqn:E; [| reflexivity].
    apply Qle_bool_iff in E. exfalso. exact (Qlt_not_le _ _ H E).
  - intros H1 H2. apply Qle_bool_iff in H1. apply Qle_bool_iff in H2.
    now rewrite H1, H2.
  - intros H.
    assert (H42 : Qle_bool 4.2 q = true).
    { apply Qle_bool_iff. apply Qlt_le_weak.
      apply Qlt_trans with (y := 6.0%Q); [reflexivity | exact H]. }
    rewrite H42. simpl.
    destruct (Qle_bool q 6.0) eqn:E; [| reflexivity].
    apply Qle_bool_iff in E. exfalso. exact (Qlt_not_le _ _ H E).
Qed.

(** C3. Glucose classification and last-wins: the derived summary is that
    of the last [glucose_measured] event of the log: [last] is its value
    and timestamp, and [status] is [low] below 4.2, [optimal] from 4.2 to
    6.0 and [high] above 6.0; measurements before it have no effect. *)
Theorem glucose_last_measurement_wins :
  forall (before after : list Event) (ts : Z) (value : number)
         (c : Clock) (n : nat),
    forallb (fun e => negb (is_glucose_measured e)) after = true ->
    let g := glucose (value_of
               (deriveState (before ++ glucose_measured ts value :: after)) c n) in
    last g = Some (value, ts) /\
    (Num.lt value (Finite 4.2) -> status g = GStatus.low) /\
    (Num.le (Finite 4.2) value -> Num.le value (Finite 6.0) ->
     status g = GStatus.optimal) /\
    (Num.lt (Finite 6.0) value -> status g = GStatus.high).
Proof.
  intros before after ts value c n Hafter g.
  assert (Hg : g = mkGlucose (Some (value, ts)) (classify value)).
  { subst g. rewrite deriveState_glucose. unfold value_of.
    rewrite loop_app. simpl. rewrite bind_run.
    now rewrite process_all_glucose_other by assumption. }
  rewrite Hg. simpl. split; [reflexivity | apply classify_spec].
Qed.

Lemma glucose_last_measurement_wins_witness :
  let log := [ glucose_measured 1 (Finite 7.5); app_init 2;
               glucose_measured 3 (Finite 4.1999); focus_lost 4 ] in
  let g := glucose (value_of (deriveState log) (fun _ => 50) 0) in
  last g = Some (Finite 4.1999, 3) /\ status g = GStatus.low.
Proof.
  intros log g.
  destruct (glucose_last_measurement_wins
              [glucose_measured 1 (Finite 7.5); app_init 2] [focus_lost 4]
              3 (Finite 4.1999) (fun _ => 50) 0%nat eq_refl) as (H1 & H2 & _).
  split; [exact H1 | apply H2; reflexivity].
Defined.

(** The boundary readings of the specification. *)
Example glucose_boundaries :
  classify (Finite 4.2) = GStatus.optimal /\
  classify (Finite 4.1999) = GStatus.low /\
  classify (Finite 6.0) = GStatus.optimal /\
  classify (Finite 6.0001) = GStatus.high /\
  classify NaN = GStatus.high.
Proof. repeat split. Qed.

(** ** Steps only ever become completed *)

Lemma find_step_mark_same (steps : list Step.t) (x : string) (s : Step.t) :
  find_step steps x = Some s ->
  find_step (mark_completed steps x) x =
  Some (Step.mk (Step.id s) (Step.name s) true (Step.dependencies s)).
Proof.
  unfold find_step.
  induction steps as [| a rest IH]; simpl; [discriminate |].
  destruct (String.eqb (Step.id a) x) eqn:E; simpl; rewrite E.
  - intros H. now injection H as ->.
  - exact IH.
Qed.

Lemma find_step_mark_present (steps : list Step.t) (x y : string) (s : Step.t) :
  find_step steps y = Some s ->
  exists s', find_step (mark_completed steps x) y = Some s' /\
             (Step.completed s = true -> Step.completed s' = true).
Proof.
  unfold find_step.
  induction steps as [| a rest IH]; simpl; [discriminate |].
  intros Hfind.
  destruct (String.eqb (Step.id a) x) eqn:Ex; simpl.
  - destruct (String.eqb (Step.id a) y) eqn:Ey.
    + eexists. split; [reflexivity | reflexivity].
    + exists s. split; [assumption | auto].
  - destruct (String.eqb (Step.id a) y) eqn:Ey.
    + exists s. split; [assumption | auto].
    + now apply IH.
Qed.

Section Persistent.

(** A test that holds of a step once it holds, however much gets
    completed: being there, being completed. *)
Variable P : Step.t -> bool.
Hypothesis P_kept :
  forall s s' : Step.t,
    P s = true -> (Step.completed s = true -> Step.completed s' = true) ->
    P s' = true.

Lemma step_has_set_marked (rituals : Obj.t Ritual.t) (k x : string)
    (ritual ritual' : Ritual.t) (r s : string) :
  Obj.get rituals k = Some ritual ->
  Ritual.steps ritual' = mark_completed (Ritual.steps ritual) x ->
  step_has P rituals r s = true ->
  step_has P (Obj.set rituals k ritual') r s = true.
Proof.
  intros Hget Hsteps. unfold step_has.
  rewrite ObjFacts.get_set.
  destruct (String.eqb r k) eqn:E; [| auto].
  apply String.eqb_eq in E. subst r. rewrite Hget, Hsteps.
  destruct (find_step (Ritual.steps ritual) s) as [st |] eqn:Hfind; [| discriminate].
  intros HP.
  destruct (find_step_mark_present _ x s st Hfind) as (s' & -> & Hs').
  exact (P_kept st s' HP Hs').
Qed.

Lemma step_has_complete_step (rituals : Obj.t Ritual.t) (k x r s : string) :
  step_has P rituals r s = true ->
  step_has P (complete_step rituals k x) r s = true.
Proof.
  intros H. unfold complete_step.
  destruct (Obj.get rituals k) as [ritual |] eqn:Hget; [| exact H].
  destruct (find_step (Ritual.steps ritual) x); [| exact H].
  destruct (dependenciesMet rituals ritual _); [| exact H].
  now apply (step_has_set_marked rituals k x ritual).
Qed.

Lemma step_has_apply_drop (rituals : Obj.t Ritual.t) (k x r s : string) :
  step_has P rituals r s = true ->
  step_has P (apply_drop rituals k x) r s = true.
Proof.
  intros H. unfold apply_drop.
  destruct (Obj.get rituals k) as [ritual |] eqn:Hget; [| exact H].
  destruct (find_step (Ritual.steps ritual) x); [| exact H].
  now apply (step_has_set_marked rituals k x ritual).
Qed.

Lemma step_has_eye_drop (rituals : Obj.t Ritual.t) (d : DropType) (r s : string) :
  step_has P rituals r s = true ->
  step_has P (eye_drop rituals d) r s = true.
Proof.
  intros H. destruct d; simpl; repeat apply step_has_apply_drop; exact H.
Qed.

Lemma step_has_process (st : L.t) (e : Event) (c : Clock) (n : nat) (r s : string) :
  step_has P (L.rituals st) r s = true ->
  step_has P (L.rituals (fst (process st e c n))) r s = true.
Proof.
  intros H. destruct e; simpl; try exact H.
  - now apply step_has_complete_step.
  - now apply step_has_eye_drop.
  - destruct (Obj.get (L.plants st) plantId); [| exact H].
    rewrite bind_run. exact H.
  - destruct (Obj.get (L.plants st) plantId); exact H.
Qed.

End Persistent.

Lemma step_done_process (st : L.t) (e : Event) (c : Clock) (n : nat) (r s : string) :
  step_done (L.rituals st) r s = true ->
  step_done (L.rituals (fst (process st e c n))) r s = true.
Proof.
  apply step_has_process. intros s0 s' H Hkept. now apply Hkept.
Qed.

Lemma step_present_process (st : L.t) (e : Event) (c : Clock) (n : nat) (r s : string) :
  step_present (L.rituals st) r s = true ->
  step_present (L.rituals (fst (process st e c n))) r s = true.
Proof.
  apply step_has_process. reflexivity.
Qed.

Lemma deriveState_rituals (events : list Event) (c : Clock) (n : nat) :
  rituals (value_of (deriveState events) c n) = L.rituals (value_of (loop events) c n).
Proof. now rewrite deriveState_loop. Qed.

(** The catalog names every ritual once, and within a ritual every step
    once: [find] by id singles out one step. *)
Lemma catalog_ids_distinct :
  distinct (Obj.keys initialRituals) = true /\
  forallb (fun kv => distinct (map Step.id (Ritual.steps (snd kv))))
          initialRituals = true.
Proof. split; vm_compute; reflexivity. Qed.

(** C9. Monotonic completion: at a fixed instant, a step whose [completed]
    flag is true in the derivation of a log is still completed in the
    derivation of the log with any one event appended. *)
Theorem completion_monotone :
  forall (log : list Event) (e : Event) (T : Z) (c c' : Clock) (n n' : nat)
         (ritualId stepId : string),
    fixed_at T c -> fixed_at T c' ->
    step_done (rituals (value_of (deriveState log) c n)) ritualId stepId = true ->
    step_done (rituals (value_of (deriveState (log ++ [e])) c' n')) ritualId stepId = true.
Proof.
  intros log e T c c' n n' r s Hc Hc'.
  (* the first pass, moved to where the second one starts *)
  rewrite (steady_deriveState log T c c' n n' Hc Hc').
  rewrite !deriveState_rituals. unfold value_of.
  (* the second pass is the first followed by the one event *)
  rewrite loop_snoc. apply step_done_process.
Qed.

Lemma completion_monotone_witness :
  step_done (rituals (value_of (deriveState emoxipin_first) (fun _ => 7) 0))
            "ritual_evening_prep" "eye_emoxipin_4" = true /\
  step_done (rituals (value_of (deriveState (emoxipin_first ++ [watering_done 3 "plant_nolina"]))
                        (fun _ => 7) 5))
            "ritual_evening_prep" "eye_emoxipin_4" = true.
Proof.
  assert (H : step_done (rituals (value_of (deriveState emoxipin_first) (fun _ => 7) 0))
                "ritual_evening_prep" "eye_emoxipin_4" = true) by (vm_compute; reflexivity).
  split; [exact H |].
  apply (completion_monotone emoxipin_first (watering_done 3 "plant_nolina") 7
           (fun _ => 7) (fun _ => 7) 0 5);
    [intro k; reflexivity | intro k; reflexivity | exact H].
Defined.

(** The same for the log the manager holds before and after [addEvent]. *)
Corollary addEvent_keeps_completed (state : AppState) (e : Event) (T : Z)
    (c : Clock) (n n' : nat) (ritualId stepId : string) :
  fixed_at T c ->
  step_done (rituals (value_of (getDerivedState state) c n)) ritualId stepId = true ->
  step_done (rituals (snd (value_of (addEvent state e) c n'))) ritualId stepId = true.
Proof.
  intros Hc H.
  destruct (addEvent_log state e c n') as [_ ->].
  unfold getDerivedState in H.
  rewrite (steady_deriveState (events state) T c c n (S n') Hc Hc) in H.
  rewrite deriveState_rituals in *. unfold value_of in *.
  rewrite loop_snoc. now apply step_done_process.
Qed.

(** ** Dependency gating *)

Lemma dependency_unmet_not_satisfied (rituals : Obj.t Ritual.t) (ritual : Ritual.t)
    (depId : string) :
  dependency_unmet rituals ritual depId = negb (dependency_satisfied rituals ritual depId).
Proof.
  unfold dependency_unmet, dependency_satisfied.
  destruct (find_step (Ritual.steps ritual) depId); [reflexivity |].
  destruct (Obj.get rituals depId); reflexivity.
Qed.

Lemma has_unmet_dependency_not_met (rituals : Obj.t Ritual.t) (ritual : Ritual.t)
    (step : Step.t) :
  has_unmet_dependency rituals ritual step = negb (dependenciesMet rituals ritual step).
Proof.
  unfold has_unmet_dependency, dependenciesMet.
  destruct (Step.dependencies step) as [deps |]; [| reflexivity].
  induction deps as [| d rest IH]; simpl; [reflexivity |].
  rewrite IH, dependency_unmet_not_satisfied.
  now destruct (dependency_satisfied rituals ritual d).
Qed.

(** With an unmet dependency the handler writes nothing. *)
Lemma complete_step_gated (rituals : Obj.t Ritual.t) (ritualId stepId : string)
    (ritual : Ritual.t) (step : Step.t) :
  Obj.get rituals ritualId = Some ritual ->
  find_step (Ritual.steps ritual) stepId = Some step ->
  has_unmet_dependency rituals ritual step = true ->
  complete_step rituals ritualId stepId = rituals.
Proof.
  intros Hget Hfind Hunmet. unfold complete_step.
  rewrite Hget, Hfind.
  rewrite has_unmet_dependency_not_met in Hunmet.
  now destruct (dependenciesMet rituals ritual step).
Qed.

(** The handler completes the step exactly when [dependenciesMet] holds. *)
Lemma complete_step_met (rituals : Obj.t Ritual.t) (ritualId stepId : string)
    (ritual : Ritual.t) (step : Step.t) :
  Obj.get rituals ritualId = Some ritual ->
  find_step (Ritual.steps ritual) stepId = Some step ->
  dependenciesMet rituals ritual step = true ->
  step_done (complete_step rituals ritualId stepId) ritualId stepId = true.
Proof.
  intros Hget Hfind Hmet. unfold complete_step, step_done, step_has.
  rewrite Hget, Hfind, Hmet. rewrite ObjFacts.get_set_same. simpl.
  now rewrite (find_step_mark_same _ _ _ Hfind).
Qed.

(** The loop reads the two tallies nowhere: runs that start from locals
    with the same rituals, plants and glucose end with the same, after as
    many reads of the clock. *)
Lemma process_core (st1 st2 : L.t) (e : Event) (c : Clock) (n : nat) :
  core st1 = core st2 ->
  core (fst (process st1 e c n)) = core (fst (process st2 e c n)) /\
  snd (process st1 e c n) = snd (process st2 e c n).
Proof.
  destruct st1 as [r1 p1 g1 d1 w1], st2 as [r2 p2 g2 d2 w2].
  unfold core. cbn [L.rituals L.plants L.glucose].
  intros H. injection H as -> -> ->.
  destruct e; unfold process; cbn [L.rituals L.plants L.glucose];
    try (split; reflexivity).
  - destruct (Obj.get p2 plantId); [| split; reflexivity].
    rewrite !bind_run. split; reflexivity.
  - destruct (Obj.get p2 plantId); split; reflexivity.
Qed.

Lemma process_all_core (events : list Event) :
  forall st1 st2 c n,
    core st1 = core st2 ->
    core (fst (process_all events st1 c n)) = core (fst (process_all events st2 c n)) /\
    snd (process_all events st1 c n) = snd (process_all events st2 c n).
Proof.
  induction events as [| e rest IH]; intros st1 st2 c n H; simpl.
  - split; [exact H | reflexivity].
  - rewrite !bind_run.
    destruct (process_core st1 st2 e c n H) as [Hcore ->].
    now apply IH.
Qed.

(** C1. Dependency gating, as the code has it: a [ritual_step_completed]
    event whose step has an unmet dependency when it is folded writes
    nothing: the rituals, plants, glucose summary, anchors and overdue
    count derived from the log are those derived from the log without the
    event, and right after the event the step's [completed] flag has the
    value it had before, so a step that was not completed stays not
    completed. *)
Theorem gated_step_event_is_noop :
  forall (before after : list Event) (ts : Z) (ritualId stepId : string)
         (c : Clock) (n : nat) (ritual : Ritual.t) (step : Step.t),
    Obj.get (rituals (value_of (deriveState before) c n)) ritualId = Some ritual ->
    find_step (Ritual.steps ritual) stepId = Some step ->
    has_unmet_dependency (rituals (value_of (deriveState before) c n)) ritual step = true ->
    let e := ritual_step_completed ts ritualId stepId in
    let d0 := value_of (deriveState (before ++ after)) c n in
    let d1 := value_of (deriveState (before ++ e :: after)) c n in
    rituals d1 = rituals d0 /\ plants d1 = plants d0 /\ glucose d1 = glucose d0 /\
    anchors d1 = anchors d0 /\ overdueCount d1 = overdueCount d0 /\
    step_done (rituals (value_of (deriveState (before ++ [e])) c n)) ritualId stepId
      = Step.completed step.
Proof.
  intros before after ts ritualId stepId c n ritual step Hget Hfind Hunmet e d0 d1.
  rewrite deriveState_rituals in Hget, Hunmet. unfold value_of in Hget, Hunmet.
  set (st := fst (loop before c n)) in *.
  assert (Hstep : process st e c (snd (loop before c n)) =
                  (L.mk (L.rituals st) (L.plants st) (L.glucose st)
                        (count_development (L.developmentCounters st) stepId)
                        (count_work (L.workTracking st) stepId),
                   snd (loop before c n))).
  { unfold e, process, ret.
    now rewrite (complete_step_gated _ _ _ _ _ Hget Hfind Hunmet). }
  assert (Hrun : core (fst (loop (before ++ e :: after) c n)) =
                 core (fst (loop (before ++ after) c n)) /\
                 snd (loop (before ++ e :: after) c n) =
                 snd (loop (before ++ after) c n)).
  { rewrite !loop_app. fold st. cbn [process_all]. rewrite bind_run, Hstep.
    cbn [fst snd]. now apply process_all_core. }
  destruct Hrun as [Hcore Hreads].
  unfold core in Hcore. injection Hcore as Hr Hp Hg.
  assert (Hflag : step_done (rituals (value_of (deriveState (before ++ [e])) c n))
                    ritualId stepId = Step.completed step).
  { rewrite deriveState_rituals. unfold value_of. rewrite loop_snoc.
    fold st. rewrite Hstep. cbn [fst L.rituals].
    unfold step_done, step_has. now rewrite Hget, Hfind. }
  subst d0 d1. rewrite !deriveState_loop. unfold value_of, finish.
  cbn [rituals plants glucose anchors overdueCount].
  rewrite Hr, Hp, Hg, Hreads. repeat split.
  rewrite deriveState_rituals in Hflag. exact Hflag.
Qed.

Lemma gated_step_event_is_noop_witness :
  step_done (rituals (value_of
      (deriveState ([] ++ [ritual_step_completed 1 "ritual_lunch_prep" "med_ki_1"]))
      (fun _ => 0) 0)) "ritual_lunch_prep" "med_ki_1" = false.
Proof.
  edestruct gated_step_event_is_noop
    with (before := @nil Event) (after := @nil Event) (ts := 1)
         (ritualId := "ritual_lunch_prep") (stepId := "med_ki_1")
         (c := fun _ : nat => 0) (n := 0%nat)
    as (_ & _ & _ & _ & _ & H).
  - vm_compute. reflexivity.
  - vm_compute. reflexivity.
  - vm_compute. reflexivity.
  - exact H.
Defined.

(** A gated event does not always leave the flag false: the evening step
    [eye_emoxipin_4], already completed by the direct write of
    [eye_drop_applied], has the unmet dependency [meal_dinner] when its
    own event is folded, and its flag is true in the resulting state. *)
Lemma gated_step_may_be_completed :
  exists ritual step,
    Obj.get (rituals (value_of (deriveState emoxipin_first) (fun _ => 0) 0))
            "ritual_evening_prep" = Some ritual /\
    find_step (Ritual.steps ritual) "eye_emoxipin_4" = Some step /\
    has_unmet_dependency (rituals (value_of (deriveState emoxipin_first) (fun _ => 0) 0))
                         ritual step = true /\
    step_done (rituals (value_of (deriveState (emoxipin_first ++ [emoxipin_step_event]))
                          (fun _ => 0) 0))
              "ritual_evening_prep" "eye_emoxipin_4" = true.
Proof.
  eexists. eexists.
  split; [vm_compute; reflexivity |].
  split; [vm_compute; reflexivity |].
  split; vm_compute; reflexivity.
Qed.

(** ** Watering *)

Lemma timeDiffHours_le (nextDue now h : Z) :
  Qle_bool (timeDiffHours nextDue now) (inject_Z h) =
  (nextDue - now <=? h * (60 * 60 * 1000)).
Proof.
  unfold timeDiffHours, Qle_bool, Qdiv, Qmult, Qinv, inject_Z. simpl.
  rewrite !Z.mul_1_r. reflexivity.
Qed.

Lemma risk_of_tiers (nextDue now : Z) :
  risk_of nextDue now =
  if nextDue - now <=? 0 then Risk.high
  else if nextDue - now <=? 12 * (60 * 60 * 1000) then Risk.medium
  else Risk.low.
Proof.
  unfold risk_of.
  change 12%Q with (inject_Z 12). change 0%Q with (inject_Z 0).
  rewrite !timeDiffHours_le.
  destruct (Z.leb_spec (nextDue - now) (12 * (60 * 60 * 1000)));
    destruct (Z.leb_spec (nextDue - now) (0 * (60 * 60 * 1000)));
    destruct (Z.leb_spec (nextDue - now) 0); simpl; try reflexivity; lia.
Qed.

Lemma value_of_water (plant : Plant.t) (ts : Z) (c : Clock) (n : nat) :
  value_of (water plant ts) c n =
  Plant.mk (Plant.id plant) (Plant.name plant) (Plant.profile plant) (Some ts)
    (ts + fst (baseInterval (Plant.profile plant)) * (24 * 60 * 60 * 1000))
    (risk_of (ts + fst (baseInterval (Plant.profile plant)) * (24 * 60 * 60 * 1000)) (c n))
    (Plant.isWinter plant).
Proof. reflexivity. Qed.

Lemma deriveState_plants (events : list Event) (c : Clock) (n : nat) :
  plants (value_of (deriveState events) c n) = L.plants (value_of (loop events) c n).
Proof. now rewrite deriveState_loop. Qed.

Section StandingClock.

Variable T : Z.
Variable c : Clock.
Hypothesis c_fixed : fixed_at T c.

Lemma defaultPlants_fixed (n : nat) :
  value_of defaultPlants c n = value_of defaultPlants (fun _ => T) 0.
Proof.
  apply (steady_defaultPlants T); [exact c_fixed | intro k; reflexivity].
Qed.

Lemma risk_current_initial (n : nat) :
  risk_current T (L.plants (initial (fst (defaultPlants c n)))).
Proof.
  change (fst (defaultPlants c n)) with (value_of defaultPlants c n).
  rewrite defaultPlants_fixed.
  unfold risk_current, value_of, defaultPlants, seed, bind, ret, Date_now, initial.
  cbn [fst snd map L.plants Plant.riskLevel Plant.nextDue].
  repeat constructor; cbn [Plant.riskLevel Plant.nextDue];
    rewrite risk_of_tiers;
    match goal with
    | |- context [?a + ?d - ?a] => replace (a + d - a) with d by lia
    end; reflexivity.
Qed.

Lemma risk_current_process (st : L.t) (e : Event) (n : nat) :
  risk_current T (L.plants st) ->
  risk_current T (L.plants (fst (process st e c n))).
Proof.
  intros H. destruct e; unfold process; try exact H.
  - destruct (Obj.get (L.plants st) plantId) as [plant |]; [| exact H].
    rewrite bind_run. unfold ret. cbn [fst L.plants].
    apply ObjFacts.Forall_set; [exact H |].
    change (fst (water plant ts c n)) with (value_of (water plant ts) c n).
    rewrite value_of_water. cbn [Plant.riskLevel Plant.nextDue].
    now rewrite c_fixed.
  - destruct (Obj.get (L.plants st) plantId) as [plant |] eqn:Hget; [| exact H].
    unfold ret. cbn [fst L.plants]. apply ObjFacts.Forall_set; [exact H |].
    unfold risk_current in H. rewrite Forall_forall in H.
    apply (H plant). now apply ObjFacts.get_values with (k := plantId).
Qed.

Lemma risk_current_loop (events : list Event) (n : nat) :
  risk_current T (L.plants (value_of (loop events) c n)).
Proof.
  apply (loop_invariant c (fun st => risk_current T (L.plants st))).
  - apply risk_current_initial.
  - apply risk_current_process.
Qed.

End StandingClock.

(** What a watering writes on a plant. *)
Lemma process_keeps_watering (st : L.t) (e : Event) (c : Clock) (n : nat)
    (plantId : string) :
  waters plantId e = false ->
  option_map watering_view (Obj.get (L.plants (fst (process st e c n))) plantId) =
  option_map watering_view (Obj.get (L.plants st) plantId).
Proof.
  intros He. destruct e; unfold process; try reflexivity.
  - (* another plant is watered *)
    simpl in He. rename plantId0 into watered.
    destruct (Obj.get (L.plants st) watered) as [plant |]; [| reflexivity].
    rewrite bind_run. unfold ret. cbn [fst L.plants].
    rewrite ObjFacts.get_set_other; [reflexivity |].
    apply String.eqb_neq in He. congruence.
  - (* a profile is replaced *)
    rename plantId0 into updated.
    destruct (Obj.get (L.plants st) updated) as [plant |] eqn:Hget; [| reflexivity].
    unfold ret. cbn [fst L.plants]. rewrite ObjFacts.get_set.
    destruct (String.eqb plantId updated) eqn:E; [| reflexivity].
    apply String.eqb_eq in E. subst updated. now rewrite Hget.
Qed.

Lemma process_all_keeps_watering (events : list Event) (plantId : string) :
  forallb (fun e => negb (waters plantId e)) events = true ->
  forall st c n,
    option_map watering_view
      (Obj.get (L.plants (fst (process_all events st c n))) plantId) =
    option_map watering_view (Obj.get (L.plants st) plantId).
Proof.
  induction events as [| e rest IH]; simpl; intros H st c n.
  - reflexivity.
  - apply andb_true_iff in H. destruct H as [He Hrest].
    rewrite bind_run, IH by assumption.
    apply process_keeps_watering. now destruct (waters plantId e).
Qed.

Lemma process_watering (st : L.t) (ts : Z) (plantId : string) (plant : Plant.t)
    (c : Clock) (n : nat) :
  Obj.get (L.plants st) plantId = Some plant ->
  process st (watering_done ts plantId) c n =
  (L.mk (L.rituals st)
        (Obj.set (L.plants st) plantId (value_of (water plant ts) c n))
        (L.glucose st) (L.developmentCounters st) (L.workTracking st),
   S n).
Proof.
  intros Hget. unfold process. rewrite Hget. reflexivity.
Qed.


(** The tiers in the words of the specification differ from the code at
    the instant a plant falls due: the code puts it at [high] risk, the
    words at [medium]. *)
Lemma risk_at_the_due_instant :
  exists plant,
    Obj.get (plants (value_of (deriveState water_gerda_at_0)
                       (fun _ => 604800000) 0))
            "plant_schefflera_gerda" = Some plant /\
    Plant.nextDue plant = 604800000 /\
    Plant.riskLevel plant = Risk.high /\
    risk_in_words 604800000 (Plant.nextDue plant) = Risk.medium.
Proof.
  eexists. split; [vm_compute; reflexivity |].
  repeat split; vm_compute; reflexivity.
Qed.

(** The thresholds of the specification, for a plant with
    [baseInterval = [7, 10]] watered at the instant 1000. *)
Example watering_thresholds :
  let due := 1000 + 7 * 86400000 in
  let risk_at now :=
    option_map Plant.riskLevel
      (Obj.get (plants (value_of
         (deriveState [watering_done 1000 "plant_schefflera_gerda"])
         (fun _ => now) 0)) "plant_schefflera_gerda") in
  risk_at (due - 11 * 3600000) = Some Risk.medium /\
  risk_at (due + 1000) = Some Risk.high /\
  risk_at (due - 13 * 3600000) = Some Risk.low /\
  risk_at due = Some Risk.high.
Proof. repeat split; vm_compute; reflexivity. Qed.

Lemma defaultPlants_seeded (T : Z) :
  Forall (fun plant => Plant.lastWatered plant = None /\
                       T < Plant.nextDue plant /\
                       Plant.riskLevel plant = Risk.low)
         (map snd (value_of defaultPlants (fun _ => T) 0)).
Proof.
  unfold value_of, defaultPlants, seed, bind, ret, Date_now.
  cbn [fst snd map].
  repeat constructor; cbn [Plant.nextDue]; lia.
Qed.

(** A plant that no event of the log waters is seeded anew by every pass:
    due as many days after the instant of the pass as the catalog says,
    at [low] risk, and so never overdue. *)
Remark never_watered_plant_is_never_due (log : list Event) (plantId : string)
    (T : Z) (c : Clock) (n : nat) (plant : Plant.t) :
  fixed_at T c ->
  forallb (fun e => negb (waters plantId e)) log = true ->
  Obj.get (plants (value_of (deriveState log) c n)) plantId = Some plant ->
  Plant.lastWatered plant = None /\ T < Plant.nextDue plant /\
  Plant.riskLevel plant = Risk.low.
Proof.
  intros Hc Hlog Hget.
  rewrite deriveState_plants in Hget. unfold value_of, loop in Hget.
  rewrite !bind_run in Hget.
  pose proof (process_all_keeps_watering log plantId Hlog
                (initial (fst (defaultPlants c (snd (Date_now c n)))))
                c (snd (defaultPlants c (snd (Date_now c n))))) as Hview.
  rewrite Hget in Hview. cbn [initial L.plants] in Hview.
  change (fst (defaultPlants c (snd (Date_now c n))))
    with (value_of defaultPlants c (snd (Date_now c n))) in Hview.
  rewrite (defaultPlants_fixed T c Hc) in Hview.
  destruct (Obj.get (value_of defaultPlants (fun _ => T) 0) plantId)
    as [seeded |] eqn:Hseed; [| discriminate].
  pose proof (defaultPlants_seeded T) as Hall.
  rewrite Forall_forall in Hall.
  destruct (Hall seeded (ObjFacts.get_values _ _ _ Hseed)) as (H1 & H2 & H3).
  cbn [option_map] in Hview. unfold watering_view in Hview.
  injection Hview as -> -> ->. auto.
Qed.

(** ** The ritual flag after a step is written *)

(** The [ritual_step_completed] handler recomputes the ritual's flag from
    its steps whenever it completes one. *)
Lemma complete_step_recomputes (rituals : Obj.t Ritual.t) (ritualId stepId : string)
    (ritual : Ritual.t) (step : Step.t) :
  Obj.get rituals ritualId = Some ritual ->
  find_step (Ritual.steps ritual) stepId = Some step ->
  dependenciesMet rituals ritual step = true ->
  exists ritual',
    Obj.get (complete_step rituals ritualId stepId) ritualId = Some ritual' /\
    Ritual.completed ritual' = forallb Step.completed (Ritual.steps ritual').
Proof.
  intros Hget Hfind Hmet. unfold complete_step.
  rewrite Hget, Hfind, Hmet, ObjFacts.get_set_same.
  eexists. split; reflexivity.
Qed.

(** The [eye_drop_applied] handler leaves the ritual's flag as it was. *)
Lemma apply_drop_keeps_flag (rituals : Obj.t Ritual.t) (ritualId stepId : string)
    (ritual : Ritual.t) :
  Obj.get rituals ritualId = Some ritual ->
  exists ritual',
    Obj.get (apply_drop rituals ritualId stepId) ritualId = Some ritual' /\
    Ritual.completed ritual' = Ritual.completed ritual.
Proof.
  intros Hget. unfold apply_drop. rewrite Hget.
  destruct (find_step (Ritual.steps ritual) stepId).
  - rewrite ObjFacts.get_set_same. eexists. split; reflexivity.
  - exists ritual. split; [exact Hget | reflexivity].
Qed.

(** C6. Ritual completion invariant, evaluated where the code breaks it:
    when the four other morning steps are completed by their own events
    and the Systane step then by [eye_drop_applied], every step of the
    morning ritual is completed and the ritual's flag is still false; one
    more [ritual_step_completed] for the ritual brings the flag up. *)
Theorem ritual_flag_stale_after_eye_drop :
  exists ritual ritual',
    Obj.get (rituals (value_of (deriveState morning_with_drops_last) (fun _ => 0) 0))
            "ritual_morning_prep" = Some ritual /\
    forallb Step.completed (Ritual.steps ritual) = true /\
    Ritual.completed ritual = false /\
    Obj.get (rituals (value_of
               (deriveState (morning_with_drops_last ++
                  [ritual_step_completed 6 "ritual_morning_prep" "med_mg_1"]))
               (fun _ => 0) 0))
            "ritual_morning_prep" = Some ritual' /\
    Ritual.completed ritual' = true.
Proof.
  eexists. eexists.
  split; [vm_compute; reflexivity |].
  split; [vm_compute; reflexivity |].
  split; [vm_compute; reflexivity |].
  split; vm_compute; reflexivity.
Qed.

(** ** Eye drops *)

Lemma apply_drop_done (rituals : Obj.t Ritual.t) (ritualId stepId : string) :
  step_present rituals ritualId stepId = true ->
  step_done (apply_drop rituals ritualId stepId) ritualId stepId = true.
Proof.
  unfold step_present, step_done, step_has, apply_drop.
  destruct (Obj.get rituals ritualId) as [ritual |] eqn:Hget; [| discriminate].
  destruct (find_step (Ritual.steps ritual) stepId) as [step |] eqn:Hfind;
    [| discriminate].
  intros _. rewrite ObjFacts.get_set_same. simpl.
  now rewrite (find_step_mark_same _ _ _ Hfind).
Qed.

Lemma step_done_apply_drop (rituals : Obj.t Ritual.t) (k x r s : string) :
  step_done rituals r s = true ->
  step_done (apply_drop rituals k x) r s = true.
Proof.
  apply step_has_apply_drop. intros s0 s' H Hkept. now apply Hkept.
Qed.

Lemma step_present_apply_drop (rituals : Obj.t Ritual.t) (k x r s : string) :
  step_present rituals r s = true ->
  step_present (apply_drop rituals k x) r s = true.
Proof.
  apply step_has_apply_drop. reflexivity.
Qed.

Lemma step_present_loop (events : list Event) (c : Clock) (n : nat) (r s : string) :
  step_present initialRituals r s = true ->
  step_present (L.rituals (value_of (loop events) c n)) r s = true.
Proof.
  intros H.
  apply (loop_invariant c (fun st => step_present (L.rituals st) r s = true)).
  - intros k. exact H.
  - intros st e k. apply step_present_process.
Qed.

(** What the Systane handler does write, for every log: the morning step
    and the eye-drop steps of [w1d5e] and [w1d6g]. *)
Lemma systane_marks_three_steps (log : list Event) (ts : Z) (c : Clock) (n : nat) :
  let d := value_of (deriveState (log ++ [eye_drop_applied ts systane])) c n in
  step_done (rituals d) "ritual_morning_prep" "eye_drops_systane" = true /\
  step_done (rituals d) "w1d5e" "w1d5e_eye_drops" = true /\
  step_done (rituals d) "w1d6g" "w1d6g_eye_drops" = true.
Proof.
  intros d. subst d. rewrite deriveState_rituals. unfold value_of.
  rewrite loop_snoc. unfold process, ret. cbn [fst L.rituals].
  change (fst (loop log c n)) with (value_of (loop log) c n).
  set (rs := L.rituals (value_of (loop log) c n)).
  assert (H1 : step_present rs "ritual_morning_prep" "eye_drops_systane" = true)
    by (apply step_present_loop; vm_compute; reflexivity).
  assert (H2 : step_present rs "w1d5e" "w1d5e_eye_drops" = true)
    by (apply step_present_loop; vm_compute; reflexivity).
  assert (H3 : step_present rs "w1d6g" "w1d6g_eye_drops" = true)
    by (apply step_present_loop; vm_compute; reflexivity).
  unfold eye_drop. repeat split.
  - do 2 apply step_done_apply_drop. now apply apply_drop_done.
  - apply step_done_apply_drop. apply apply_drop_done.
    now apply step_present_apply_drop.
  - apply apply_drop_done. now do 2 apply step_present_apply_drop.
Qed.

(** C7. Systane fan-out, evaluated where the code falls short: after
    [eye_drop_applied] with Systane alone, the morning step and the
    eye-drop steps of [w1d5e] and [w1d6g] are completed, while the steps of
    the same name in [w3d6e], [w5d6e] and [w7d4h] are not. *)
Theorem systane_fanout_misses_three_steps :
  steps_named systane_step_name
    (rituals (value_of (deriveState systane_only) (fun _ => 0) 0)) =
  [ ("ritual_morning_prep", "eye_drops_systane");
    ("w1d5e", "w1d5e_eye_drops"); ("w1d6g", "w1d6g_eye_drops");
    ("w3d6e", "w3d6e_eye_drops"); ("w5d6e", "w5d6e_eye_drops");
    ("w7d4h", "w7d4h_eye_drops") ] /\
  filter (fun rs => negb (step_done
            (rituals (value_of (deriveState systane_only) (fun _ => 0) 0))
            (fst rs) (snd rs)))
    (steps_named systane_step_name
       (rituals (value_of (deriveState systane_only) (fun _ => 0) 0))) =
  [ ("w3d6e", "w3d6e_eye_drops"); ("w5d6e", "w5d6e_eye_drops");
    ("w7d4h", "w7d4h_eye_drops") ].
Proof. split; vm_compute; reflexivity. Qed.

(** ** The health anchor *)

(** A pending morning step takes the health slot whatever the glucose
    summary says. *)
Lemma health_anchor_pending_step (rituals : Obj.t Ritual.t) (glucose : Glucose)
    (morningRitual : Ritual.t) (pendingStep : Step.t) :
  Obj.get rituals "ritual_morning_prep" = Some morningRitual ->
  Ritual.completed morningRitual = false ->
  find (fun step => negb (Step.completed step)) (Ritual.steps morningRitual)
    = Some pendingStep ->
  health_anchor rituals glucose = Some (Step.id pendingStep).
Proof.
  intros Hget Hflag Hfind. unfold health_anchor.
  now rewrite Hget, Hflag, Hfind.
Qed.

(** C8. Anchor precedence for the health slot, evaluated where the code
    breaks it: after one measurement of 3.0 the glucose status is [low],
    and the health anchor is the first pending morning step,
    [eye_drops_systane], not the glucose anchor [rest_teabreak]. *)
Theorem low_glucose_anchor_overwritten :
  status (glucose (value_of (deriveState low_glucose_only) (fun _ => 0) 0))
    = GStatus.low /\
  Anchors.health (anchors (value_of (deriveState low_glucose_only) (fun _ => 0) 0))
    = Some "eye_drops_systane".
Proof. split; vm_compute; reflexivity. Qed.

(** ** The earlier variant *)

Module LegacyFacts.

(** No step of the earlier catalog declares a dependency: there is nothing
    for a gate to test. *)
Lemma no_step_dependencies :
  forallb (fun kv => forallb (fun s => match Step.dependencies s with
                                       | None => true
                                       | Some _ => false
                                       end)
                             (Ritual.steps (snd kv)))
          Legacy.defaultRituals = true.
Proof. vm_compute. reflexivity. Qed.

(** On a step without declared dependencies the two handlers agree. *)
Lemma complete_step_agrees (rituals : Obj.t Ritual.t) (ritualId stepId : string) :
  (forall ritual step,
      Obj.get rituals ritualId = Some ritual ->
      find_step (Ritual.steps ritual) stepId = Some step ->
      Step.dependencies step = None) ->
  Legacy.complete_step rituals ritualId stepId = complete_step rituals ritualId stepId.
Proof.
  intros Hnone. unfold Legacy.complete_step, complete_step.
  destruct (Obj.get rituals ritualId) as [ritual |] eqn:Hget; [| reflexivity].
  destruct (find_step (Ritual.steps ritual) stepId) as [step |] eqn:Hfind;
    [| reflexivity].
  unfold dependenciesMet. now rewrite (Hnone ritual step eq_refl Hfind).
Qed.

(** Plants and glucose go through the same code in both variants. *)
Lemma process_agrees (st1 : Legacy.Locals) (st2 : L.t) (e : Event)
    (c : Clock) (n : nat) :
  Legacy.l_plants st1 = L.plants st2 ->
  Legacy.l_glucose st1 = L.glucose st2 ->
  Legacy.l_plants (fst (Legacy.process st1 e c n)) = L.plants (fst (process st2 e c n)) /\
  Legacy.l_glucose (fst (Legacy.process st1 e c n)) = L.glucose (fst (process st2 e c n)) /\
  snd (Legacy.process st1 e c n) = snd (process st2 e c n).
Proof.
  destruct st1 as [r1 p1 g1], st2 as [r2 p2 g2 d2 w2].
  cbn [Legacy.l_plants Legacy.l_glucose L.plants L.glucose].
  intros -> ->.
  destruct e; unfold Legacy.process, process;
    cbn [Legacy.l_plants Legacy.l_glucose Legacy.l_rituals L.plants L.glucose L.rituals];
    try (repeat split; reflexivity).
  - destruct (Obj.get p2 plantId); [| repeat split; reflexivity].
    rewrite !bind_run. repeat split; reflexivity.
  - destruct (Obj.get p2 plantId); repeat split; reflexivity.
Qed.

Lemma process_all_agrees (events : list Event) :
  forall (st1 : Legacy.Locals) (st2 : L.t) (c : Clock) (n : nat),
    Legacy.l_plants st1 = L.plants st2 ->
    Legacy.l_glucose st1 = L.glucose st2 ->
    Legacy.l_plants (fst (Legacy.process_all events st1 c n)) =
      L.plants (fst (process_all events st2 c n)) /\
    Legacy.l_glucose (fst (Legacy.process_all events st1 c n)) =
      L.glucose (fst (process_all events st2 c n)) /\
    snd (Legacy.process_all events st1 c n) = snd (process_all events st2 c n).
Proof.
  induction events as [| e rest IH]; intros st1 st2 c n Hp Hg; simpl.
  - repeat split; assumption.
  - rewrite !bind_run.
    destruct (process_agrees st1 st2 e c n Hp Hg) as (Hp' & Hg' & ->).
    now apply IH.
Qed.

(** The earlier variant derives the same plants, glucose summary and
    overdue count from every log: what is proved of them above holds of
    it as well. *)
Lemma deriveState_agrees (events : list Event) (c : Clock) (n : nat) :
  Legacy.plants (value_of (Legacy.deriveState events) c n) =
    plants (value_of (deriveState events) c n) /\
  Legacy.glucose (value_of (Legacy.deriveState events) c n) =
    glucose (value_of (deriveState events) c n) /\
  Legacy.overdueCount (value_of (Legacy.deriveState events) c n) =
    overdueCount (value_of (deriveState events) c n).
Proof.
  unfold value_of, Legacy.deriveState, deriveState.
  rewrite !bind_run.
  set (n1 := snd (Date_now c n)).
  set (plants0 := fst (defaultPlants c n1)).
  set (n2 := snd (defaultPlants c n1)).
  destruct (process_all_agrees events
              (Legacy.mkLocals Legacy.defaultRituals plants0
                 (mkGlucose None GStatus.unknown))
              (initial plants0) c n2 eq_refl eq_refl) as (Hp & Hg & Hn).
  unfold ret, finish.
  cbn [fst Legacy.plants Legacy.glucose Legacy.overdueCount plants glucose overdueCount].
  unfold Date_now. cbn [fst].
  now rewrite Hp, Hg, Hn.
Qed.

End LegacyFacts.

(** * Further properties of the derivation *)

(** ** The catalog is never reshaped *)

Module ObjMore.

Lemma get_entry {A : Type} (o : Obj.t A) (k : string) (v : A) :
  Obj.get o k = Some v -> In (k, v) o.
Proof.
  induction o as [| [k' v'] rest IH]; simpl; [discriminate |].
  destruct (String.eqb k k') eqn:E; intros H.
  - apply String.eqb_eq in E. subst k'. injection H as ->. now left.
  - right. now apply IH.
Qed.

Lemma get_none {A : Type} (o : Obj.t A) (k : string) :
  Obj.get o k = None <-> ~ In k (Obj.keys o).
Proof.
  unfold Obj.keys. induction o as [| [k' v'] rest IH]; simpl.
  - split; [intros _ [] | reflexivity].
  - destruct (String.eqb k k') eqn:E.
    + apply String.eqb_eq in E. subst k'. split; [discriminate |].
      intros H. exfalso. apply H. now left.
    + apply String.eqb_neq in E. rewrite IH. split.
      * intros H [H' | H']; [congruence | contradiction].
      * intros H H'. apply H. now right.
Qed.

(** Writing an entry that is there changes nothing a view of the entries
    does not see. *)
Lemma map_set {A B : Type} (f : string * A -> B) (o : Obj.t A) (k : string)
    (v0 v : A) :
  Obj.get o k = Some v0 -> f (k, v) = f (k, v0) ->
  map f (Obj.set o k v) = map f o.
Proof.
  intros Hget Hf. induction o as [| [k' v'] rest IH]; simpl in *; [discriminate |].
  destruct (String.eqb k k') eqn:E; simpl.
  - apply String.eqb_eq in E. subst k'. injection Hget as ->. now rewrite Hf.
  - now rewrite IH.
Qed.

Lemma set_same {A : Type} (o : Obj.t A) (k : string) (v : A) :
  Obj.get o k = Some v -> Obj.set o k v = o.
Proof.
  induction o as [| [k' v'] rest IH]; simpl; [discriminate |].
  destruct (String.eqb k k') eqn:E; intros H.
  - now injection H as ->.
  - now rewrite IH.
Qed.

Lemma set_set {A : Type} (o : Obj.t A) (k : string) (v v' : A) :
  Obj.set (Obj.set o k v) k v' = Obj.set o k v'.
Proof.
  induction o as [| [k' v0] rest IH]; simpl.
  - now rewrite String.eqb_refl.
  - destruct (String.eqb k k') eqn:E; simpl; rewrite E; [reflexivity |].
    now rewrite IH.
Qed.

(** A property of all entries survives a write of an entry that has it. *)
Lemma Forall_entries_set {A : Type} (P : string * A -> Prop) (o : Obj.t A)
    (k : string) (v : A) :
  Forall P o -> P (k, v) -> Forall P (Obj.set o k v).
Proof.
  intros Ho Hv. induction o as [| [k' v'] rest IH]; simpl.
  - constructor; [assumption | constructor].
  - inversion Ho as [| ? ? Hhd Htl]; subst.
    destruct (String.eqb k k') eqn:E; constructor; auto.
    apply String.eqb_eq in E. now subst k'.
Qed.

End ObjMore.

Lemma mark_completed_shape (steps : list Step.t) (x : string) :
  map step_shape (mark_completed steps x) = map step_shape steps.
Proof.
  induction steps as [| s rest IH]; simpl; [reflexivity |].
  destruct (String.eqb (Step.id s) x); simpl; [reflexivity |].
  now rewrite IH.
Qed.

Lemma complete_step_shape (rituals : Obj.t Ritual.t) (k x : string) :
  rituals_shape (complete_step rituals k x) = rituals_shape rituals.
Proof.
  unfold complete_step.
  destruct (Obj.get rituals k) as [ritual |] eqn:Hget; [| reflexivity].
  destruct (find_step (Ritual.steps ritual) x); [| reflexivity].
  destruct (dependenciesMet rituals ritual _); [| reflexivity].
  apply ObjMore.map_set with (v0 := ritual); [exact Hget |].
  unfold ritual_shape. simpl. now rewrite mark_completed_shape.
Qed.

Lemma apply_drop_shape (rituals : Obj.t Ritual.t) (k x : string) :
  rituals_shape (apply_drop rituals k x) = rituals_shape rituals.
Proof.
  unfold apply_drop.
  destruct (Obj.get rituals k) as [ritual |] eqn:Hget; [| reflexivity].
  destruct (find_step (Ritual.steps ritual) x); [| reflexivity].
  apply ObjMore.map_set with (v0 := ritual); [exact Hget |].
  unfold ritual_shape. simpl. now rewrite mark_completed_shape.
Qed.

Lemma eye_drop_shape (rituals : Obj.t Ritual.t) (d : DropType) :
  rituals_shape (eye_drop rituals d) = rituals_shape rituals.
Proof.
  destruct d; unfold eye_drop; now rewrite ?apply_drop_shape.
Qed.

Lemma process_shape (st : L.t) (e : Event) (c : Clock) (n : nat) :
  rituals_shape (L.rituals (fst (process st e c n))) = rituals_shape (L.rituals st) /\
  map plant_identity (L.plants (fst (process st e c n))) =
    map plant_identity (L.plants st).
Proof.
  destruct e; unfold process; try (split; reflexivity).
  - split; [apply complete_step_shape | reflexivity].
  - split; [apply eye_drop_shape | reflexivity].
  - destruct (Obj.get (L.plants st) plantId) as [plant |] eqn:Hget;
      [| split; reflexivity].
    rewrite bind_run. split; [reflexivity |].
    unfold ret. cbn [fst L.plants].
    now apply ObjMore.map_set with (v0 := plant).
  - destruct (Obj.get (L.plants st) plantId) as [plant |] eqn:Hget;
      [| split; reflexivity].
    split; [reflexivity |].
    unfold ret. cbn [fst L.plants].
    now apply ObjMore.map_set with (v0 := plant).
Qed.

Lemma loop_shape (events : list Event) (c : Clock) (n : nat) :
  rituals_shape (L.rituals (value_of (loop events) c n)) = rituals_shape initialRituals /\
  map plant_identity (L.plants (value_of (loop events) c n)) =
    map plant_identity (value_of defaultPlants (fun _ => 0) 0).
Proof.
  apply (loop_invariant c
           (fun st => rituals_shape (L.rituals st) = rituals_shape initialRituals /\
                      map plant_identity (L.plants st) =
                        map plant_identity (value_of defaultPlants (fun _ => 0) 0))).
  - intros k. split; reflexivity.
  - intros st e k [Hr Hp].
    destruct (process_shape st e c k) as [Hr' Hp']. split; congruence.
Qed.

(** X1. Whatever the log and the clock, the derived rituals are the
    catalog's, entry by entry and step by step, in ids, names, declared
    dependencies and order: events only ever write [completed] flags.  The
    derived plants are the eleven of the catalog, in its order, under
    their ids and names. *)
Theorem catalog_shape_is_kept :
  forall (log : list Event) (c : Clock) (n : nat),
    rituals_shape (rituals (value_of (deriveState log) c n)) =
      rituals_shape initialRituals /\
    Obj.keys (plants (value_of (deriveState log) c n)) = plantIds /\
    map plant_identity (plants (value_of (deriveState log) c n)) =
      map plant_identity (value_of defaultPlants (fun _ => 0) 0).
Proof.
  intros log c n. rewrite deriveState_rituals, deriveState_plants.
  destruct (loop_shape log c n) as [Hr Hp].
  split; [exact Hr |]. split; [| exact Hp].
  unfold Obj.keys.
  replace (map fst (L.plants (value_of (loop log) c n)))
    with (map (fun i => fst (fst (fst i)))
              (map plant_identity (L.plants (value_of (loop log) c n))))
    by (rewrite map_map; reflexivity).
  rewrite Hp. reflexivity.
Qed.

(** ** Events that write nothing *)

Lemma existsb_eqb_false (k : string) (l : list string) :
  existsb (String.eqb k) l = false -> ~ In k l.
Proof.
  induction l as [| x rest IH]; simpl; [intros _ [] |].
  intros H [Hx | Hin].
  - subst x. now rewrite String.eqb_refl in H.
  - apply orb_false_iff in H. destruct H as [_ H]. now apply IH.
Qed.

Lemma loop_plant_keys (events : list Event) (c : Clock) (n : nat) :
  Obj.keys (L.plants (fst (loop events c n))) = plantIds.
Proof.
  destruct (loop_shape events c n) as [_ Hp]. unfold value_of in Hp.
  unfold Obj.keys.
  replace (map fst (L.plants (fst (loop events c n))))
    with (map (fun i => fst (fst (fst i)))
              (map plant_identity (L.plants (fst (loop events c n)))))
    by (rewrite map_map; reflexivity).
  rewrite Hp. reflexivity.
Qed.

Lemma process_inert (st : L.t) (e : Event) (c : Clock) (n : nat) :
  Obj.keys (L.plants st) = plantIds -> inert e = true ->
  process st e c n = (st, n).
Proof.
  intros Hkeys He.
  destruct e; unfold inert in He; try discriminate; try reflexivity.
  - unfold process. apply negb_true_iff in He.
    assert (Hnone : Obj.get (L.plants st) plantId = None).
    { apply ObjMore.get_none. rewrite Hkeys. now apply existsb_eqb_false. }
    now rewrite Hnone.
  - unfold process. apply negb_true_iff in He.
    assert (Hnone : Obj.get (L.plants st) plantId = None).
    { apply ObjMore.get_none. rewrite Hkeys. now apply existsb_eqb_false. }
    now rewrite Hnone.
Qed.

(** In the first part (ordinary logs).
    [app_init], [med_taken], [focus_lost] and [backup_created] events,
    and [watering_done] or [plant_profile_updated] events naming a plant
    the catalog does not have, change nothing: wherever one stands in the
    log, the whole derived state is that of the log without it. *)
Lemma inert_event_changes_nothing :
  forall (before after : list Event) (e : Event) (c : Clock) (n : nat),
    inert e = true ->
    value_of (deriveState (before ++ e :: after)) c n =
    value_of (deriveState (before ++ after)) c n.
Proof.
  intros before after e c n He.
  assert (Hloop : loop (before ++ e :: after) c n = loop (before ++ after) c n).
  { rewrite !loop_app. cbn [process_all]. rewrite bind_run.
    rewrite (process_inert _ e c _ (loop_plant_keys before c n) He).
    reflexivity. }
  rewrite !deriveState_loop. unfold value_of. now rewrite Hloop.
Qed.

(** ** Steps and rituals the catalog does not have *)

Lemma find_step_shape (s1 s2 : list Step.t) (x : string) :
  map step_shape s1 = map step_shape s2 ->
  option_map step_shape (find_step s1 x) = option_map step_shape (find_step s2 x).
Proof.
  unfold find_step. revert s2.
  induction s1 as [| a r1 IH]; intros [| b r2] H; cbn [map] in H;
    try discriminate; [reflexivity |].
  injection H as Hid Hname Hdeps Hrest. cbn [find].
  rewrite Hid. destruct (String.eqb (Step.id b) x); cbn [option_map].
  - unfold step_shape. now rewrite Hid, Hname, Hdeps.
  - now apply IH.
Qed.

Lemma get_shape (a b : Obj.t Ritual.t) (k : string) :
  rituals_shape a = rituals_shape b ->
  option_map (fun r => snd (ritual_shape (k, r))) (Obj.get a k) =
  option_map (fun r => snd (ritual_shape (k, r))) (Obj.get b k).
Proof.
  unfold rituals_shape. revert b.
  induction a as [| [ka ra] resta IH]; intros [| [kb rb] restb] H; cbn [map] in H;
    try discriminate; [reflexivity |].
  injection H as Hk Hid Hname Hsteps Hdeps Htr Hdur Hrest. cbn [Obj.get].
  subst kb. destruct (String.eqb k ka); cbn [option_map].
  - unfold ritual_shape. cbn [fst snd]. congruence.
  - now apply IH.
Qed.

Lemma get_shape_steps (a b : Obj.t Ritual.t) (k : string) (ra : Ritual.t) :
  rituals_shape a = rituals_shape b -> Obj.get a k = Some ra ->
  exists rb, Obj.get b k = Some rb /\
             map step_shape (Ritual.steps ra) = map step_shape (Ritual.steps rb).
Proof.
  intros Hshape Hget. pose proof (get_shape a b k Hshape) as H.
  rewrite Hget in H. destruct (Obj.get b k) as [rb |]; [| discriminate].
  exists rb. split; [reflexivity |].
  simpl in H. unfold ritual_shape in H. simpl in H. congruence.
Qed.

Lemma get_shape_none (a b : Obj.t Ritual.t) (k : string) :
  rituals_shape a = rituals_shape b -> Obj.get a k = None -> Obj.get b k = None.
Proof.
  intros Hshape Hget. pose proof (get_shape a b k Hshape) as H.
  rewrite Hget in H. now destruct (Obj.get b k).
Qed.

Lemma step_present_shape (a b : Obj.t Ritual.t) (r s : string) :
  rituals_shape a = rituals_shape b ->
  step_present a r s = step_present b r s.
Proof.
  intros Hshape. unfold step_present, step_has.
  destruct (Obj.get a r) as [ra |] eqn:Ha.
  - destruct (get_shape_steps a b r ra Hshape Ha) as (rb & -> & Hsteps).
    pose proof (find_step_shape _ _ s Hsteps) as H.
    destruct (find_step (Ritual.steps ra) s), (find_step (Ritual.steps rb) s);
      simpl in H; congruence.
  - now rewrite (get_shape_none a b r Hshape Ha).
Qed.

Lemma complete_step_absent (rituals : Obj.t Ritual.t) (r s : string) :
  step_present rituals r s = false -> complete_step rituals r s = rituals.
Proof.
  unfold step_present, step_has, complete_step.
  destruct (Obj.get rituals r) as [ritual |]; [| reflexivity].
  destruct (find_step (Ritual.steps ritual) s); [discriminate | reflexivity].
Qed.

Lemma process_step_event (st : L.t) (ts : Z) (r s : string) (c : Clock) (n : nat) :
  process st (ritual_step_completed ts r s) c n =
  (L.mk (complete_step (L.rituals st) r s) (L.plants st) (L.glucose st)
        (count_development (L.developmentCounters st) s)
        (count_work (L.workTracking st) s),
   n).
Proof. reflexivity. Qed.

(** A [ritual_step_completed] event that leaves the rituals alone where it
    is folded leaves alone all that is derived but the two tallies. *)
Lemma unwritten_step_event (before after : list Event) (ts : Z) (r s : string)
    (c : Clock) (n : nat) :
  complete_step (L.rituals (fst (loop before c n))) r s =
    L.rituals (fst (loop before c n)) ->
  core (fst (loop (before ++ ritual_step_completed ts r s :: after) c n)) =
    core (fst (loop (before ++ after) c n)) /\
  snd (loop (before ++ ritual_step_completed ts r s :: after) c n) =
    snd (loop (before ++ after) c n).
Proof.
  intros Hsame. rewrite !loop_app. cbn [process_all]. rewrite bind_run.
  rewrite process_step_event. cbn [fst snd]. rewrite Hsame.
  now apply process_all_core.
Qed.

Lemma same_core_same_view (today : Z) (st1 st2 : L.t) (now : Z) :
  core st1 = core st2 ->
  rituals (finish today st1 now) = rituals (finish today st2 now) /\
  plants (finish today st1 now) = plants (finish today st2 now) /\
  glucose (finish today st1 now) = glucose (finish today st2 now) /\
  anchors (finish today st1 now) = anchors (finish today st2 now) /\
  overdueCount (finish today st1 now) = overdueCount (finish today st2 now).
Proof.
  unfold core. intros H. injection H as Hr Hp Hg.
  unfold finish. cbn [rituals plants glucose anchors overdueCount].
  rewrite Hr, Hp, Hg. repeat split.
Qed.

(** In the first part (ordinary logs).
    A [ritual_step_completed] event naming a ritual the catalog does
    not have, or a step its ritual does not have, is no error and writes
    nothing but the tallies: rituals, plants, glucose summary, anchors and
    overdue count are those of the log without the event. *)
Lemma unknown_step_event_is_noop :
  forall (before after : list Event) (ts : Z) (ritualId stepId : string)
         (c : Clock) (n : nat),
    step_present initialRituals ritualId stepId = false ->
    let d0 := value_of (deriveState (before ++ after)) c n in
    let d1 := value_of (deriveState
                (before ++ ritual_step_completed ts ritualId stepId :: after)) c n in
    rituals d1 = rituals d0 /\ plants d1 = plants d0 /\ glucose d1 = glucose d0 /\
    anchors d1 = anchors d0 /\ overdueCount d1 = overdueCount d0.
Proof.
  intros before after ts r s c n Habsent d0 d1. subst d0 d1.
  destruct (unwritten_step_event before after ts r s c n) as [Hcore Hreads].
  { apply complete_step_absent. rewrite <- Habsent.
    apply step_present_shape. apply (loop_shape before c n). }
  rewrite !deriveState_loop. unfold value_of. rewrite Hreads.
  now apply same_core_same_view.
Qed.

(** ** The flag of a ritual *)

Lemma mark_completed_keeps_all (steps : list Step.t) (x : string) :
  forallb Step.completed steps = true ->
  forallb Step.completed (mark_completed steps x) = true.
Proof.
  induction steps as [| s rest IH]; simpl; [reflexivity |].
  intros H. apply andb_true_iff in H. destruct H as [Hs Hrest].
  destruct (String.eqb (Step.id s) x); simpl.
  - exact Hrest.
  - now rewrite Hs, IH.
Qed.

Lemma complete_step_flag_kept (rituals : Obj.t Ritual.t) (k x : string) :
  Forall flag_kept rituals -> Forall flag_kept (complete_step rituals k x).
Proof.
  intros H. unfold complete_step.
  destruct (Obj.get rituals k) as [ritual |]; [| exact H].
  destruct (find_step (Ritual.steps ritual) x); [| exact H].
  destruct (dependenciesMet rituals ritual _); [| exact H].
  apply ObjMore.Forall_entries_set; [exact H |].
  split; simpl; intros Hflag; [exact Hflag | reflexivity].
Qed.

Lemma apply_drop_flag_kept (rituals : Obj.t Ritual.t) (k x : string) :
  existsb (String.eqb k) drop_rituals = true ->
  Forall flag_kept rituals -> Forall flag_kept (apply_drop rituals k x).
Proof.
  intros Hk H. unfold apply_drop.
  destruct (Obj.get rituals k) as [ritual |] eqn:Hget; [| exact H].
  destruct (find_step (Ritual.steps ritual) x); [| exact H].
  apply ObjMore.Forall_entries_set; [exact H |].
  rewrite Forall_forall in H.
  destruct (H (k, ritual) (ObjMore.get_entry _ _ _ Hget)) as [Hsound _].
  split; cbn [fst snd with_steps Ritual.completed Ritual.steps].
  - intros Hflag. apply mark_completed_keeps_all. now apply Hsound.
  - intros Hout. congruence.
Qed.

Lemma process_flag_kept (st : L.t) (e : Event) (c : Clock) (n : nat) :
  Forall flag_kept (L.rituals st) ->
  Forall flag_kept (L.rituals (fst (process st e c n))).
Proof.
  intros H. destruct e; unfold process; try exact H.
  - now apply complete_step_flag_kept.
  - destruct dropType; unfold ret, eye_drop; cbn [fst L.rituals];
      repeat (apply apply_drop_flag_kept; [reflexivity |]); exact H.
  - destruct (Obj.get (L.plants st) plantId); [| exact H].
    rewrite bind_run. exact H.
  - destruct (Obj.get (L.plants st) plantId); exact H.
Qed.

Lemma initialRituals_flag_kept : Forall flag_kept initialRituals.
Proof.
  assert (Hcheck : forallb (fun kv =>
            Bool.eqb (Ritual.completed (snd kv))
                     (forallb Step.completed (Ritual.steps (snd kv))))
          initialRituals = true) by (vm_compute; reflexivity).
  rewrite forallb_forall in Hcheck. apply Forall_forall.
  intros kv Hin. apply Hcheck in Hin. apply Bool.eqb_prop in Hin.
  split; intros H; congruence.
Qed.

Lemma loop_flag_kept (events : list Event) (c : Clock) (n : nat) :
  Forall flag_kept (L.rituals (value_of (loop events) c n)).
Proof.
  apply (loop_invariant c (fun st => Forall flag_kept (L.rituals st))).
  - intros k. exact initialRituals_flag_kept.
  - intros st e k. apply process_flag_kept.
Qed.

(** X4. In every derived state a ritual whose [completed] flag is true has
    all its steps completed; and for every ritual other than the four the
    eye-drop handler writes into, the flag is exactly the conjunction of
    the [completed] flags of its steps. *)
Theorem ritual_flag_is_sound :
  forall (log : list Event) (c : Clock) (n : nat) (ritualId : string)
         (ritual : Ritual.t),
    Obj.get (rituals (value_of (deriveState log) c n)) ritualId = Some ritual ->
    (Ritual.completed ritual = true ->
     forallb Step.completed (Ritual.steps ritual) = true) /\
    (existsb (String.eqb ritualId) drop_rituals = false ->
     Ritual.completed ritual = forallb Step.completed (Ritual.steps ritual)).
Proof.
  intros log c n ritualId ritual Hget.
  rewrite deriveState_rituals in Hget.
  pose proof (loop_flag_kept log c n) as H. rewrite Forall_forall in H.
  exact (H (ritualId, ritual) (ObjMore.get_entry _ _ _ Hget)).
Qed.

Lemma ritual_flag_is_sound_witness :
  exists ritual,
    Obj.get (rituals (value_of (deriveState dental_in_full) (fun _ => 0) 0))
            "ritual_dental" = Some ritual /\
    Ritual.completed ritual = forallb Step.completed (Ritual.steps ritual) /\
    Ritual.completed ritual = true.
Proof.
  eexists. split; [vm_compute; reflexivity |].
  split; [| vm_compute; reflexivity].
  eapply (ritual_flag_is_sound dental_in_full (fun _ => 0) 0 "ritual_dental").
  - vm_compute. reflexivity.
  - reflexivity.
Defined.

(** ** The tallies *)

Lemma count_development_fields (d : Dev.t) (s : string) :
  count_development d s =
  Dev.mk (Dev.lecture d + Z.b2z (String.eqb s "lecture_done"))
         (Dev.practical d + Z.b2z (String.eqb s "practical_done"))
         (Dev.zoo d + Z.b2z (String.eqb s "zoo_done"))
         (Dev.fiction_ru d + Z.b2z (String.eqb s "fiction_ru_done"))
         (Dev.words d + Z.b2z (String.eqb s "words_learned"))
         (Dev.soap d + Z.b2z (String.eqb s "soap_session")).
Proof.
  unfold count_development.
  repeat match goal with
         | |- context [if String.eqb s ?lit then _ else _] =>
             destruct (String.eqb_spec s lit);
             [subst s; simpl; rewrite ?Z.add_0_r; reflexivity |]
         end.
  repeat match goal with
         | |- context [String.eqb s ?lit] =>
             destruct (String.eqb_spec s lit); [contradiction |]
         end.
  simpl. rewrite !Z.add_0_r. now destruct d.
Qed.

Lemma count_work_fields (w : WorkTracking) (s : string) :
  count_work w s =
  mkWork (emailChecks w + Z.b2z (String.eqb s "work_email_check_1")
                        + Z.b2z (String.eqb s "work_email_check_2"))
         (weekendMarked w || String.eqb s "work_weekend_mark").
Proof.
  unfold count_work.
  destruct (String.eqb_spec s "work_email_check_1") as [-> | H1].
  { simpl. rewrite Z.add_0_r, orb_false_r. reflexivity. }
  destruct (String.eqb_spec s "work_email_check_2") as [-> | H2].
  { simpl. rewrite Z.add_0_r, orb_false_r. reflexivity. }
  destruct (String.eqb_spec s "work_weekend_mark") as [-> | H3]; simpl.
  - rewrite !Z.add_0_r, orb_true_r. reflexivity.
  - rewrite !Z.add_0_r, orb_false_r. now destruct w.
Qed.

Lemma process_tallies (st : L.t) (e : Event) (c : Clock) (n : nat) :
  L.developmentCounters (fst (process st e c n)) =
    match e with
    | ritual_step_completed _ _ s => count_development (L.developmentCounters st) s
    | _ => L.developmentCounters st
    end /\
  L.workTracking (fst (process st e c n)) =
    match e with
    | ritual_step_completed _ _ s => count_work (L.workTracking st) s
    | _ => L.workTracking st
    end.
Proof.
  destruct e; unfold process; try (split; reflexivity).
  - destruct (Obj.get (L.plants st) plantId); [| split; reflexivity].
    rewrite bind_run. split; reflexivity.
  - destruct (Obj.get (L.plants st) plantId); split; reflexivity.
Qed.

Lemma process_all_tallies (log : list Event) :
  forall (st : L.t) (c : Clock) (n : nat),
    let st' := fst (process_all log st c n) in
    let d := L.developmentCounters st in
    let w := L.workTracking st in
    L.developmentCounters st' =
      Dev.mk (Dev.lecture d + completions_of "lecture_done" log)
             (Dev.practical d + completions_of "practical_done" log)
             (Dev.zoo d + completions_of "zoo_done" log)
             (Dev.fiction_ru d + completions_of "fiction_ru_done" log)
             (Dev.words d + completions_of "words_learned" log)
             (Dev.soap d + completions_of "soap_session" log) /\
    L.workTracking st' =
      mkWork (emailChecks w + completions_of "work_email_check_1" log
                            + completions_of "work_email_check_2" log)
             (weekendMarked w || (0 <? completions_of "work_weekend_mark" log)).
Proof.
  induction log as [| e rest IH]; intros st c n; cbn zeta.
  - simpl. rewrite !Z.add_0_r, orb_false_r.
    split; [now destruct (L.developmentCounters st) | now destruct (L.workTracking st)].
  - cbn [process_all]. rewrite bind_run.
    destruct (IH (fst (process st e c n)) c (snd (process st e c n))) as [Hd Hw].
    cbn zeta in Hd, Hw. rewrite Hd, Hw.
    destruct (process_tallies st e c n) as [-> ->].
    assert (Hpos : forall s l, 0 <= completions_of s l).
    { intros s l. induction l as [| x l' IHl]; cbn [completions_of]; [lia |].
      destruct (names_step s x); cbn [Z.b2z]; lia. }
    destruct e; cbn [completions_of names_step Z.b2z];
      try (rewrite !Z.add_0_l; split; reflexivity).
    rewrite count_development_fields, count_work_fields.
    cbn [Dev.lecture Dev.practical Dev.zoo Dev.fiction_ru Dev.words Dev.soap
         emailChecks weekendMarked].
    split.
    + f_equal; lia.
    + f_equal; [lia |].
      rewrite <- orb_assoc. f_equal.
      pose proof (Hpos "work_weekend_mark" rest) as Hrest.
      destruct (String.eqb stepId "work_weekend_mark"); cbn [Z.b2z orb].
      * symmetry. apply Z.ltb_lt. lia.
      * now rewrite Z.add_0_l.
Qed.

(** X5. The tallies count events, not completed steps: each development
    counter is the number of [ritual_step_completed] events in the log
    carrying its step id, [emailChecks] the number carrying either
    email-check id, and [weekendMarked] is up as soon as one carries
    [work_weekend_mark] - whatever ritual the event names, whether or not
    the step exists there, and however often the same step is reported. *)
Theorem tallies_count_events :
  forall (log : list Event) (c : Clock) (n : nat),
    development (value_of (deriveState log) c n) =
      Dev.mk (completions_of "lecture_done" log)
             (completions_of "practical_done" log)
             (completions_of "zoo_done" log)
             (completions_of "fiction_ru_done" log)
             (completions_of "words_learned" log)
             (completions_of "soap_session" log) /\
    emailChecks (work (value_of (deriveState log) c n)) =
      completions_of "work_email_check_1" log +
      completions_of "work_email_check_2" log /\
    weekendMarked (work (value_of (deriveState log) c n)) =
      (0 <? completions_of "work_weekend_mark" log).
Proof.
  intros log c n. rewrite deriveState_loop. unfold finish.
  cbn [development work]. unfold value_of, loop. rewrite !bind_run.
  match goal with
  | |- context [process_all log ?st c ?k] =>
      destruct (process_all_tallies log st c k) as [Hd Hw]
  end.
  cbn zeta in Hd, Hw. rewrite Hd, Hw.
  cbn [initial L.developmentCounters L.workTracking Dev.lecture Dev.practical
       Dev.zoo Dev.fiction_ru Dev.words Dev.soap emailChecks weekendMarked].
  repeat split.
Qed.

(** Three reports of one lecture, one of them under a ritual that is not
    there, count three; two reports of the first email check count two. *)
Example tallies_of_repeated_reports :
  Dev.lecture (development (value_of (deriveState lecture_thrice) (fun _ => 0) 0)) = 3 /\
  emailChecks (work (value_of (deriveState lecture_thrice) (fun _ => 0) 0)) = 2 /\
  step_done (rituals (value_of (deriveState lecture_thrice) (fun _ => 0) 0))
            "work_email" "work_email_check_2" = false.
Proof. repeat split; vm_compute; reflexivity. Qed.

(** ** Dependencies that hold nothing back *)

Lemma find_step_shape_none (s1 s2 : list Step.t) (x : string) :
  map step_shape s1 = map step_shape s2 ->
  find_step s1 x = None -> find_step s2 x = None.
Proof.
  intros Hshape Hnone. pose proof (find_step_shape s1 s2 x Hshape) as H.
  rewrite Hnone in H. now destruct (find_step s2 x).
Qed.

Lemma ungated_shape (a b : Obj.t Ritual.t) (r s : string) :
  rituals_shape a = rituals_shape b -> ungated a r s = true -> ungated b r s = true.
Proof.
  intros Hshape. unfold ungated.
  destruct (Obj.get a r) as [ra |] eqn:Ha; [| discriminate].
  destruct (get_shape_steps a b r ra Hshape Ha) as (rb & -> & Hsteps).
  pose proof (find_step_shape _ _ s Hsteps) as Hfind.
  destruct (find_step (Ritual.steps ra) s) as [sa |]; [| discriminate].
  destruct (find_step (Ritual.steps rb) s) as [sb |]; [| discriminate].
  simpl in Hfind. injection Hfind as _ _ Hdeps. rewrite <- Hdeps.
  destruct (Step.dependencies sa) as [deps |]; [| reflexivity].
  intros Hall. rewrite forallb_forall in Hall. apply forallb_forall.
  intros d Hd. specialize (Hall d Hd).
  destruct (find_step (Ritual.steps ra) d) eqn:Hfa; [discriminate |].
  destruct (Obj.get a d) eqn:Hga; [discriminate |].
  rewrite (find_step_shape_none _ _ d Hsteps Hfa).
  now rewrite (get_shape_none a b d Hshape Hga).
Qed.

Lemma ungated_met (rituals : Obj.t Ritual.t) (r s : string) :
  ungated rituals r s = true ->
  exists ritual step,
    Obj.get rituals r = Some ritual /\
    find_step (Ritual.steps ritual) s = Some step /\
    dependenciesMet rituals ritual step = true.
Proof.
  unfold ungated.
  destruct (Obj.get rituals r) as [ritual |]; [| discriminate].
  destruct (find_step (Ritual.steps ritual) s) as [step |] eqn:Hfind; [| discriminate].
  intros H. exists ritual, step. split; [reflexivity |]. split; [exact Hfind |].
  unfold dependenciesMet.
  destruct (Step.dependencies step) as [deps |]; [| reflexivity].
  rewrite forallb_forall in H. apply forallb_forall.
  intros d Hd. specialize (H d Hd). unfold dependency_satisfied.
  destruct (find_step (Ritual.steps ritual) d); [discriminate |].
  now destruct (Obj.get rituals d).
Qed.

(** X6. Declared dependencies fail open: a step all of whose dependency
    ids name neither a step of its own ritual nor a ritual is completed by
    its [ritual_step_completed] event after every log.  In the catalog
    this is so for the first skin-care step of the morning and of the
    evening, whose dependencies name steps of other rituals. *)
Theorem ungated_step_is_always_completed :
  forall (ritualId stepId : string) (log : list Event) (ts : Z)
         (c : Clock) (n : nat),
    ungated initialRituals ritualId stepId = true ->
    step_done (rituals (value_of
                 (deriveState (log ++ [ritual_step_completed ts ritualId stepId])) c n))
              ritualId stepId = true.
Proof.
  intros r s log ts c n Hfree.
  rewrite deriveState_rituals. unfold value_of. rewrite loop_snoc.
  rewrite process_step_event. cbn [fst L.rituals].
  destruct (loop_shape log c n) as [Hshape _]. unfold value_of in Hshape.
  assert (Hhere : ungated (L.rituals (fst (loop log c n))) r s = true).
  { apply (ungated_shape initialRituals); [now symmetry | exact Hfree]. }
  destruct (ungated_met _ r s Hhere) as (ritual & step & Hget & Hfind & Hmet).
  now apply (complete_step_met _ r s ritual step).
Qed.

Lemma ungated_step_is_always_completed_witness :
  step_done (rituals (value_of
               (deriveState ([] ++ [ritual_step_completed 1
                                      "ritual_skin_care_morning" "skincare_step_1"]))
               (fun _ => 0) 0))
            "ritual_skin_care_morning" "skincare_step_1" = true.
Proof.
  apply (ungated_step_is_always_completed
           "ritual_skin_care_morning" "skincare_step_1" [] 1 (fun _ => 0) 0).
  vm_compute. reflexivity.
Defined.

(** The steps of the catalog whose declared dependencies hold nothing
    back. *)
Example catalog_idle_dependencies :
  idle_dependencies initialRituals =
  [ ("ritual_skin_care_morning", "skincare_step_1");
    ("ritual_evening_care", "evening_skincare_step_1") ].
Proof. vm_compute. reflexivity. Qed.

(** ** A step event whose dependencies are met *)

(** X7. A [ritual_step_completed] event for a step of the catalog whose
    dependencies are all met when it is folded completes the step, and
    leaves the ritual's flag equal to the conjunction of its steps' flags. *)
Theorem met_step_event_completes :
  forall (log : list Event) (ts : Z) (ritualId stepId : string)
         (c : Clock) (n : nat) (ritual : Ritual.t) (step : Step.t),
    Obj.get (rituals (value_of (deriveState log) c n)) ritualId = Some ritual ->
    find_step (Ritual.steps ritual) stepId = Some step ->
    has_unmet_dependency (rituals (value_of (deriveState log) c n)) ritual step = false ->
    let d1 := value_of (deriveState (log ++ [ritual_step_completed ts ritualId stepId])) c n in
    step_done (rituals d1) ritualId stepId = true /\
    exists ritual',
      Obj.get (rituals d1) ritualId = Some ritual' /\
      Ritual.completed ritual' = forallb Step.completed (Ritual.steps ritual').
Proof.
  intros log ts r s c n ritual step Hget Hfind Hunmet d1. subst d1.
  rewrite deriveState_rituals in *. unfold value_of in *.
  rewrite loop_snoc, process_step_event. cbn [fst L.rituals].
  rewrite has_unmet_dependency_not_met in Hunmet.
  apply negb_false_iff in Hunmet.
  split.
  - now apply (complete_step_met _ r s ritual step).
  - now apply (complete_step_recomputes _ r s ritual step).
Qed.

Lemma met_step_event_completes_witness :
  step_done (rituals (value_of
      (deriveState ([ritual_step_completed 1 "ritual_lunch_prep" "meal_breakfast"]
                      ++ [ritual_step_completed 2 "ritual_lunch_prep" "med_ki_1"]))
      (fun _ => 0) 0)) "ritual_lunch_prep" "med_ki_1" = true.
Proof.
  edestruct met_step_event_completes
    with (log := [ritual_step_completed 1 "ritual_lunch_prep" "meal_breakfast"])
         (ts := 2) (ritualId := "ritual_lunch_prep") (stepId := "med_ki_1")
         (c := fun _ : nat => 0) (n := 0%nat)
    as (H & _).
  - vm_compute. reflexivity.
  - vm_compute. reflexivity.
  - vm_compute. reflexivity.
  - exact H.
Defined.

(** ** Reporting the same thing twice *)

Lemma mark_completed_done (steps : list Step.t) (x : string) (s : Step.t) :
  find_step steps x = Some s -> Step.completed s = true ->
  mark_completed steps x = steps.
Proof.
  unfold find_step.
  induction steps as [| a rest IH]; simpl; [reflexivity |].
  destruct (String.eqb (Step.id a) x).
  - intros H Hdone. injection H as ->. destruct s as [i nm done deps].
    simpl in *. now subst done.
  - intros H Hdone. now rewrite IH.
Qed.

Lemma with_steps_same (r : Ritual.t) : with_steps r (Ritual.steps r) = r.
Proof. now destruct r. Qed.

Lemma apply_drop_fix (rituals : Obj.t Ritual.t) (k x : string) :
  step_present rituals k x = false \/ step_done rituals k x = true ->
  apply_drop rituals k x = rituals.
Proof.
  unfold step_present, step_done, step_has, apply_drop.
  destruct (Obj.get rituals k) as [ritual |] eqn:Hget; [| reflexivity].
  destruct (find_step (Ritual.steps ritual) x) as [s |] eqn:Hfind; [| reflexivity].
  intros [H | H]; [discriminate |].
  rewrite (mark_completed_done _ _ _ Hfind H), with_steps_same.
  now apply ObjMore.set_same.
Qed.

Lemma apply_drop_settles (rituals : Obj.t Ritual.t) (k x : string) :
  step_present (apply_drop rituals k x) k x = false \/
  step_done (apply_drop rituals k x) k x = true.
Proof.
  destruct (step_present rituals k x) eqn:Hp.
  - right. now apply apply_drop_done.
  - left. rewrite <- Hp. apply step_present_shape. apply apply_drop_shape.
Qed.

Lemma settled_apply_drop (rituals : Obj.t Ritual.t) (k x k' x' : string) :
  step_present rituals k x = false \/ step_done rituals k x = true ->
  step_present (apply_drop rituals k' x') k x = false \/
  step_done (apply_drop rituals k' x') k x = true.
Proof.
  intros [H | H].
  - left. rewrite <- H. apply step_present_shape. apply apply_drop_shape.
  - right. now apply step_done_apply_drop.
Qed.

Lemma eye_drop_twice (rituals : Obj.t Ritual.t) (d : DropType) :
  eye_drop (eye_drop rituals d) d = eye_drop rituals d.
Proof.
  destruct d; unfold eye_drop.
  - set (r1 := apply_drop rituals "ritual_morning_prep" "eye_drops_systane").
    set (r2 := apply_drop r1 "w1d5e" "w1d5e_eye_drops").
    set (r3 := apply_drop r2 "w1d6g" "w1d6g_eye_drops").
    assert (H1 : apply_drop r3 "ritual_morning_prep" "eye_drops_systane" = r3).
    { apply apply_drop_fix. do 2 apply settled_apply_drop. apply apply_drop_settles. }
    assert (H2 : apply_drop r3 "w1d5e" "w1d5e_eye_drops" = r3).
    { apply apply_drop_fix. apply settled_apply_drop. apply apply_drop_settles. }
    assert (H3 : apply_drop r3 "w1d6g" "w1d6g_eye_drops" = r3).
    { apply apply_drop_fix. apply apply_drop_settles. }
    now rewrite H1, H2, H3.
  - apply apply_drop_fix. apply apply_drop_settles.
  - apply apply_drop_fix. apply apply_drop_settles.
Qed.

Lemma complete_step_twice (rituals : Obj.t Ritual.t) (k x : string) :
  complete_step (complete_step rituals k x) k x = complete_step rituals k x.
Proof.
  destruct (Obj.get rituals k) as [ritual |] eqn:Hget.
  2: { assert (H : complete_step rituals k x = rituals)
         by (unfold complete_step; now rewrite Hget).
       now rewrite !H. }
  destruct (find_step (Ritual.steps ritual) x) as [step |] eqn:Hfind.
  2: { assert (H : complete_step rituals k x = rituals)
         by (unfold complete_step; now rewrite Hget, Hfind).
       now rewrite !H. }
  destruct (dependenciesMet rituals ritual step) eqn:Hmet.
  2: { assert (H : complete_step rituals k x = rituals)
         by (unfold complete_step; now rewrite Hget, Hfind, Hmet).
       now rewrite !H. }
  assert (H : complete_step rituals k x =
              Obj.set rituals k
                (with_completed
                   (with_steps ritual (mark_completed (Ritual.steps ritual) x))
                   (forallb Step.completed (mark_completed (Ritual.steps ritual) x))))
    by (unfold complete_step; now rewrite Hget, Hfind, Hmet).
  rewrite H. unfold complete_step. rewrite ObjFacts.get_set_same.
  cbn [with_completed with_steps Ritual.steps].
  rewrite (find_step_mark_same _ _ _ Hfind).
  match goal with
  | |- (if ?b then _ else _) = _ => destruct b; [| reflexivity]
  end.
  rewrite (mark_completed_done (mark_completed (Ritual.steps ritual) x) x _
             (find_step_mark_same _ _ _ Hfind) eq_refl).
  apply ObjMore.set_same. rewrite ObjFacts.get_set_same. reflexivity.
Qed.

Lemma process_twice (st : L.t) (e : Event) (T : Z) (c : Clock) (n n' : nat) :
  fixed_at T c ->
  core (fst (process (fst (process st e c n)) e c n')) = core (fst (process st e c n)).
Proof.
  intros Hc. destruct e; unfold core; try reflexivity.
  - rewrite !process_step_event. cbn [fst L.rituals L.plants L.glucose].
    now rewrite complete_step_twice.
  - unfold process, ret. cbn [fst L.rituals L.plants L.glucose].
    now rewrite eye_drop_twice.
  - destruct (Obj.get (L.plants st) plantId) as [plant |] eqn:Hget.
    + rewrite (process_watering st ts plantId plant c n Hget). cbn [fst].
      rewrite (process_watering _ ts plantId (value_of (water plant ts) c n) c n')
        by (cbn [L.plants]; apply ObjFacts.get_set_same).
      cbn [fst L.rituals L.plants L.glucose].
      rewrite ObjMore.set_set, !value_of_water, !Hc. reflexivity.
    + unfold process. rewrite Hget. unfold ret. cbn [fst]. now rewrite Hget.
  - unfold process.
    destruct (Obj.get (L.plants st) plantId) as [plant |] eqn:Hget.
    + unfold ret. cbn [fst L.rituals L.plants L.glucose].
      rewrite ObjFacts.get_set_same. cbn [fst L.rituals L.plants L.glucose].
      now rewrite ObjMore.set_set.
    + unfold ret. cbn [fst]. now rewrite Hget.
Qed.

(** X8. Every event is idempotent on what is derived apart from the
    tallies: at a fixed instant, a log in which an event is immediately
    repeated derives the same rituals, plants, glucose summary, anchors
    and overdue count as the log with the event once. *)
Theorem repeated_event_changes_nothing :
  forall (before after : list Event) (e : Event) (T : Z) (c : Clock) (n : nat),
    fixed_at T c ->
    let d1 := value_of (deriveState (before ++ e :: after)) c n in
    let d2 := value_of (deriveState (before ++ e :: e :: after)) c n in
    rituals d2 = rituals d1 /\ plants d2 = plants d1 /\ glucose d2 = glucose d1 /\
    anchors d2 = anchors d1 /\ overdueCount d2 = overdueCount d1.
Proof.
  intros before after e T c n Hc d1 d2. subst d1 d2.
  rewrite !deriveState_loop. unfold value_of. rewrite !loop_app.
  cbn [process_all]. rewrite !bind_run.
  set (st := fst (loop before c n)). set (k := snd (loop before c n)).
  set (st1 := fst (process st e c k)). set (k1 := snd (process st e c k)).
  set (st2 := fst (process st1 e c k1)). set (k2 := snd (process st1 e c k1)).
  assert (Hcore : core st2 = core st1) by (apply (process_twice st e T c k k1 Hc)).
  destruct (process_all_core after st2 st1 c k2 Hcore) as [Hafter _].
  pose proof (steady_process_all after st1 T c c k2 k1 Hc Hc) as Hmove.
  unfold value_of in Hmove. rewrite Hmove in Hafter.
  rewrite !Hc. now apply same_core_same_view.
Qed.

Lemma repeated_event_changes_nothing_witness :
  plants (value_of
     (deriveState ([app_init 0] ++ watering_done 1 "plant_nolina"
                     :: watering_done 1 "plant_nolina" :: inert_sample))
     (fun _ => 50) 0) =
  plants (value_of
     (deriveState ([app_init 0] ++ watering_done 1 "plant_nolina" :: inert_sample))
     (fun _ => 50) 0).
Proof.
  destruct (repeated_event_changes_nothing [app_init 0] inert_sample
              (watering_done 1 "plant_nolina") 50 (fun _ => 50) 0) as (_ & H & _).
  - intro k. reflexivity.
  - exact H.
Defined.

(** ** The plants anchor and the overdue count *)

Lemma distinct_head (k : string) (l : list string) :
  distinct (k :: l) = true -> ~ In k l /\ distinct l = true.
Proof.
  simpl. intros H. apply andb_true_iff in H. destruct H as [Hk Hl].
  split; [| exact Hl]. apply existsb_eqb_false. now apply negb_true_iff.
Qed.

Lemma first_at_risk_found (ps : Obj.t Plant.t) (r : Risk.t) (k : string) :
  distinct (Obj.keys ps) = true ->
  first_at_risk ps r = Some k ->
  exists p, Obj.get ps k = Some p /\ Plant.riskLevel p = r.
Proof.
  induction ps as [| [k0 p0] rest IH]; simpl; [discriminate |].
  intros Hd Hfirst. apply distinct_head in Hd. destruct Hd as [Hk0 Hrest].
  assert (Hstep : (Plant.riskLevel p0 = r /\ k = k0) \/
                  (Plant.riskLevel p0 <> r /\ first_at_risk rest r = Some k)).
  { destruct (Plant.riskLevel p0), r;
      first [ left; split; [reflexivity | congruence]
            | right; split; [discriminate | exact Hfirst] ]. }
  destruct Hstep as [[Hr ->] | [Hr Hin]].
  - exists p0. now rewrite String.eqb_refl.
  - destruct (IH Hrest Hin) as (p & Hget & Hp).
    exists p. split; [| exact Hp].
    destruct (String.eqb_spec k k0) as [-> | _]; [| exact Hget].
    exfalso. apply Hk0.
    assert (Hnot : Obj.get rest k0 <> None) by congruence.
    rewrite ObjMore.get_none in Hnot.
    destruct (in_dec string_dec k0 (Obj.keys rest)); [assumption | contradiction].
Qed.

Lemma first_at_risk_none (ps : Obj.t Plant.t) (r : Risk.t) :
  first_at_risk ps r = None ->
  forall k p, Obj.get ps k = Some p -> Plant.riskLevel p <> r.
Proof.
  induction ps as [| [k0 p0] rest IH]; simpl; [discriminate |].
  intros Hfirst k p.
  destruct (String.eqb k k0).
  - intros H Hr. injection H as ->. rewrite Hr in Hfirst.
    destruct r; discriminate.
  - apply IH. destruct (Plant.riskLevel p0), r; try discriminate; exact Hfirst.
Qed.

Lemma first_at_risk_key (ps : Obj.t Plant.t) (r : Risk.t) (k : string) :
  first_at_risk ps r = Some k -> In k (Obj.keys ps).
Proof.
  induction ps as [| [k0 p0] rest IH]; simpl; [discriminate |].
  intros H.
  destruct (Plant.riskLevel p0), r;
    first [ left; congruence | right; now apply IH ].
Qed.

(** With keys that are not empty strings, the anchor is the first plant
    at high risk, or else the first at medium risk. *)
Lemma plants_anchor_cases (ps : Obj.t Plant.t) :
  ~ In "" (Obj.keys ps) ->
  plants_anchor ps =
  match first_at_risk ps Risk.high with
  | Some k => Some k
  | None => first_at_risk ps Risk.medium
  end.
Proof.
  intros Hkeys. unfold plants_anchor.
  destruct (first_at_risk ps Risk.high) as [k |] eqn:Hhigh.
  - assert (Hk : String.eqb k "" = false).
    { apply String.eqb_neq. intros ->. apply Hkeys.
      now apply (first_at_risk_key ps Risk.high). }
    simpl. now rewrite Hk.
  - simpl. now destruct (first_at_risk ps Risk.medium).
Qed.

Lemma plantIds_plain : distinct plantIds = true /\ ~ In "" plantIds.
Proof.
  split; [vm_compute; reflexivity |].
  apply existsb_eqb_false. vm_compute. reflexivity.
Qed.

(** In the first part (ordinary logs).
    The plants anchor of every derived state is a plant of the
    catalog: one at high risk if any plant is, otherwise one at medium
    risk if any plant is; it is undefined exactly when every plant is at
    low risk. *)
Lemma plants_anchor_is_most_urgent :
  forall (log : list Event) (c : Clock) (n : nat),
    let d := value_of (deriveState log) c n in
    (forall plantId, Anchors.plants (anchors d) = Some plantId ->
       exists plant,
         Obj.get (plants d) plantId = Some plant /\
         (Plant.riskLevel plant = Risk.high \/
          (Plant.riskLevel plant = Risk.medium /\
           forall q p, Obj.get (plants d) q = Some p -> Plant.riskLevel p <> Risk.high))) /\
    (Anchors.plants (anchors d) = None <->
     forall q p, Obj.get (plants d) q = Some p -> Plant.riskLevel p = Risk.low).
Proof.
  intros log c n d. subst d. rewrite deriveState_loop. unfold finish.
  cbn [anchors plants Anchors.plants]. unfold value_of.
  set (ps := L.plants (fst (loop log c n))).
  assert (Hkeys : Obj.keys ps = plantIds) by apply loop_plant_keys.
  destruct plantIds_plain as [Hdistinct Hplain].
  rewrite <- Hkeys in Hdistinct, Hplain.
  rewrite (plants_anchor_cases ps Hplain).
  destruct (first_at_risk ps Risk.high) as [kh |] eqn:Hhigh.
  - split.
    + intros pid H. injection H as <-.
      destruct (first_at_risk_found ps _ _ Hdistinct Hhigh) as (p & Hget & Hp).
      exists p. split; [exact Hget | now left].
    + split; [discriminate |].
      intros Hall. exfalso.
      destruct (first_at_risk_found ps _ _ Hdistinct Hhigh) as (p & Hget & Hp).
      specialize (Hall _ _ Hget). congruence.
  - pose proof (first_at_risk_none ps _ Hhigh) as Hnohigh.
    split.
    + intros pid Hmed.
      destruct (first_at_risk_found ps _ _ Hdistinct Hmed) as (p & Hget & Hp).
      exists p. split; [exact Hget |]. right. split; assumption.
    + split.
      * intros Hnone q p Hget.
        pose proof (first_at_risk_none ps _ Hnone q p Hget) as Hm.
        pose proof (Hnohigh q p Hget) as Hh.
        destruct (Plant.riskLevel p); congruence.
      * intros Hall.
        destruct (first_at_risk ps Risk.medium) as [km |] eqn:Hmed; [| reflexivity].
        destruct (first_at_risk_found ps _ _ Hdistinct Hmed) as (p & Hget & Hp).
        specialize (Hall _ _ Hget). congruence.
Qed.

Lemma count_overdue_acc (ps : Obj.t Plant.t) (now : Z) :
  forall a,
    a <= fold_left (fun n kv => if now >? Plant.nextDue (snd kv) then n + 1 else n) ps a
      <= a + Z.of_nat (List.length ps) /\
    (a < fold_left (fun n kv => if now >? Plant.nextDue (snd kv) then n + 1 else n) ps a ->
     exists kv, In kv ps /\ Plant.nextDue (snd kv) < now).
Proof.
  induction ps as [| kv rest IH]; intros a.
  - simpl. split; lia.
  - cbn [fold_left List.length]. rewrite Nat2Z.inj_succ.
    destruct (Z.gtb_spec now (Plant.nextDue (snd kv))) as [Hdue | Hnot].
    + destruct (IH (a + 1)) as [Hb _]. split; [lia |].
      intros _. exists kv. split; [now left | lia].
    + destruct (IH a) as [Hb Hex]. split; [lia |].
      intros Hlt. destruct (Hex Hlt) as (kv' & Hin & Hdue).
      exists kv'. split; [now right | exact Hdue].
Qed.

(** In the first part (ordinary logs).
    At a fixed instant the overdue count is between 0 and 11, and
    whenever it is positive the plants anchor names a plant at high risk. *)
Lemma overdue_plants_raise_the_anchor :
  forall (log : list Event) (T : Z) (c : Clock) (n : nat),
    fixed_at T c ->
    let d := value_of (deriveState log) c n in
    0 <= overdueCount d <= 11 /\
    (0 < overdueCount d ->
     exists plantId plant,
       Anchors.plants (anchors d) = Some plantId /\
       Obj.get (plants d) plantId = Some plant /\
       Plant.riskLevel plant = Risk.high).
Proof.
  intros log T c n Hc d. subst d. rewrite deriveState_loop. unfold finish.
  cbn [anchors plants overdueCount Anchors.plants]. rewrite Hc.
  pose proof (risk_current_loop T c Hc log n) as Hrisk.
  unfold value_of in *.
  set (ps := L.plants (fst (loop log c n))) in *.
  assert (Hkeys : Obj.keys ps = plantIds) by apply loop_plant_keys.
  assert (Hlen : List.length ps = 11%nat).
  { unfold Obj.keys in Hkeys.
    rewrite <- (length_map fst ps), Hkeys. reflexivity. }
  destruct plantIds_plain as [Hdistinct Hplain].
  rewrite <- Hkeys in Hdistinct, Hplain.
  unfold count_overdue.
  destruct (count_overdue_acc ps T 0) as [Hbound Hex].
  rewrite Hlen in Hbound. split; [lia |].
  intros Hpos. destruct (Hex Hpos) as ([k p] & Hin & Hdue). cbn [snd] in Hdue.
  assert (Hp : Plant.riskLevel p = Risk.high).
  { unfold risk_current in Hrisk. rewrite Forall_forall in Hrisk.
    rewrite (Hrisk p) by (apply in_map_iff; exists (k, p); auto).
    rewrite risk_of_tiers.
    destruct (Z.leb_spec (Plant.nextDue p - T) 0); [reflexivity | lia]. }
  rewrite (plants_anchor_cases ps Hplain).
  destruct (first_at_risk ps Risk.high) as [kh |] eqn:Hhigh.
  - destruct (first_at_risk_found ps _ _ Hdistinct Hhigh) as (ph & Hget & Hph).
    exists kh, ph. auto.
  - exfalso.
    (* keys being distinct, the overdue entry is the one its key reaches *)
    assert (Hget : Obj.get ps k = Some p).
    { clear - Hin Hdistinct. induction ps as [| [k0 p0] rest IH]; [contradiction |].
      simpl in *. apply distinct_head in Hdistinct. destruct Hdistinct as [Hk0 Hrest].
      destruct Hin as [Heq | Hin].
      - injection Heq as -> ->. now rewrite String.eqb_refl.
      - destruct (String.eqb_spec k k0) as [-> | _]; [| now apply IH].
        exfalso. apply Hk0. apply in_map_iff. exists (k0, p). auto. }
    exact (first_at_risk_none ps _ Hhigh k p Hget Hp).
Qed.

(** The two notions of lateness part at the very instant a plant falls
    due: it is at high risk and holds the anchor, and is not counted. *)
Example due_now_is_not_counted :
  Anchors.plants (anchors (value_of (deriveState water_gerda_at_0)
                             (fun _ => 604800000) 0))
    = Some "plant_schefflera_gerda" /\
  overdueCount (value_of (deriveState water_gerda_at_0) (fun _ => 604800000) 0) = 0.
Proof. split; vm_compute; reflexivity. Qed.

(** ** Profile updates *)

Lemma process_profile (st : L.t) (t : Z) (plantId : string) (P : PlantProfile)
    (plant : Plant.t) (c : Clock) (n : nat) :
  Obj.get (L.plants st) plantId = Some plant ->
  process st (plant_profile_updated t plantId P) c n =
  (L.mk (L.rituals st) (Obj.set (L.plants st) plantId (with_profile plant P))
        (L.glucose st) (L.developmentCounters st) (L.workTracking st),
   n).
Proof.
  intros Hget. unfold process. now rewrite Hget.
Qed.

(** In the first part (ordinary logs).
    A profile update for a plant of the catalog replaces the profile
    and nothing else: the plant keeps its [lastWatered], [nextDue] and
    risk level until it is watered again, and that watering measures the
    new [nextDue] from the lower bound of the new interval. *)
Lemma profile_update_waits_for_watering :
  forall (log : list Event) (t ts : Z) (plantId : string) (P : PlantProfile)
         (plant0 : Plant.t) (c : Clock) (n : nat),
    Obj.get (plants (value_of (deriveState log) c n)) plantId = Some plant0 ->
    (exists plant,
       Obj.get (plants (value_of
                  (deriveState (log ++ [plant_profile_updated t plantId P])) c n))
               plantId = Some plant /\
       Plant.profile plant = P /\
       Plant.lastWatered plant = Plant.lastWatered plant0 /\
       Plant.nextDue plant = Plant.nextDue plant0 /\
       Plant.riskLevel plant = Plant.riskLevel plant0) /\
    (exists plant,
       Obj.get (plants (value_of
                  (deriveState (log ++ [plant_profile_updated t plantId P;
                                        watering_done ts plantId])) c n))
               plantId = Some plant /\
       Plant.profile plant = P /\
       Plant.lastWatered plant = Some ts /\
       Plant.nextDue plant = ts + fst (baseInterval P) * (24 * 60 * 60 * 1000)).
Proof.
  intros log t ts plantId P plant0 c n Hget.
  rewrite deriveState_plants in Hget. unfold value_of in Hget.
  split.
  - rewrite deriveState_plants. unfold value_of. rewrite loop_snoc.
    rewrite (process_profile _ t plantId P plant0 c _ Hget).
    cbn [fst L.plants]. rewrite ObjFacts.get_set_same.
    eexists. split; [reflexivity |]. repeat split.
  - rewrite deriveState_plants. unfold value_of. rewrite loop_app.
    cbn [process_all]. rewrite !bind_run.
    rewrite (process_profile _ t plantId P plant0 c _ Hget). cbn [fst snd].
    rewrite (process_watering _ ts plantId (with_profile plant0 P))
      by (cbn [L.plants]; apply ObjFacts.get_set_same).
    cbn [fst ret L.plants]. unfold ret. cbn [fst L.plants].
    rewrite ObjFacts.get_set_same.
    eexists. split; [reflexivity |]. rewrite value_of_water. repeat split.
Qed.

(** * The manager and its listeners *)

Module ManagerFacts.

Lemma addEvent_run (m : Manager.t) (e : Event) (c : Clock) (n : nat) :
  Manager.addEvent m e c n =
  ((Manager.mk (mkAppState (version (Manager.state m)) (c n)
                  (events (Manager.state m) ++ [e]) (meta (Manager.state m)))
               (Manager.eventListeners m) (Manager.stateListeners m),
    (map (fun l => Manager.event_call l e) (Manager.eventListeners m)
     ++ map (fun l => Manager.state_call l
                        (value_of (deriveState (events (Manager.state m) ++ [e])) c (S n)))
            (Manager.stateListeners m))%list),
   snd (deriveState (events (Manager.state m) ++ [e]) c (S n))).
Proof.
  unfold Manager.addEvent, addEvent, value_of.
  repeat (rewrite bind_run; cbn [fst snd Date_now ret events]).
  reflexivity.
Qed.

(** ** Subscribing and unsubscribing *)

Lemma unsubscribe_cons (l cb : Manager.Listener) (rest : list Manager.Listener) :
  Manager.unsubscribe (l :: rest) cb =
  if Nat.eqb l cb then rest else l :: Manager.unsubscribe rest cb.
Proof.
  unfold Manager.unsubscribe. cbn [Manager.indexOf].
  destruct (Nat.eqb l cb); [reflexivity |].
  now destruct (Manager.indexOf rest cb).
Qed.

(** X15. Unsubscribing takes out the first subscription of the callback
    and nothing else: a callback that is not subscribed leaves the array
    as it is, and otherwise the listeners before and after its first
    entry stay, in their order. *)
Theorem unsubscribe_removes_first_entry :
  forall (listeners : list Manager.Listener) (callback : Manager.Listener),
    (~ In callback listeners /\
     Manager.unsubscribe listeners callback = listeners) \/
    (exists before after,
        listeners = (before ++ callback :: after)%list /\
        ~ In callback before /\
        Manager.unsubscribe listeners callback = (before ++ after)%list).
Proof.
  intros ls cb. induction ls as [| l rest IH].
  - left. split; [intros [] | reflexivity].
  - rewrite unsubscribe_cons. destruct (Nat.eqb_spec l cb) as [-> | Hne].
    + right. exists [], rest. repeat split. intros [].
    + destruct IH as [[Hnot Hsame] | (pre & post & Hsplit & Hnot & Hrm)].
      * left. split; [| now rewrite Hsame].
        intros [H | H]; [contradiction | now apply Hnot].
      * right. exists (l :: pre), post. rewrite Hsplit at 1. rewrite Hrm.
        repeat split. intros [H | H]; [contradiction | now apply Hnot].
Qed.

Lemma unsubscribe_last (ls : list Manager.Listener) (cb : Manager.Listener) :
  ~ In cb ls -> Manager.unsubscribe (ls ++ [cb]) cb = ls.
Proof.
  induction ls as [| l rest IH]; intros Hnot.
  - cbn [app]. rewrite unsubscribe_cons. now rewrite Nat.eqb_refl.
  - cbn [app]. rewrite unsubscribe_cons.
    destruct (Nat.eqb_spec l cb) as [-> | Hne].
    + exfalso. apply Hnot. now left.
    + rewrite IH; [reflexivity |]. intros H. apply Hnot. now right.
Qed.

(** X16. Subscribing a callback that is not yet subscribed and then
    calling the function [subscribe] returned gives back the manager as it
    was, for event listeners and for state listeners. *)
Theorem subscribe_then_unsubscribe :
  forall (m : Manager.t) (callback : Manager.Listener),
    ~ In callback (Manager.eventListeners m) ->
    ~ In callback (Manager.stateListeners m) ->
    Manager.unsubscribeFromEvents (Manager.subscribeToEvents m callback) callback = m /\
    Manager.unsubscribeFromState (Manager.subscribeToState m callback) callback = m.
Proof.
  intros [s els sls] cb He Hs. cbn [Manager.eventListeners Manager.stateListeners] in *.
  unfold Manager.unsubscribeFromEvents, Manager.subscribeToEvents,
    Manager.unsubscribeFromState, Manager.subscribeToState.
  cbn [Manager.state Manager.eventListeners Manager.stateListeners].
  now rewrite !unsubscribe_last.
Qed.

Lemma subscribe_then_unsubscribe_witness :
  Manager.unsubscribeFromEvents (Manager.subscribeToEvents listening_manager 5%nat) 5%nat
    = listening_manager.
Proof.
  destruct (subscribe_then_unsubscribe listening_manager 5%nat) as [H _].
  - cbn. intros [H | [H | []]]; discriminate.
  - cbn. intros [H | []]. discriminate.
  - exact H.
Defined.

(** A callback subscribed a second time and unsubscribed once stays
    subscribed, after the listeners that followed its first entry. *)
Example resubscribed_listener_moves_last :
  Manager.eventListeners
    (Manager.unsubscribeFromEvents (Manager.subscribeToEvents listening_manager 7%nat) 7%nat)
  = [8%nat; 7%nat].
Proof. reflexivity. Qed.

End ManagerFacts.

(** ** Construction *)

Lemma construct_fresh_run (uuid deviceName : string) (c : Clock) (n : nat) :
  value_of (Manager.construct None uuid deviceName) c n =
  (Manager.mk (mkAppState "1.0" (c (S (S n))) [app_init (c (S n))]
                 (mkMeta uuid (Some deviceName) None)) [] [],
   []).
Proof.
  unfold value_of, Manager.construct.
  repeat (rewrite bind_run; cbn [fst snd Date_now ret]).
  rewrite ManagerFacts.addEvent_run. reflexivity.
Qed.

(** X17. A manager constructed without a saved state holds a log of
    exactly one [app_init] event, stamped with the clock, and no listener;
    at a fixed instant the state it derives has every ritual and every
    step not completed, every plant at low risk with none overdue, and no
    glucose reading.  A manager constructed from a saved state holds that
    state unchanged. *)
Theorem fresh_manager_starts_clean :
  forall (uuid deviceName : string) (saved : AppState) (T : Z) (c : Clock)
         (n k : nat),
    fixed_at T c ->
    let m := fst (value_of (Manager.construct None uuid deviceName) c n) in
    let d := value_of (Manager.getDerivedState m) c k in
    events (Manager.state m) = [app_init T] /\
    Manager.eventListeners m = [] /\ Manager.stateListeners m = [] /\
    forallb (fun kv => negb (Ritual.completed (snd kv)) &&
                       forallb (fun s => negb (Step.completed s))
                               (Ritual.steps (snd kv)))
            (rituals d) = true /\
    Forall (fun kv => Plant.riskLevel (snd kv) = Risk.low /\
                      T < Plant.nextDue (snd kv)) (plants d) /\
    overdueCount d = 0 /\
    glucose d = mkGlucose None GStatus.unknown /\
    fst (value_of (Manager.construct (Some saved) uuid deviceName) c n) =
      Manager.mk saved [] [].
Proof.
  intros uuid dev saved T c n k Hc m d. subst d m.
  rewrite construct_fresh_run. cbn [fst Manager.state events
    Manager.eventListeners Manager.stateListeners].
  rewrite Hc. split; [reflexivity |]. split; [reflexivity |]. split; [reflexivity |].
  unfold Manager.getDerivedState, getDerivedState. cbn [Manager.state events].
  rewrite (steady_deriveState [app_init T] T c (fun _ => T) k 0%nat Hc)
    by (intro i; reflexivity).
  change (value_of (deriveState [app_init T]) (fun _ => T) 0)
    with (finish T (initial (value_of defaultPlants (fun _ => T) 0)) T).
  unfold finish. cbn [rituals plants overdueCount glucose initial
                      L.rituals L.plants L.glucose].
  split; [vm_compute; reflexivity |].
  pose proof (defaultPlants_seeded T) as Hseed.
  assert (Hall : Forall (fun kv : string * Plant.t =>
                           Plant.riskLevel (snd kv) = Risk.low /\
                           T < Plant.nextDue (snd kv))
                        (value_of defaultPlants (fun _ => T) 0)).
  { rewrite Forall_forall in *. intros kv Hin.
    destruct (Hseed (snd kv)) as (_ & Hdue & Hrisk); [now apply in_map | auto]. }
  split; [exact Hall |].
  split; [| split; reflexivity].
  unfold count_overdue.
  destruct (count_overdue_acc (value_of defaultPlants (fun _ => T) 0) T 0)
    as [Hbound Hex].
  destruct (Z.eq_dec
              (fold_left (fun n0 kv => if T >? Plant.nextDue (snd kv) then n0 + 1 else n0)
                         (value_of defaultPlants (fun _ => T) 0) 0) 0)
    as [Hz | Hnz]; [exact Hz |].
  exfalso. destruct Hex as (kv & Hin & Hdue); [lia |].
  rewrite Forall_forall in Hall. destruct (Hall kv Hin) as [_ Hlater]. lia.
Qed.

Lemma fresh_manager_starts_clean_witness :
  events (Manager.state
            (fst (value_of (Manager.construct None "id" "server") (fun _ => 77) 0)))
    = [app_init 77] /\
  overdueCount (value_of
     (Manager.getDerivedState
        (fst (value_of (Manager.construct None "id" "server") (fun _ => 77) 0)))
     (fun _ => 77) 3) = 0.
Proof.
  destruct (fresh_manager_starts_clean "id" "server" sample_state 77
              (fun _ => 77) 0%nat 3%nat) as (H1 & _ & _ & _ & _ & H2 & _).
  - intro i. reflexivity.
  - split; [exact H1 | exact H2].
Defined.

(** * The page *)

Module UIFacts.

Lemma pending_item_cases (state : DerivedState) (key type : string) :
  UI.pending_item state key type = [] \/
  exists ritual pendingStep,
    Obj.get (rituals state) key = Some ritual /\
    Ritual.completed ritual = false /\
    find (fun step => negb (Step.completed step)) (Ritual.steps ritual)
      = Some pendingStep /\
    UI.pending_item state key type =
      [ AnchorItem.mk (label (Step.name pendingStep)) "⏳" type
                      (Some key) None (Some (Step.id pendingStep)) ].
Proof.
  unfold UI.pending_item.
  destruct (Obj.get (rituals state) key) as [ritual |]; [| now left].
  destruct (Ritual.completed ritual) eqn:Hflag; [now left |]. cbn [negb].
  destruct (find _ (Ritual.steps ritual)) as [p |] eqn:Hfind; [| now left].
  right. exists ritual, p. repeat split; assumption.
Qed.

Lemma pending_item_length (state : DerivedState) (key type : string) :
  (List.length (UI.pending_item state key type) <= 1)%nat.
Proof.
  destruct (pending_item_cases state key type) as [-> | (r & p & _ & _ & _ & ->)];
    simpl; lia.
Qed.

Lemma health_items_length (state : DerivedState) :
  (List.length (UI.health_items state) <= 1)%nat.
Proof.
  unfold UI.health_items.
  destruct (status (glucose state)); try apply pending_item_length.
  destruct (last (glucose state)) as [[v ts] |]; [simpl; lia |].
  apply pending_item_length.
Qed.

Lemma plant_items_length (state : DerivedState) :
  (List.length (UI.plant_items state) <= 1)%nat.
Proof.
  unfold UI.plant_items.
  destruct (truthy _); [| simpl; lia].
  destruct (Anchors.plants (anchors state)) as [key |]; [| simpl; lia].
  destruct (Obj.get (plants state) key); simpl; lia.
Qed.

Lemma work_items_length (state : DerivedState) (dayOfWeek : Z) :
  (List.length (UI.work_items state dayOfWeek) <= 1)%nat.
Proof.
  unfold UI.work_items.
  destruct (emailChecks (work state) <? 2); [| simpl; lia].
  destruct ((1 <=? dayOfWeek) && (dayOfWeek <=? 5)); simpl; lia.
Qed.

(** X18. Whatever the derived state and the day, the page lists at most
    four anchors - health, plant, self-care, work, in that order - so the
    cut to five that follows never drops one. *)
Theorem anchor_list_is_never_cut :
  forall (state : DerivedState) (dayOfWeek : Z),
    (List.length (UI.anchorItems state dayOfWeek) <= 4)%nat /\
    UI.limitedAnchors state dayOfWeek = UI.anchorItems state dayOfWeek /\
    map AnchorItem.type (UI.anchorItems state dayOfWeek) =
      (map AnchorItem.type (UI.health_items state)
       ++ map (fun _ => "plant") (UI.plant_items state)
       ++ map (fun _ => "selfcare") (UI.pending_item state "ritual_makeup" "selfcare")
       ++ map (fun _ => "work") (UI.work_items state dayOfWeek))%list.
Proof.
  intros state dow.
  assert (Hlen : (List.length (UI.anchorItems state dow) <= 4)%nat).
  { unfold UI.anchorItems. rewrite !length_app.
    pose proof (health_items_length state).
    pose proof (plant_items_length state).
    pose proof (pending_item_length state "ritual_makeup" "selfcare").
    pose proof (work_items_length state dow). lia. }
  split; [exact Hlen |]. split.
  - unfold UI.limitedAnchors. apply firstn_all2. lia.
  - assert (Hp : map AnchorItem.type (UI.plant_items state) =
                 map (fun _ => "plant") (UI.plant_items state)).
    { unfold UI.plant_items. destruct (truthy _); [| reflexivity].
      destruct (Anchors.plants (anchors state)) as [key |]; [| reflexivity].
      now destruct (Obj.get (plants state) key). }
    assert (Hs : map AnchorItem.type (UI.pending_item state "ritual_makeup" "selfcare") =
                 map (fun _ => "selfcare")
                     (UI.pending_item state "ritual_makeup" "selfcare")).
    { destruct (pending_item_cases state "ritual_makeup" "selfcare")
        as [-> | (r & p & _ & _ & _ & ->)]; reflexivity. }
    assert (Hw : map AnchorItem.type (UI.work_items state dow) =
                 map (fun _ => "work") (UI.work_items state dow)).
    { unfold UI.work_items. destruct (emailChecks (work state) <? 2); [| reflexivity].
      now destruct ((1 <=? dow) && (dow <=? 5)). }
    unfold UI.anchorItems. now rewrite !map_app, Hp, Hs, Hw.
Qed.

Lemma item_of_type (state : DerivedState) (dayOfWeek : Z) (item : AnchorItem.t) :
  In item (UI.anchorItems state dayOfWeek) ->
  (In item (UI.health_items state) /\
   (AnchorItem.type item = "glucose" \/ AnchorItem.type item = "health")) \/
  (In item (UI.plant_items state) /\ AnchorItem.type item = "plant") \/
  (In item (UI.pending_item state "ritual_makeup" "selfcare") /\
   AnchorItem.type item = "selfcare") \/
  (In item (UI.work_items state dayOfWeek) /\ AnchorItem.type item = "work").
Proof.
  unfold UI.anchorItems. rewrite !in_app_iff.
  intros [H | [H | [H | H]]].
  - left. split; [exact H |]. unfold UI.health_items in H.
    assert (Hpending : In item (UI.pending_item state "ritual_morning_prep" "health") ->
                       AnchorItem.type item = "health").
    { intros Hin.
      destruct (pending_item_cases state "ritual_morning_prep" "health")
        as [Hnil | (r & p & _ & _ & _ & Hone)].
      - rewrite Hnil in Hin. contradiction.
      - rewrite Hone in Hin. destruct Hin as [<- | []]. reflexivity. }
    destruct (status (glucose state)); try (right; now apply Hpending).
    destruct (last (glucose state)) as [[v ts] |]; [| right; now apply Hpending].
    destruct H as [<- | []]. now left.
  - right. left. split; [exact H |]. unfold UI.plant_items in H.
    destruct (truthy _); [| contradiction].
    destruct (Anchors.plants (anchors state)) as [key |]; [| contradiction].
    destruct (Obj.get (plants state) key); [| contradiction].
    destruct H as [<- | []]. reflexivity.
  - right. right. left. split; [exact H |].
    destruct (pending_item_cases state "ritual_makeup" "selfcare")
      as [Hnil | (r & p & _ & _ & _ & Hone)].
    + rewrite Hnil in H. contradiction.
    + rewrite Hone in H. destruct H as [<- | []]. reflexivity.
  - right. right. right. split; [exact H |]. unfold UI.work_items in H.
    destruct (emailChecks (work state) <? 2); [| contradiction].
    destruct ((1 <=? dayOfWeek) && (dayOfWeek <=? 5)); [| contradiction].
    destruct H as [<- | []]. reflexivity.
Qed.

(** X19. A click on the work anchor adds no event: the item carries the
    ritual [work_email] and no step, and [handleAnchorClick] asks for
    both.  This holds of every work item of every page, whatever the
    dialog would answer. *)
Theorem work_anchor_click_adds_nothing :
  forall (state : DerivedState) (dayOfWeek : Z) (item : AnchorItem.t)
         (answer : option number) (c : Clock) (n : nat),
    In item (UI.anchorItems state dayOfWeek) ->
    AnchorItem.type item = "work" ->
    UI.click item answer c n = (None, n).
Proof.
  intros state dow item answer c n Hin Htype.
  destruct (item_of_type state dow item Hin)
    as [[_ [H | H]] | [[_ H] | [[_ H] | [Hwork _]]]];
    try (rewrite Htype in H; discriminate).
  unfold UI.work_items in Hwork.
  destruct (emailChecks (work state) <? 2); [| contradiction].
  destruct ((1 <=? dow) && (dow <=? 5)); [| contradiction].
  destruct Hwork as [<- | []]. reflexivity.
Qed.

Lemma work_anchor_click_adds_nothing_witness :
  UI.click (AnchorItem.mk (label "Проверка почты") "⏳" "work" (Some "work_email") None None)
           (Some (Finite 5.0)) (fun _ => 0) 0%nat = (None, 0%nat).
Proof.
  apply (work_anchor_click_adds_nothing
           (value_of (deriveState []) (fun _ => 0) 0) 3).
  - vm_compute. do 2 right. left. reflexivity.
  - reflexivity.
Defined.

Lemma process_glucose_consistent (st : L.t) (e : Event) (c : Clock) (n : nat) :
  (status (L.glucose st) = GStatus.low -> last (L.glucose st) <> None) ->
  status (L.glucose (fst (process st e c n))) = GStatus.low ->
  last (L.glucose (fst (process st e c n))) <> None.
Proof.
  intros H. destruct e; unfold process; try exact H.
  - destruct (Obj.get (L.plants st) plantId); [| exact H].
    rewrite bind_run. exact H.
  - intros _. discriminate.
  - destruct (Obj.get (L.plants st) plantId); exact H.
Qed.

Lemma low_glucose_has_reading (log : list Event) (c : Clock) (n : nat) :
  status (glucose (value_of (deriveState log) c n)) = GStatus.low ->
  exists value ts, last (glucose (value_of (deriveState log) c n)) = Some (value, ts).
Proof.
  rewrite deriveState_glucose. intros Hlow.
  assert (H : last (L.glucose (value_of (loop log) c n)) <> None).
  { revert Hlow.
    apply (loop_invariant c
             (fun st => status (L.glucose st) = GStatus.low ->
                        last (L.glucose st) <> None)).
    - intros k. discriminate.
    - intros st e k. apply process_glucose_consistent. }
  destruct (last (L.glucose (value_of (loop log) c n))) as [[v ts] |];
    [now exists v, ts | contradiction].
Qed.

(** X20. On the page a low glucose reading takes the health slot: for
    every log whose derived glucose status is [low], the first anchor
    listed is the glucose item with the last value, and no morning step is
    listed as a health anchor. *)
Theorem page_puts_low_glucose_first :
  forall (log : list Event) (c : Clock) (n : nat) (dayOfWeek : Z),
    status (glucose (value_of (deriveState log) c n)) = GStatus.low ->
    exists value ts,
      last (glucose (value_of (deriveState log) c n)) = Some (value, ts) /\
      hd_error (UI.limitedAnchors (value_of (deriveState log) c n) dayOfWeek) =
        Some (AnchorItem.mk (glucose_label value) "🔴" "glucose" None None None) /\
      forall item,
        In item (UI.limitedAnchors (value_of (deriveState log) c n) dayOfWeek) ->
        AnchorItem.type item <> "health".
Proof.
  intros log c n dow Hlow.
  destruct (low_glucose_has_reading log c n Hlow) as (v & ts & Hlast).
  exists v, ts. split; [exact Hlast |].
  set (d := value_of (deriveState log) c n) in *.
  assert (Hhealth : UI.health_items d =
                    [AnchorItem.mk (glucose_label v) "🔴" "glucose" None None None]).
  { unfold UI.health_items. now rewrite Hlow, Hlast. }
  assert (Hcut : UI.limitedAnchors d dow = UI.anchorItems d dow).
  { unfold UI.limitedAnchors. apply firstn_all2.
    unfold UI.anchorItems. rewrite !length_app, Hhealth.
    pose proof (plant_items_length d).
    pose proof (pending_item_length d "ritual_makeup" "selfcare").
    pose proof (work_items_length d dow). simpl. lia. }
  rewrite Hcut. split.
  - unfold UI.anchorItems. now rewrite Hhealth.
  - intros item Hin Htype.
    destruct (item_of_type d dow item Hin)
      as [[Hh _] | [[_ H] | [[_ H] | [_ H]]]];
      try (rewrite Htype in H; discriminate).
    rewrite Hhealth in Hh. destruct Hh as [<- | []]. discriminate.
Qed.

Lemma page_puts_low_glucose_first_witness :
  hd_error (UI.limitedAnchors (value_of (deriveState low_glucose_only) (fun _ => 0) 0) 3) =
  Some (AnchorItem.mk (glucose_label (Finite 3.0)) "🔴" "glucose" None None None).
Proof.
  destruct (page_puts_low_glucose_first low_glucose_only (fun _ => 0) 0 3)
    as (v & ts & Hlast & Hhead & _).
  - vm_compute. reflexivity.
  - rewrite Hhead. vm_compute in Hlast. injection Hlast as <- _. reflexivity.
Defined.

(** X21. The day can only be closed on a completed day: whenever
    [updateDayEndButton] enables the button, every step of the morning and
    of the evening ritual is completed, the glucose status is not [low],
    and the log holds at least two email-check events. *)
Theorem day_end_needs_a_completed_day :
  forall (log : list Event) (c : Clock) (n : nat),
    UI.dayEndDisabled (value_of (deriveState log) c n) = false ->
    (exists morning evening,
        Obj.get (rituals (value_of (deriveState log) c n)) "ritual_morning_prep"
          = Some morning /\
        Obj.get (rituals (value_of (deriveState log) c n)) "ritual_evening_prep"
          = Some evening /\
        forallb Step.completed (Ritual.steps morning) = true /\
        forallb Step.completed (Ritual.steps evening) = true) /\
    status (glucose (value_of (deriveState log) c n)) <> GStatus.low /\
    2 <= completions_of "work_email_check_1" log +
         completions_of "work_email_check_2" log.
Proof.
  intros log c n Hbutton. unfold UI.dayEndDisabled in Hbutton.
  apply negb_false_iff in Hbutton.
  apply andb_true_iff in Hbutton. destruct Hbutton as [Hbutton Hwork].
  apply andb_true_iff in Hbutton. destruct Hbutton as [Hflags Hglucose].
  apply andb_true_iff in Hflags. destruct Hflags as [Hm He].
  split; [| split].
  - rewrite deriveState_rituals in *.
    pose proof (loop_flag_kept log c n) as Hkept. rewrite Forall_forall in Hkept.
    destruct (Obj.get (L.rituals (value_of (loop log) c n)) "ritual_morning_prep")
      as [morning |] eqn:Hgm; [| discriminate].
    destruct (Obj.get (L.rituals (value_of (loop log) c n)) "ritual_evening_prep")
      as [evening |] eqn:Hge; [| discriminate].
    exists morning, evening. split; [reflexivity |]. split; [reflexivity |].
    split.
    + now apply (Hkept (_, morning) (ObjMore.get_entry _ _ _ Hgm)).
    + now apply (Hkept (_, evening) (ObjMore.get_entry _ _ _ Hge)).
  - intros Hlow. rewrite Hlow in Hglucose. discriminate.
  - apply Z.leb_le in Hwork. rewrite deriveState_loop in Hwork.
    unfold finish in Hwork. cbn [work] in Hwork.
    unfold value_of, loop in Hwork. rewrite !bind_run in Hwork.
    match type of Hwork with
    | context [process_all log ?st c ?k] =>
        destruct (process_all_tallies log st c k) as [_ Hw]
    end.
    cbn zeta in Hw. rewrite Hw in Hwork.
    cbn [initial L.workTracking emailChecks] in Hwork. exact Hwork.
Qed.

Lemma day_end_needs_a_completed_day_witness :
  2 <= completions_of "work_email_check_1" full_day +
       completions_of "work_email_check_2" full_day.
Proof.
  destruct (day_end_needs_a_completed_day full_day (fun _ => 0) 0) as (_ & _ & H).
  - vm_compute. reflexivity.
  - exact H.
Defined.

(** The converse fails where the morning ritual's last step comes from
    the eye drops: every step of the day is completed, both email checks
    are in, and the button stays disabled. *)
Example day_end_stays_disabled :
  UI.dayEndDisabled (value_of (deriveState full_day_with_drops_last) (fun _ => 0) 0)
    = true /\
  step_done (rituals (value_of (deriveState full_day_with_drops_last) (fun _ => 0) 0))
            "ritual_morning_prep" "eye_drops_systane" = true /\
  UI.dayEndDisabled (value_of (deriveState full_day) (fun _ => 0) 0) = false.
Proof. repeat split; vm_compute; reflexivity. Qed.

Lemma morning_steps_are_free (rs : Obj.t Ritual.t) (ritual : Ritual.t) (step : Step.t) :
  rituals_shape rs = rituals_shape initialRituals ->
  Obj.get rs "ritual_morning_prep" = Some ritual ->
  In step (Ritual.steps ritual) ->
  Step.dependencies step = None /\ Step.id step <> "".
Proof.
  intros Hshape Hget Hin.
  destruct (get_shape_steps _ _ _ _ Hshape Hget) as (rb & Hb & Hsteps).
  vm_compute in Hb. injection Hb as <-.
  apply (in_map step_shape) in Hin. rewrite Hsteps in Hin.
  cbn [Ritual.steps map] in Hin. unfold step_shape at 2 3 4 5 6 in Hin.
  cbn [Step.id Step.name Step.dependencies] in Hin.
  unfold step_shape in Hin.
  repeat (destruct Hin as [Hin | Hin];
          [injection Hin as Hid _ Hdeps; rewrite <- Hid, <- Hdeps;
           split; [reflexivity | discriminate] |]).
  destruct Hin.
Qed.

Lemma find_step_self (steps : list Step.t) (step : Step.t) :
  In step steps ->
  exists found, find_step steps (Step.id step) = Some found /\ In found steps.
Proof.
  intros Hin. unfold find_step.
  destruct (find (fun s => String.eqb (Step.id s) (Step.id step)) steps)
    as [found |] eqn:Hfind.
  - exists found. split; [reflexivity |]. now apply find_some in Hfind.
  - pose proof (find_none _ _ Hfind step Hin) as H. cbn beta in H.
    rewrite String.eqb_refl in H. discriminate.
Qed.

(** X22. A click on a health anchor does what it shows: the item names a
    step of the morning ritual, the click adds one completion event for
    exactly that step, stamped with the clock, and deriving the log with
    that event records the step as completed. *)
Theorem health_anchor_click_completes_the_step :
  forall (log : list Event) (c : Clock) (n : nat) (dayOfWeek : Z)
         (item : AnchorItem.t) (answer : option number) (c' : Clock) (k : nat),
    In item (UI.anchorItems (value_of (deriveState log) c n) dayOfWeek) ->
    AnchorItem.type item = "health" ->
    exists stepId,
      AnchorItem.stepId item = Some stepId /\
      UI.click item answer c' k =
        (Some (ritual_step_completed (c' k) "ritual_morning_prep" stepId), S k) /\
      step_done
        (rituals (value_of
           (deriveState (log ++ [ritual_step_completed (c' k) "ritual_morning_prep" stepId]))
           c n))
        "ritual_morning_prep" stepId = true.
Proof.
  intros log c n dow item answer c' k Hin Htype.
  destruct (item_of_type _ dow item Hin)
    as [[Hhealth _] | [[_ H] | [[_ H] | [_ H]]]];
    try (rewrite Htype in H; discriminate).
  assert (Hpending : In item (UI.pending_item (value_of (deriveState log) c n)
                                "ritual_morning_prep" "health")).
  { unfold UI.health_items in Hhealth.
    destruct (status (glucose (value_of (deriveState log) c n)));
      try exact Hhealth.
    destruct (last (glucose (value_of (deriveState log) c n))) as [[v ts] |];
      [| exact Hhealth].
    destruct Hhealth as [<- | []]. discriminate. }
  destruct (pending_item_cases (value_of (deriveState log) c n)
              "ritual_morning_prep" "health")
    as [Hnone | (ritual & step & Hget & _ & Hfind & Hitem)].
  { rewrite Hnone in Hpending. destruct Hpending. }
  rewrite Hitem in Hpending. destruct Hpending as [<- | []].
  apply find_some in Hfind. destruct Hfind as [Hstep _].
  rewrite deriveState_rituals in Hget.
  destruct (loop_shape log c n) as [Hshape _].
  destruct (morning_steps_are_free _ _ _ Hshape Hget Hstep) as [_ Hid].
  destruct (find_step_self _ _ Hstep) as (found & Hfound & Hfin).
  destruct (morning_steps_are_free _ _ _ Hshape Hget Hfin) as [Hdeps _].
  exists (Step.id step). split; [reflexivity |]. split.
  - unfold UI.click, UI.click_arguments, UI.or_else.
    cbn [AnchorItem.type AnchorItem.ritualId AnchorItem.plantId AnchorItem.stepId
         fst snd].
    apply String.eqb_neq in Hid. rewrite Hid.
    unfold UI.handleAnchorClick, UI.is_empty. rewrite Hid. reflexivity.
  - rewrite deriveState_rituals. unfold value_of in *. rewrite loop_snoc.
    rewrite process_step_event. cbn [fst L.rituals].
    apply (complete_step_met _ _ _ ritual found Hget Hfound).
    unfold dependenciesMet. now rewrite Hdeps.
Qed.

Lemma health_anchor_click_completes_the_step_witness :
  exists stepId,
    step_done
      (rituals (value_of
         (deriveState ([] ++ [ritual_step_completed 7 "ritual_morning_prep" stepId]))
         (fun _ => 0) 0))
      "ritual_morning_prep" stepId = true.
Proof.
  destruct (health_anchor_click_completes_the_step
              [] (fun _ => 0) 0%nat 3
              (AnchorItem.mk (label "Капли Систейн") "⏳" "health"
                 (Some "ritual_morning_prep") None (Some "eye_drops_systane"))
              None (fun _ => 7) 0%nat)
    as (stepId & _ & _ & Hdone).
  - vm_compute. left. reflexivity.
  - reflexivity.
  - exists stepId. exact Hdone.
Defined.

Lemma plant_key_is_id (ps : Obj.t Plant.t) (key : string) (plant : Plant.t) :
  map plant_identity ps = map plant_identity (value_of defaultPlants (fun _ => 0) 0) ->
  Obj.get ps key = Some plant ->
  Plant.id plant = key.
Proof.
  intros Hid Hget. apply ObjMore.get_entry in Hget.
  apply (in_map plant_identity) in Hget. rewrite Hid in Hget.
  vm_compute in Hget.
  destruct plant as [id name profile lastWatered nextDue riskLevel isWinter].
  cbn [Plant.id].
  repeat (destruct Hget as [Hget | Hget]; [congruence |]).
  destruct Hget.
Qed.

(** In the first part (ordinary logs).
    A click on the plant anchor waters the plant it shows: the click
    adds a watering event for the anchored plant, stamped with the clock;
    deriving the log with that event records the watering, and when the
    plant's shortest interval is at least a day the plant is at low risk
    and no longer the anchor. *)
Lemma plant_anchor_click_waters_the_plant :
  forall (log : list Event) (T : Z) (c : Clock) (n : nat) (dayOfWeek : Z)
         (item : AnchorItem.t) (answer : option number) (k : nat),
    fixed_at T c ->
    In item (UI.anchorItems (value_of (deriveState log) c n) dayOfWeek) ->
    AnchorItem.type item = "plant" ->
    exists key plant0,
      Anchors.plants (anchors (value_of (deriveState log) c n)) = Some key /\
      Obj.get (plants (value_of (deriveState log) c n)) key = Some plant0 /\
      UI.click item answer c k = (Some (watering_done T key), S k) /\
      exists plant,
        Obj.get (plants (value_of (deriveState (log ++ [watering_done T key])) c n)) key
          = Some plant /\
        Plant.lastWatered plant = Some T /\
        (1 <= fst (baseInterval (Plant.profile plant0)) ->
         Plant.riskLevel plant = Risk.low /\
         Anchors.plants (anchors (value_of (deriveState (log ++ [watering_done T key])) c n))
           <> Some key).
Proof.
  intros log T c n dow item answer k Hc Hin Htype.
  destruct (item_of_type _ dow item Hin)
    as [[_ [H | H]] | [[Hplant _] | [[_ H] | [_ H]]]];
    try (rewrite Htype in H; discriminate).
  unfold UI.plant_items in Hplant.
  destruct (truthy (Anchors.plants (anchors (value_of (deriveState log) c n))))
    eqn:Htruthy; [| destruct Hplant].
  destruct (Anchors.plants (anchors (value_of (deriveState log) c n)))
    as [key |] eqn:Hanchor; [| destruct Hplant].
  destruct (Obj.get (plants (value_of (deriveState log) c n)) key)
    as [plant0 |] eqn:Hget; [| destruct Hplant].
  destruct Hplant as [<- | []].
  exists key, plant0. split; [reflexivity |]. split; [exact Hget |].
  rewrite deriveState_plants in Hget.
  destruct (loop_shape log c n) as [_ Hidentity].
  rewrite (plant_key_is_id _ _ _ Hidentity Hget).
  cbn [truthy] in Htruthy. apply negb_true_iff in Htruthy.
  split.
  - unfold UI.click, UI.click_arguments, UI.or_else.
    cbn [AnchorItem.type AnchorItem.ritualId AnchorItem.plantId AnchorItem.stepId
         fst snd].
    rewrite Htruthy. unfold UI.handleAnchorClick, UI.is_empty. rewrite Htruthy.
    cbn [String.eqb Ascii.eqb Bool.eqb andb negb]. unfold bind, Date_now, ret.
    now rewrite Hc.
  - rewrite deriveState_loop. unfold finish. cbn [plants anchors Anchors.plants].
    unfold value_of in *.
    assert (Hkeys : Obj.keys (L.plants (fst (loop (log ++ [watering_done T key]) c n)))
                    = plantIds) by apply loop_plant_keys.
    rewrite loop_snoc in *.
    rewrite (process_watering _ T key plant0 c _ Hget) in *.
    cbn [fst L.plants] in *.
    set (ps := Obj.set (L.plants (fst (loop log c n))) key
                 (value_of (water plant0 T) c (snd (loop log c n)))) in *.
    assert (Hwatered : Obj.get ps key =
                       Some (value_of (water plant0 T) c (snd (loop log c n))))
      by apply ObjFacts.get_set_same.
    eexists. split; [exact Hwatered |].
    rewrite value_of_water, Hc. cbn [Plant.lastWatered Plant.riskLevel].
    split; [reflexivity |].
    intros Hday.
    assert (Hlow : risk_of (T + fst (baseInterval (Plant.profile plant0))
                                * (24 * 60 * 60 * 1000)) T = Risk.low).
    { rewrite risk_of_tiers.
      set (m := fst (baseInterval (Plant.profile plant0))) in *.
      destruct (Z.leb_spec (T + m * (24 * 60 * 60 * 1000) - T) 0); [lia |].
      destruct (Z.leb_spec (T + m * (24 * 60 * 60 * 1000) - T) (12 * (60 * 60 * 1000)));
        [lia | reflexivity]. }
    split; [exact Hlow |].
    destruct plantIds_plain as [Hdistinct Hplain].
    rewrite <- Hkeys in Hdistinct, Hplain.
    rewrite (plants_anchor_cases ps Hplain).
    rewrite value_of_water, Hc in Hwatered.
    intros Hstill.
    destruct (first_at_risk ps Risk.high) as [kh |] eqn:Hhigh.
    + injection Hstill as ->.
      destruct (first_at_risk_found ps _ _ Hdistinct Hhigh) as (p & Hp & Hrisk).
      rewrite Hwatered in Hp.
      apply (f_equal (option_map Plant.riskLevel)) in Hp.
      cbn [option_map Plant.riskLevel] in Hp. congruence.
    + destruct (first_at_risk_found ps _ _ Hdistinct Hstill) as (p & Hp & Hrisk).
      rewrite Hwatered in Hp.
      apply (f_equal (option_map Plant.riskLevel)) in Hp.
      cbn [option_map Plant.riskLevel] in Hp. congruence.
Qed.

Lemma step_ids_shape (s1 s2 : list Step.t) :
  map step_shape s1 = map step_shape s2 -> map Step.id s1 = map Step.id s2.
Proof.
  intros H. apply (f_equal (map (fun t => fst (fst t)))) in H.
  rewrite !map_map in H. exact H.
Qed.

Lemma keys_shape (a b : Obj.t Ritual.t) :
  rituals_shape a = rituals_shape b -> Obj.keys a = Obj.keys b.
Proof.
  intros H. apply (f_equal (map fst)) in H. unfold rituals_shape in H.
  rewrite !map_map in H. exact H.
Qed.

Lemma well_keyed_shape (a b : Obj.t Ritual.t) :
  rituals_shape a = rituals_shape b -> well_keyed a = well_keyed b.
Proof.
  intros H. unfold well_keyed. rewrite (keys_shape a b H). f_equal.
  unfold rituals_shape in H. revert b H.
  induction a as [| [ka ra] resta IH]; intros [| [kb rb] restb] H; cbn [map] in H;
    try discriminate; [reflexivity |].
  injection H as Hk Hid Hname Hsteps Hdeps Htr Hdur Hrest.
  cbn [forallb fst snd]. rewrite (IH restb Hrest).
  rewrite (step_ids_shape _ _ Hsteps). now rewrite Hk, Hid.
Qed.

Lemma loop_well_keyed (events : list Event) (c : Clock) (n : nat) :
  well_keyed (L.rituals (value_of (loop events) c n)) = true.
Proof.
  destruct (loop_shape events c n) as [Hshape _].
  rewrite (well_keyed_shape _ _ Hshape). vm_compute. reflexivity.
Qed.

Lemma get_of_entry {A : Type} (o : Obj.t A) (k : string) (v : A) :
  distinct (Obj.keys o) = true -> In (k, v) o -> Obj.get o k = Some v.
Proof.
  induction o as [| [k' v'] rest IH]; [intros _ [] |].
  cbn [Obj.keys map fst] . intros Hdistinct Hin.
  apply distinct_head in Hdistinct. destruct Hdistinct as [Hfresh Hrest].
  cbn [Obj.get]. destruct Hin as [Hhead | Hin].
  - injection Hhead as -> ->. now rewrite String.eqb_refl.
  - destruct (String.eqb_spec k k') as [-> | _].
    + exfalso. apply Hfresh. change (In (fst (k', v)) (map fst rest)).
      now apply in_map.
    + now apply IH.
Qed.

Lemma find_step_unique (steps : list Step.t) (step : Step.t) :
  distinct (map Step.id steps) = true -> In step steps ->
  find_step steps (Step.id step) = Some step.
Proof.
  unfold find_step.
  induction steps as [| s rest IH]; [intros _ [] |].
  cbn [map]. intros Hdistinct Hin.
  apply distinct_head in Hdistinct. destruct Hdistinct as [Hfresh Hrest].
  cbn [find]. destruct Hin as [-> | Hin].
  - now rewrite String.eqb_refl.
  - destruct (String.eqb_spec (Step.id s) (Step.id step)) as [Heq | _].
    + exfalso. apply Hfresh. rewrite Heq. now apply in_map.
    + now apply IH.
Qed.

(** X24. The rituals list offers a button for exactly the pending steps:
    on the page of every derived state, a button for a ritual and a step
    is drawn if and only if the ritual has that step and the step is not
    completed.  No pending step hides behind a ritual flag, and no button
    names a step that is done or absent. *)
Theorem every_pending_step_has_its_button :
  forall (log : list Event) (c : Clock) (n : nat) (ritualId stepId : string),
    In (ritualId, stepId) (UI.stepButtons (value_of (deriveState log) c n)) <->
    step_present (rituals (value_of (deriveState log) c n)) ritualId stepId = true /\
    step_done (rituals (value_of (deriveState log) c n)) ritualId stepId = false.
Proof.
  intros log c n rid sid.
  unfold UI.stepButtons, UI.incompleteRituals, step_present, step_done, step_has.
  rewrite deriveState_rituals.
  pose proof (loop_well_keyed log c n) as Hkeyed.
  pose proof (loop_flag_kept log c n) as Hflags.
  set (rs := L.rituals (value_of (loop log) c n)) in *.
  unfold well_keyed in Hkeyed. apply andb_true_iff in Hkeyed.
  destruct Hkeyed as [Hdistinct Hentries].
  rewrite forallb_forall in Hentries. rewrite Forall_forall in Hflags.
  split.
  - intros Hin. apply in_flat_map in Hin. destruct Hin as (ritual & Hritual & Hin).
    apply filter_In in Hritual. destruct Hritual as [Hritual _].
    apply in_map_iff in Hritual. destruct Hritual as ([key ritual'] & Hsnd & Hentry).
    cbn [snd] in Hsnd. subst ritual'.
    apply in_map_iff in Hin. destruct Hin as (step & Hpair & Hstep).
    injection Hpair as Hrid Hsid.
    apply filter_In in Hstep. destruct Hstep as [Hstep Hpending].
    apply negb_true_iff in Hpending.
    pose proof (Hentries _ Hentry) as Hentry'. cbn [fst snd] in Hentry'.
    apply andb_true_iff in Hentry'. destruct Hentry' as [Hid Hsteps].
    apply String.eqb_eq in Hid. rewrite Hid in Hrid. subst key sid.
    rewrite (get_of_entry rs rid ritual Hdistinct Hentry).
    rewrite (find_step_unique _ _ Hsteps Hstep). split; [reflexivity | exact Hpending].
  - intros [Hpresent Hdone].
    destruct (Obj.get rs rid) as [ritual |] eqn:Hget; [| discriminate].
    destruct (find_step (Ritual.steps ritual) sid) as [step |] eqn:Hfind;
      [| discriminate].
    apply ObjMore.get_entry in Hget.
    pose proof (Hentries _ Hget) as Hentry'. cbn [fst snd] in Hentry'.
    apply andb_true_iff in Hentry'. destruct Hentry' as [Hid _].
    apply String.eqb_eq in Hid.
    apply find_some in Hfind. destruct Hfind as [Hstep Hsid].
    apply String.eqb_eq in Hsid.
    apply in_flat_map. exists ritual. split.
    + apply filter_In. split.
      * apply in_map_iff. exists (rid, ritual). split; [reflexivity | exact Hget].
      * apply negb_true_iff.
        destruct (Ritual.completed ritual) eqn:Hflag; [| reflexivity].
        destruct (Hflags _ Hget) as [Hall _]. cbn [snd] in Hall.
        specialize (Hall Hflag). rewrite forallb_forall in Hall.
        rewrite (Hall _ Hstep) in Hdone. discriminate.
    + apply in_map_iff. exists step. split.
      * now rewrite Hid, Hsid.
      * apply filter_In. split; [exact Hstep | now apply negb_true_iff].
Qed.

End UIFacts.

(** * The pass inside its realm: how it relates to the first part *)

Module JsFacts.

Lemma bind_returns {A B : Type} (m : Js.M A) (f : A -> Js.M B)
    (realm realm' : Js.Realm) (c : Clock) (n n' : nat) (a : A) :
  m realm c n = (Js.Returns a, realm', n') ->
  Js.bind m f realm c n = f a realm' c n'.
Proof. intros H. unfold Js.bind. now rewrite H. Qed.

Lemma bind_throws {A B : Type} (m : Js.M A) (f : A -> Js.M B)
    (realm realm' : Js.Realm) (c : Clock) (n n' : nat) (e : Js.Error) :
  m realm c n = (Js.Throws e, realm', n') ->
  Js.bind m f realm c n = (Js.Throws e, realm', n').
Proof. intros H. unfold Js.bind. now rewrite H. Qed.

Lemma eqb_of_existsb (k : string) (l : list string) :
  existsb (String.eqb k) l = false -> forall x, In x l -> String.eqb k x = false.
Proof.
  induction l as [| y rest IH]; intros H x Hin; [destruct Hin |].
  cbn [existsb] in H. apply orb_false_iff in H. destruct H as [Hy Hrest].
  destruct Hin as [<- | Hin]; [exact Hy | now apply IH].
Qed.

(** A plain id reaches nothing, whatever has been written. *)
Lemma reach_plain (realm : Js.Realm) (k : string) :
  Js.plain k = true -> Js.reach realm k = None.
Proof.
  intros H. unfold Js.plain in H. apply negb_true_iff in H.
  pose proof (eqb_of_existsb k Js.reserved H) as Hne.
  assert (Hb : existsb (String.eqb k) Js.builtinNames = false).
  { unfold Js.reserved in H. cbn [existsb] in H.
    apply orb_false_iff in H. destruct H as [_ H].
    rewrite existsb_app in H. apply orb_false_iff in H. now destruct H. }
  unfold Js.reach.
  rewrite (Hne "__proto__") by (left; reflexivity).
  rewrite Hb.
  rewrite (Hne "profile") by (unfold Js.reserved, Js.builtinNames; cbn; tauto).
  rewrite (Hne "lastWatered") by (unfold Js.reserved, Js.builtinNames; cbn; tauto).
  rewrite (Hne "nextDue") by (unfold Js.reserved, Js.builtinNames; cbn; tauto).
  rewrite (Hne "riskLevel") by (unfold Js.reserved, Js.builtinNames; cbn; tauto).
  reflexivity.
Qed.

(** ** Dates in a zone without clock changes *)

Lemma TimeClip_within (t : Z) :
  Z.abs t <= Js.maxTime -> Js.TimeClip t = Some t.
Proof.
  intros H. unfold Js.TimeClip.
  destruct (Z.leb_spec (Z.abs t) Js.maxTime); [reflexivity | lia].
Qed.

Lemma dueDate_fixed (offset ts days : Z) :
  Js.moderate_instant ts = true -> Js.moderate_days days = true ->
  Js.dueDate (Js.fixedZone offset) ts days = Some (ts + days * (24 * 60 * 60 * 1000)).
Proof.
  unfold Js.moderate_instant, Js.moderate_days. intros Hts Hdays.
  apply Z.leb_le in Hts. apply Z.leb_le in Hdays.
  unfold Js.dueDate. rewrite TimeClip_within by (unfold Js.maxTime; lia).
  unfold Js.UTC, Js.LocalTime, Js.fixedZone, Js.msPerDay.
  cbn [Js.offsetAt Js.offsetOfLocal].
  replace (ts + offset + days * 86400000 - offset)
    with (ts + days * (24 * 60 * 60 * 1000)) by lia.
  apply TimeClip_within. unfold Js.maxTime. lia.
Qed.

Lemma water_ordinary (offset : Z) (plant : Plant.t) (ts : Z)
    (realm : Js.Realm) (c : Clock) (n : nat) :
  Js.moderate_instant ts = true ->
  Js.moderate_days (fst (baseInterval (Plant.profile plant))) = true ->
  Js.water (Js.fixedZone offset) plant ts realm c n =
  (Js.Returns (fst (water plant ts c n)), realm, snd (water plant ts c n)).
Proof.
  intros Hts Hdays. unfold Js.water.
  rewrite (dueDate_fixed offset ts _ Hts Hdays). reflexivity.
Qed.

Lemma seed_ordinary (key name : string) (p : PlantProfile) (days : Z)
    (realm : Js.Realm) (c : Clock) (n : nat) :
  Js.moderate_clock c -> 0 <= days <= 1000 ->
  Js.seed (key, name, p, days) realm c n =
  (Js.Returns (fst (seed key name p days c n)), realm, snd (seed key name p days c n)).
Proof.
  intros Hc Hdays. specialize (Hc n). unfold Js.moderate_instant in Hc.
  apply Z.leb_le in Hc.
  unfold Js.seed, Js.bind, Js.now.
  rewrite TimeClip_within by (unfold Js.maxTime; lia). reflexivity.
Qed.

Lemma defaultPlants_rows (c : Clock) (n : nat) :
  defaultPlants c n = seed_rows plantCatalog c n.
Proof. reflexivity. Qed.

Lemma seed_all_ordinary (rows : list (string * string * PlantProfile * Z)) :
  forall (realm : Js.Realm) (c : Clock) (n : nat),
    Js.moderate_clock c ->
    Forall (fun row => 0 <= snd row <= 1000) rows ->
    Js.seed_all rows realm c n =
    (Js.Returns (fst (seed_rows rows c n)), realm, snd (seed_rows rows c n)).
Proof.
  induction rows as [| [[[key name] p] days] rest IH]; intros realm c n Hc Hrows.
  - reflexivity.
  - inversion Hrows as [| row rest' Hdays Hrest]; subst. cbn [snd] in Hdays.
    cbn [Js.seed_all seed_rows].
    erewrite bind_returns by (apply seed_ordinary; assumption).
    erewrite bind_returns by (apply IH; assumption).
    rewrite !bind_run. reflexivity.
Qed.

Lemma defaultPlants_ordinary (realm : Js.Realm) (c : Clock) (n : nat) :
  Js.moderate_clock c ->
  Js.defaultPlants realm c n =
  (Js.Returns (fst (defaultPlants c n)), realm, snd (defaultPlants c n)).
Proof.
  intros Hc. rewrite defaultPlants_rows. apply seed_all_ordinary; [exact Hc |].
  unfold plantCatalog. repeat constructor; cbn [snd]; lia.
Qed.

(** ** Steps *)

Lemma dependency_satisfied_plain (realm : Js.Realm) (rituals : Obj.t Ritual.t)
    (ritual : Ritual.t) (depId : string) :
  Js.plain depId = true ->
  Js.dependency_satisfied realm rituals ritual depId =
  dependency_satisfied rituals ritual depId.
Proof.
  intros H. unfold Js.dependency_satisfied, dependency_satisfied.
  now rewrite (reach_plain realm depId H).
Qed.

Lemma dependenciesMet_plain (realm : Js.Realm) (rituals : Obj.t Ritual.t)
    (ritual : Ritual.t) (step : Step.t) :
  match Step.dependencies step with
  | Some deps => forallb Js.plain deps
  | None => true
  end = true ->
  Js.dependenciesMet realm rituals ritual step = dependenciesMet rituals ritual step.
Proof.
  unfold Js.dependenciesMet, dependenciesMet.
  destruct (Step.dependencies step) as [deps |]; [| reflexivity].
  induction deps as [| d rest IH]; [reflexivity |].
  cbn [forallb]. intros H. apply andb_true_iff in H. destruct H as [Hd Hrest].
  now rewrite (dependency_satisfied_plain _ _ _ _ Hd), (IH Hrest).
Qed.

Lemma complete_step_plain (rituals : Obj.t Ritual.t) (ritualId stepId : string)
    (realm : Js.Realm) (c : Clock) (n : nat) :
  Js.plain ritualId = true -> plain_dependencies rituals = true ->
  Js.complete_step rituals ritualId stepId realm c n =
  (Js.Returns (complete_step rituals ritualId stepId), realm, n).
Proof.
  intros Hid Hdeps. unfold Js.complete_step, complete_step, Js.bind, Js.the_realm.
  destruct (Obj.get rituals ritualId) as [ritual |] eqn:Hget.
  - destruct (find_step (Ritual.steps ritual) stepId) as [step |] eqn:Hfind;
      [| reflexivity].
    rewrite dependenciesMet_plain.
    + now destruct (dependenciesMet rituals ritual step).
    + unfold plain_dependencies in Hdeps. rewrite forallb_forall in Hdeps.
      specialize (Hdeps _ (ObjMore.get_entry _ _ _ Hget)). cbn [snd] in Hdeps.
      rewrite forallb_forall in Hdeps. apply Hdeps.
      unfold find_step in Hfind. now apply find_some in Hfind.
  - now rewrite (reach_plain realm ritualId Hid).
Qed.

(** ** What a pass keeps true of its locals *)

Lemma plain_steps_shape (s1 s2 : list Step.t) :
  map step_shape s1 = map step_shape s2 ->
  forallb (fun step => match Step.dependencies step with
                       | Some deps => forallb Js.plain deps
                       | None => true
                       end) s1 =
  forallb (fun step => match Step.dependencies step with
                       | Some deps => forallb Js.plain deps
                       | None => true
                       end) s2.
Proof.
  revert s2.
  induction s1 as [| a r1 IH]; intros [| b r2] H; cbn [map] in H;
    try discriminate; [reflexivity |].
  injection H as Hid Hname Hdeps Hrest. cbn [forallb].
  now rewrite Hdeps, (IH r2 Hrest).
Qed.

Lemma plain_dependencies_shape (a b : Obj.t Ritual.t) :
  rituals_shape a = rituals_shape b -> plain_dependencies a = plain_dependencies b.
Proof.
  unfold plain_dependencies, rituals_shape. revert b.
  induction a as [| [ka ra] resta IH]; intros [| [kb rb] restb] H; cbn [map] in H;
    try discriminate; [reflexivity |].
  injection H as Hk Hid Hname Hsteps Hdeps Htr Hdur Hrest.
  cbn [forallb snd]. now rewrite (plain_steps_shape _ _ Hsteps), (IH restb Hrest).
Qed.

Lemma catalog_dependencies_plain : plain_dependencies initialRituals = true.
Proof. vm_compute. reflexivity. Qed.

Lemma forallb_set {A : Type} (g : A -> bool) (o : Obj.t A) (k : string) (v : A) :
  forallb (fun kv => g (snd kv)) o = true -> g v = true ->
  forallb (fun kv => g (snd kv)) (Obj.set o k v) = true.
Proof.
  intros Ho Hv. induction o as [| [k' v'] rest IH]; cbn [Obj.set forallb snd].
  - now rewrite Hv.
  - cbn [forallb snd] in Ho. apply andb_true_iff in Ho. destruct Ho as [Hv' Hrest].
    destruct (String.eqb k k'); cbn [forallb snd].
    + now rewrite Hv, Hrest.
    + now rewrite Hv', (IH Hrest).
Qed.

Lemma forallb_get {A : Type} (g : A -> bool) (o : Obj.t A) (k : string) (v : A) :
  forallb (fun kv => g (snd kv)) o = true -> Obj.get o k = Some v -> g v = true.
Proof.
  intros Ho Hget. rewrite forallb_forall in Ho.
  exact (Ho _ (ObjMore.get_entry _ _ _ Hget)).
Qed.

Lemma process_moderate (st : L.t) (e : Event) (c : Clock) (n : nat) :
  Js.moderate_event e = true -> moderate_profiles (L.plants st) = true ->
  moderate_profiles (L.plants (fst (process st e c n))) = true.
Proof.
  intros He Hst. unfold moderate_profiles in *.
  destruct e; unfold process; try exact Hst.
  - destruct (Obj.get (L.plants st) plantId) as [plant |] eqn:Hget; [| exact Hst].
    rewrite bind_run. cbn [fst ret L.plants].
    apply (forallb_set (fun plant => Js.moderate_days (fst (baseInterval (Plant.profile plant))))).
    + exact Hst.
    + change (Js.moderate_days (fst (baseInterval (Plant.profile plant))) = true).
      exact (forallb_get (fun plant => Js.moderate_days (fst (baseInterval (Plant.profile plant))))
               _ _ _ Hst Hget).
  - destruct (Obj.get (L.plants st) plantId) as [plant |] eqn:Hget; [| exact Hst].
    cbn [fst ret L.plants].
    apply (forallb_set (fun plant => Js.moderate_days (fst (baseInterval (Plant.profile plant))))).
    + exact Hst.
    + exact He.
Qed.

(** ** One event, then the loop *)

Lemma process_ordinary (offset : Z) (cell : nat) (st : L.t) (e : Event)
    (realm : Js.Realm) (c : Clock) (n : nat) :
  Js.plain_event e = true -> Js.moderate_event e = true ->
  plain_dependencies (L.rituals st) = true ->
  moderate_profiles (L.plants st) = true ->
  Js.process (Js.fixedZone offset) cell st e realm c n =
  (Js.Returns (fst (process st e c n)), realm, snd (process st e c n)).
Proof.
  intros Hplain Hmod Hdeps Hprof. destruct e; cbn [Js.plain_event Js.moderate_event] in *;
    unfold Js.process, process; try reflexivity.
  - erewrite bind_returns by (apply complete_step_plain; assumption). reflexivity.
  - destruct (Obj.get (L.plants st) plantId) as [plant |] eqn:Hget.
    + erewrite bind_returns.
      2:{ apply water_ordinary; [exact Hmod |].
          exact (forallb_get (fun plant => Js.moderate_days (fst (baseInterval (Plant.profile plant))))
                   _ _ _ Hprof Hget). }
      rewrite bind_run. reflexivity.
    + unfold Js.bind, Js.the_realm. now rewrite (reach_plain realm plantId Hplain).
  - destruct (Obj.get (L.plants st) plantId) as [plant |] eqn:Hget; [reflexivity |].
    unfold Js.bind, Js.the_realm. now rewrite (reach_plain realm plantId Hplain).
Qed.

Lemma process_all_ordinary (offset : Z) (events : list Event) :
  forall (cell : nat) (st : L.t) (realm : Js.Realm) (c : Clock) (n : nat),
    Js.ordinary events = true ->
    plain_dependencies (L.rituals st) = true ->
    moderate_profiles (L.plants st) = true ->
    Js.process_all (Js.fixedZone offset) cell events st realm c n =
    (Js.Returns (fst (process_all events st c n)), realm,
     snd (process_all events st c n)).
Proof.
  induction events as [| e rest IH]; intros cell st realm c n Hlog Hdeps Hprof.
  - reflexivity.
  - unfold Js.ordinary in Hlog. cbn [forallb] in Hlog.
    apply andb_true_iff in Hlog. destruct Hlog as [He Hrest].
    apply andb_true_iff in He. destruct He as [Hplain Hmod].
    cbn [Js.process_all process_all].
    erewrite bind_returns by (apply process_ordinary; assumption).
    rewrite bind_run. apply IH.
    + exact Hrest.
    + destruct (process_shape st e c n) as [Hshape _].
      now rewrite (plain_dependencies_shape _ _ Hshape).
    + now apply process_moderate.
Qed.

(** ** After the loop, in a realm the program has not written to *)

Lemma first_at_risk_own (ps : Obj.t Plant.t) (r : Risk.t) :
  Js.first_at_risk
    (map (fun kv => (fst kv, (Some (Js.nextDue (Plant.nextDue (snd kv))),
                              Some (Js.riskLevel (Plant.riskLevel (snd kv)))))) ps) r
  = first_at_risk ps r.
Proof.
  unfold Js.first_at_risk.
  induction ps as [| [k p] rest IH]; [reflexivity |].
  cbn [map find first_at_risk fst snd Js.is_risk].
  destruct (Plant.riskLevel p), r; cbn [option_map fst]; try reflexivity; exact IH.
Qed.

Lemma count_overdue_own (ps : Obj.t Plant.t) (t : Z) :
  Js.count_overdue
    (map (fun kv => (fst kv, (Some (Js.nextDue (Plant.nextDue (snd kv))),
                              Some (Js.riskLevel (Plant.riskLevel (snd kv)))))) ps) t
  = count_overdue ps t.
Proof.
  unfold Js.count_overdue, count_overdue. generalize 0.
  induction ps as [| kv rest IH]; intros a; [reflexivity |].
  cbn [map fold_left fst snd Js.is_overdue]. apply IH.
Qed.

Lemma finish_clean (realm : Js.Realm) (today : Z) (st : L.t) (t : Z) :
  Js.clean realm -> Js.finish realm today st t = finish today st t.
Proof.
  intros Hclean. unfold Js.finish, finish, Js.visited. rewrite Hclean.
  cbn [flat_map]. rewrite app_nil_r.
  unfold Js.plants_anchor, plants_anchor.
  now rewrite !first_at_risk_own, count_overdue_own.
Qed.

Lemma seeded_profiles_moderate (c : Clock) (n : nat) :
  moderate_profiles (fst (defaultPlants c n)) = true.
Proof. unfold defaultPlants. rewrite !bind_run. reflexivity. Qed.

(** The pass of the engine, on an ordinary log in a zone without clock
    changes and a realm the program has not written to, returns the state
    the first part derives, reads the clock as often, and leaves the realm
    as it was. *)
Lemma deriveState_ordinary (offset : Z) (log : list Event) (realm : Js.Realm)
    (c : Clock) (n : nat) :
  Js.clean realm -> Js.ordinary log = true -> Js.moderate_clock c ->
  Js.deriveState (Js.fixedZone offset) log realm c n =
  (Js.Returns (fst (deriveState log c n)), realm, snd (deriveState log c n)).
Proof.
  intros Hclean Hlog Hc. unfold Js.deriveState, deriveState.
  erewrite bind_returns by reflexivity.
  erewrite bind_returns by (apply defaultPlants_ordinary; exact Hc).
  erewrite bind_returns.
  2:{ apply process_all_ordinary;
        [exact Hlog | exact catalog_dependencies_plain | apply seeded_profiles_moderate]. }
  erewrite bind_returns by reflexivity.
  erewrite bind_returns by reflexivity.
  rewrite !bind_run. unfold Js.ret. cbn [Date_now ret fst snd].
  now rewrite (finish_clean realm _ _ _ Hclean).
Qed.

(** ** Determinism *)

(** C2. Determinism, evaluated where the code breaks it.  The log waters
    [profile] and then updates the profile of [__proto__].  The first pass
    finds no [plants.profile], and its profile update writes
    [Object.prototype.profile]; the second pass over the same log at the
    same instant finds that object under [plants.profile], waters it, and
    counts it: the overdue count goes from 0 to 1 and the plants anchor
    from undefined to [profile]. *)
Theorem second_derivation_differs :
  exists first second realm n,
    Js.derive_twice Js.utc polluting_log Js.cleanRealm (fun _ => thirty_days) 0%nat
      = (Js.Returns (first, second), realm, n) /\
    overdueCount first = 0 /\ Anchors.plants (anchors first) = None /\
    overdueCount second = 1 /\ Anchors.plants (anchors second) = Some "profile" /\
    Js.objectPrototype realm = [Js.profile 1 daily].
Proof.
  eexists _, _, _, _. split; [vm_compute; reflexivity |].
  repeat split.
Qed.

(** X25. On an ordinary log - plain ids, which name neither a member of
    [Object.prototype] nor [profile], [lastWatered], [nextDue] or
    [riskLevel], and dates well within the range of [Date] - in a zone
    without clock changes and a realm the program has not written to, the
    pass of the engine returns exactly the state the first part derives and
    leaves the realm as it found it; so a second pass at the same instant
    returns the same state again. *)
Theorem ordinary_pass_is_repeatable :
  forall (offset : Z) (log : list Event) (realm : Js.Realm) (T : Z)
         (c : Clock) (n : nat),
    Js.clean realm -> Js.ordinary log = true ->
    fixed_at T c -> Js.moderate_instant T = true ->
    exists k,
      Js.derive_twice (Js.fixedZone offset) log realm c n =
      (Js.Returns (value_of (deriveState log) c n, value_of (deriveState log) c n),
       realm, k).
Proof.
  intros offset log realm T c n Hclean Hlog Hc HT.
  assert (Hmod : Js.moderate_clock c) by (intro k; now rewrite Hc).
  unfold Js.derive_twice.
  erewrite bind_returns by (apply deriveState_ordinary; assumption).
  erewrite bind_returns by (apply deriveState_ordinary; assumption).
  eexists. unfold Js.ret. f_equal. f_equal. f_equal. f_equal.
  apply (steady_deriveState log T); assumption.
Qed.

Lemma ordinary_pass_is_repeatable_witness :
  exists k,
    Js.derive_twice (Js.fixedZone 0) full_day Js.cleanRealm (fun _ => 20) 0%nat =
    (Js.Returns (value_of (deriveState full_day) (fun _ => 20) 0,
                 value_of (deriveState full_day) (fun _ => 20) 0),
     Js.cleanRealm, k).
Proof.
  apply (ordinary_pass_is_repeatable 0 full_day Js.cleanRealm 20 (fun _ => 20) 0%nat).
  - reflexivity.
  - vm_compute. reflexivity.
  - intro k. reflexivity.
  - reflexivity.
Defined.

(** ** Watering *)

(** C4. Watering semantics, evaluated where the code leaves its own
    threshold: a plant with [baseInterval = [7, 10]] watered at the
    instant 0 is due at 7 days; in the state derived at exactly that
    instant it is at [high] risk, while the overdue count of the same
    state, which tests [now > nextDue], does not count it, and the tiers
    in the words of the specification give [medium]. *)
Theorem risk_high_at_the_due_instant :
  exists d plant n,
    Js.deriveState Js.utc water_gerda_at_0 Js.cleanRealm (fun _ => seven_days) 0%nat
      = (Js.Returns d, Js.cleanRealm, n) /\
    Obj.get (plants d) "plant_schefflera_gerda" = Some plant /\
    Plant.lastWatered plant = Some 0 /\
    Plant.nextDue plant = seven_days /\
    Plant.riskLevel plant = Risk.high /\
    overdueCount d = 0 /\
    risk_in_words seven_days (Plant.nextDue plant) = Risk.medium.
Proof.
  eexists _, _, _. split; [vm_compute; reflexivity |].
  split; [vm_compute; reflexivity |].
  repeat split.
Qed.

(** The host's zone decides how long the days are: across a change of
    clocks a week is an hour short. *)
Example week_across_a_clock_change :
  exists d plant n,
    Js.deriveState (springForward 259200000) water_gerda_at_0 Js.cleanRealm
                   (fun _ => 0) 0%nat
      = (Js.Returns d, Js.cleanRealm, n) /\
    Obj.get (plants d) "plant_schefflera_gerda" = Some plant /\
    Plant.nextDue plant = seven_days - 3600000.
Proof.
  eexists _, _, _. split; [vm_compute; reflexivity |].
  split; [vm_compute; reflexivity |]. reflexivity.
Qed.

(** A date beyond the range of [Date] ends the pass. *)
Example due_date_out_of_range :
  fst (fst (Js.deriveState Js.utc
              [ watering_done 8640000000000000 "plant_schefflera_gerda" ]
              Js.cleanRealm (fun _ => 0) 0%nat))
  = Js.Throws Js.RangeError.
Proof. vm_compute. reflexivity. Qed.

(** ** Risk from one pass to the next *)

Lemma ordinary_app (l1 l2 : list Event) :
  Js.ordinary (l1 ++ l2) = Js.ordinary l1 && Js.ordinary l2.
Proof. unfold Js.ordinary. apply forallb_app. Qed.

Lemma standing_clock_moderate (T : Z) (c : Clock) :
  fixed_at T c -> Js.moderate_instant T = true -> Js.moderate_clock c.
Proof. intros Hc HT k. now rewrite Hc. Qed.



Lemma get_of_key {A : Type} (o : Obj.t A) (k : string) :
  In k (Obj.keys o) -> exists v, Obj.get o k = Some v.
Proof.
  intros Hin. destruct (Obj.get o k) as [v |] eqn:Hget; [now exists v |].
  apply ObjMore.get_none in Hget. contradiction.
Qed.

Lemma key_of_get {A : Type} (o : Obj.t A) (k : string) (v : A) :
  Obj.get o k = Some v -> In k (Obj.keys o).
Proof.
  intros Hget. apply ObjMore.get_entry in Hget.
  unfold Obj.keys. change k with (fst (k, v)). now apply in_map.
Qed.

Lemma derived_plant_keys (log : list Event) (c : Clock) (n : nat) :
  Obj.keys (plants (value_of (deriveState log) c n)) = plantIds.
Proof. rewrite deriveState_plants. apply loop_plant_keys. Qed.

(** *** What every pass that returns keeps true *)











(** A plant the log never waters does not fall due: the due date one pass
    shows for it is past at the next, thirty days later, and that pass
    shows it at [low] risk, due six days on, with nothing overdue. *)
Example unwatered_plant_never_falls_due :
  exists d1 d2 p1 p2 k1 k2,
    Js.deriveState Js.utc startup_log Js.cleanRealm (fun _ => 0) 0%nat
      = (Js.Returns d1, Js.cleanRealm, k1) /\
    Obj.get (plants d1) "plant_monstera" = Some p1 /\
    Plant.nextDue p1 = six_days /\
    Js.deriveState Js.utc startup_log Js.cleanRealm (fun _ => thirty_days) 0%nat
      = (Js.Returns d2, Js.cleanRealm, k2) /\
    Obj.get (plants d2) "plant_monstera" = Some p2 /\
    Plant.nextDue p1 < thirty_days /\
    Plant.lastWatered p2 = None /\
    Plant.riskLevel p2 = Risk.low /\
    Plant.nextDue p2 = thirty_days + six_days /\
    overdueCount d2 = 0 /\
    Anchors.plants (anchors d2) = None.
Proof.
  eexists _, _, _, _, _, _.
  split; [vm_compute; reflexivity |].
  split; [vm_compute; reflexivity |].
  split; [reflexivity |].
  split; [vm_compute; reflexivity |].
  split; [vm_compute; reflexivity |].
  repeat split.
Qed.

(** ** Events the loop has no write for *)

Lemma plantIds_are_plain (plantId : string) :
  In plantId plantIds -> Js.plain plantId = true.
Proof.
  assert (H : forallb Js.plain plantIds = true) by (vm_compute; reflexivity).
  rewrite forallb_forall in H. apply H.
Qed.

(** X2. On an ordinary log - plain ids, which name neither a member of
    [Object.prototype] nor [profile], [lastWatered], [nextDue] or
    [riskLevel], and dates well within the range of [Date] - in a zone
    without clock changes and a realm the program has not written to,
    [app_init], [med_taken], [focus_lost] and [backup_created] events, and
    [watering_done] or [plant_profile_updated] events whose plant id is
    plain and names no plant of the catalog, change nothing: wherever one
    stands in the log, the pass returns the state of the log without it and
    leaves the realm as it was. *)
Theorem inert_event_is_skipped :
  forall (offset : Z) (before after : list Event) (e : Event)
         (realm : Js.Realm) (c : Clock) (n : nat),
    Js.clean realm -> Js.ordinary (before ++ e :: after) = true ->
    Js.moderate_clock c -> inert e = true ->
    exists d k1 k2,
      Js.deriveState (Js.fixedZone offset) (before ++ e :: after) realm c n
        = (Js.Returns d, realm, k1) /\
      Js.deriveState (Js.fixedZone offset) (before ++ after) realm c n
        = (Js.Returns d, realm, k2).
Proof.
  intros offset before after e realm c n Hclean Hlog Hc He.
  assert (Hlog' : Js.ordinary (before ++ after) = true).
  { rewrite ordinary_app in *. apply andb_true_iff in Hlog.
    destruct Hlog as [Hb Ha]. rewrite Hb. cbn [andb].
    unfold Js.ordinary in *. cbn [forallb] in Ha.
    apply andb_true_iff in Ha. now destruct Ha. }
  rewrite !deriveState_ordinary by assumption.
  eexists _, _, _. split; [reflexivity |].
  f_equal. f_equal. f_equal.
  symmetry. apply (inert_event_changes_nothing before after e c n He).
Qed.

Lemma inert_event_is_skipped_witness :
  exists d k1 k2,
    Js.deriveState (Js.fixedZone 0)
      ([app_init 1] ++ watering_done 2 "plant_cactus" :: inert_sample)
      Js.cleanRealm (fun _ => 9) 0%nat = (Js.Returns d, Js.cleanRealm, k1) /\
    Js.deriveState (Js.fixedZone 0) ([app_init 1] ++ inert_sample)
      Js.cleanRealm (fun _ => 9) 0%nat = (Js.Returns d, Js.cleanRealm, k2).
Proof.
  apply (inert_event_is_skipped 0 [app_init 1] inert_sample
           (watering_done 2 "plant_cactus") Js.cleanRealm (fun _ => 9) 0%nat).
  - reflexivity.
  - vm_compute. reflexivity.
  - intro k. reflexivity.
  - reflexivity.
Defined.

(** A watering that names a member of [Object.prototype] is not skipped:
    [plants.constructor] is [Object], the handler stamps it, and then
    fails on the profile it does not have. *)
Example watering_a_prototype_member :
  exists n,
    Js.deriveState Js.utc [ watering_done 5 "constructor" ] Js.cleanRealm
                   (fun _ => 9) 0%nat
    = (Js.Throws Js.TypeError,
       Js.mkRealm [] [("constructor", [Js.lastWatered 5])] [], n).
Proof. eexists. vm_compute. reflexivity. Qed.

(** ** Rituals the catalog does not have *)

Lemma realm_loop_app (zone : Js.Zone) (l1 l2 : list Event) :
  forall (cell : nat) (st : L.t) (realm : Js.Realm) (c : Clock) (n : nat),
    Js.process_all zone cell (l1 ++ l2) st realm c n =
    Js.bind (Js.process_all zone cell l1 st)
            (fun st' => Js.process_all zone (cell + List.length l1) l2 st') realm c n.
Proof.
  induction l1 as [| e rest IH]; intros cell st realm c n.
  - cbn [app Js.process_all List.length]. unfold Js.bind, Js.ret.
    now rewrite Nat.add_0_r.
  - cbn [app Js.process_all List.length]. unfold Js.bind.
    destruct (Js.process zone cell st e realm c n) as [[[st' | err] realm'] n'];
      [| reflexivity].
    rewrite IH. unfold Js.bind.
    replace (cell + S (List.length rest))%nat with (S cell + List.length rest)%nat
      by lia.
    reflexivity.
Qed.

Lemma reach_member (realm : Js.Realm) (k : string) :
  In k ("__proto__" :: Js.builtinNames) -> exists x, Js.reach realm k = Some x.
Proof.
  intros Hin. unfold Js.builtinNames in Hin.
  repeat (destruct Hin as [<- | Hin]; [eexists; reflexivity |]).
  destruct Hin.
Qed.

Lemma member_is_no_ritual (k : string) :
  In k ("__proto__" :: Js.builtinNames) -> ~ In k (Obj.keys initialRituals).
Proof.
  intros Hin. apply existsb_eqb_false. unfold Js.builtinNames in Hin.
  repeat (destruct Hin as [<- | Hin]; [vm_compute; reflexivity |]).
  destruct Hin.
Qed.

(** X3. A [ritual_step_completed] event for a ritual the catalog does not
    have, or a step its ritual does not have, among ordinary events - plain
    ids, which name neither a member of [Object.prototype] nor [profile],
    [lastWatered], [nextDue] or [riskLevel], and dates well within the range
    of [Date] - in a zone without clock changes and a realm the program has
    not written to. If the ritual id is plain, the event is no error and
    writes nothing but the tallies: rituals, plants, glucose summary,
    anchors and overdue count are those of the log without it. If the ritual
    id is [__proto__] or names a function of [Object.prototype]
    ([constructor], [toString], ...), the pass throws a [TypeError] when it
    reaches the event, whatever follows it in the log. *)
Theorem unknown_ritual_is_skipped_or_throws :
  forall (offset : Z) (before after : list Event) (ts : Z)
         (ritualId stepId : string) (realm : Js.Realm) (c : Clock) (n : nat),
    Js.clean realm -> Js.ordinary before = true -> Js.moderate_clock c ->
    (Js.plain ritualId = true -> Js.ordinary after = true ->
     step_present initialRituals ritualId stepId = false ->
     exists d0 d1 k0 k1,
       Js.deriveState (Js.fixedZone offset) (before ++ after) realm c n
         = (Js.Returns d0, realm, k0) /\
       Js.deriveState (Js.fixedZone offset)
         (before ++ ritual_step_completed ts ritualId stepId :: after) realm c n
         = (Js.Returns d1, realm, k1) /\
       rituals d1 = rituals d0 /\ plants d1 = plants d0 /\ glucose d1 = glucose d0 /\
       anchors d1 = anchors d0 /\ overdueCount d1 = overdueCount d0) /\
    (In ritualId ("__proto__" :: Js.builtinNames) ->
     exists k,
       Js.deriveState (Js.fixedZone offset)
         (before ++ ritual_step_completed ts ritualId stepId :: after) realm c n
         = (Js.Throws Js.TypeError, realm, k)).
Proof.
  intros offset before after ts r s realm c n Hclean Hbefore Hc. split.
  - intros Hplain Hafter Habsent.
    assert (H0 : Js.ordinary (before ++ after) = true)
      by (rewrite ordinary_app, Hbefore, Hafter; reflexivity).
    assert (H1 : Js.ordinary (before ++ ritual_step_completed ts r s :: after) = true).
    { rewrite ordinary_app, Hbefore. unfold Js.ordinary. cbn [forallb andb].
      cbn [Js.plain_event Js.moderate_event]. rewrite Hplain. exact Hafter. }
    rewrite !deriveState_ordinary by assumption.
    eexists _, _, _, _. split; [reflexivity |]. split; [reflexivity |].
    exact (unknown_step_event_is_noop before after ts r s c n Habsent).
  - intros Hmember.
    unfold Js.deriveState.
    erewrite bind_returns by reflexivity.
    erewrite bind_returns by (apply defaultPlants_ordinary; exact Hc).
    erewrite bind_throws; [eexists; reflexivity |].
    rewrite realm_loop_app.
    erewrite bind_returns.
    2:{ apply process_all_ordinary;
          [exact Hbefore | exact catalog_dependencies_plain
          | apply seeded_profiles_moderate]. }
    cbn [Js.process_all].
    apply bind_throws. unfold Js.process. apply bind_throws.
    unfold Js.complete_step, Js.bind, Js.the_realm.
    match goal with
    | |- context [Obj.get (L.rituals ?st) r] =>
        assert (Hnone : Obj.get (L.rituals st) r = None)
    end.
    { apply ObjMore.get_none.
      change (fst (process_all before
                     (initial (fst (defaultPlants c (S n)))) c
                     (snd (defaultPlants c (S n)))))
        with (fst (loop before c n)).
      destruct (loop_shape before c n) as [Hshape _]. unfold value_of in Hshape.
      rewrite (UIFacts.keys_shape _ _ Hshape).
      now apply member_is_no_ritual. }
    rewrite Hnone.
    destruct (reach_member realm r Hmember) as [x ->]. reflexivity.
Qed.

Lemma unknown_ritual_is_skipped_or_throws_witness :
  (exists d0 d1 k0 k1,
      Js.deriveState (Js.fixedZone 0) ([app_init 1] ++ inert_sample)
        Js.cleanRealm (fun _ => 9) 0%nat = (Js.Returns d0, Js.cleanRealm, k0) /\
      Js.deriveState (Js.fixedZone 0)
        ([app_init 1] ++ ritual_step_completed 2 "ritual_sauna" "x" :: inert_sample)
        Js.cleanRealm (fun _ => 9) 0%nat = (Js.Returns d1, Js.cleanRealm, k1) /\
      rituals d1 = rituals d0 /\ plants d1 = plants d0 /\ glucose d1 = glucose d0 /\
      anchors d1 = anchors d0 /\ overdueCount d1 = overdueCount d0) /\
  (exists k,
      Js.deriveState (Js.fixedZone 0)
        ([app_init 1] ++ ritual_step_completed 2 "toString" "x" :: inert_sample)
        Js.cleanRealm (fun _ => 9) 0%nat
      = (Js.Throws Js.TypeError, Js.cleanRealm, k)).
Proof.
  split.
  - apply (unknown_ritual_is_skipped_or_throws 0 [app_init 1] inert_sample 2
             "ritual_sauna" "x" Js.cleanRealm (fun _ => 9) 0%nat);
      first [ reflexivity | intro k; reflexivity ].
  - apply (unknown_ritual_is_skipped_or_throws 0 [app_init 1] inert_sample 2
             "toString" "x" Js.cleanRealm (fun _ => 9) 0%nat).
    + reflexivity.
    + reflexivity.
    + intro k. reflexivity.
    + vm_compute. tauto.
Defined.

(** ** What a pass can write outside its locals *)

Lemma keeps_ret {A : Type} (a : A) : Js.keeps_realm (Js.ret a).
Proof. intros realm c n. split; [reflexivity | discriminate]. Qed.

Lemma keeps_now : Js.keeps_realm Js.now.
Proof. intros realm c n. split; [reflexivity | discriminate]. Qed.

Lemma keeps_the_realm : Js.keeps_realm Js.the_realm.
Proof. intros realm c n. split; [reflexivity | discriminate]. Qed.

Lemma keeps_throw {A : Type} : Js.keeps_realm (@Js.throw A Js.RangeError).
Proof.
  intros realm c n. split; [reflexivity |].
  intros e H. cbn in H. now injection H as <-.
Qed.

Lemma keeps_bind {A B : Type} (m : Js.M A) (f : A -> Js.M B) :
  Js.keeps_realm m -> (forall a, Js.keeps_realm (f a)) -> Js.keeps_realm (Js.bind m f).
Proof.
  intros Hm Hf realm c n. unfold Js.bind.
  destruct (Hm realm c n) as [Hrealm Herr].
  destruct (m realm c n) as [[[a | e] realm1] n1]; cbn [fst snd] in *.
  - subst realm1. apply Hf.
  - split; [exact Hrealm |].
    intros e0 H. injection H as <-. now apply Herr.
Qed.

Lemma keeps_seed (row : string * string * PlantProfile * Z) :
  Js.keeps_realm (Js.seed row).
Proof.
  destruct row as [[[key name] p] days]. unfold Js.seed.
  apply keeps_bind; [apply keeps_now |]. intros t.
  destruct (Js.TimeClip _); [apply keeps_ret | apply keeps_throw].
Qed.

Lemma keeps_seed_all (rows : list (string * string * PlantProfile * Z)) :
  Js.keeps_realm (Js.seed_all rows).
Proof.
  induction rows as [| row rest IH]; cbn [Js.seed_all]; [apply keeps_ret |].
  apply keeps_bind; [apply keeps_seed |]. intros entry.
  apply keeps_bind; [exact IH |]. intros entries. apply keeps_ret.
Qed.

Lemma keeps_water (zone : Js.Zone) (plant : Plant.t) (ts : Z) :
  Js.keeps_realm (Js.water zone plant ts).
Proof.
  unfold Js.water. destruct (Js.dueDate _ _ _); [| apply keeps_throw].
  apply keeps_bind; [apply keeps_now |]. intros t. apply keeps_ret.
Qed.

(** An event whose id is plain writes to the locals of the pass only. *)
Lemma keeps_process (zone : Js.Zone) (cell : nat) (st : L.t) (e : Event) :
  Js.plain_event e = true -> Js.keeps_realm (Js.process zone cell st e).
Proof.
  intros He. destruct e; cbn [Js.plain_event] in He; unfold Js.process;
    try apply keeps_ret.
  - apply keeps_bind; [| intros r; apply keeps_ret].
    unfold Js.complete_step. apply keeps_bind; [apply keeps_the_realm |].
    intros realm. destruct (Obj.get (L.rituals st) ritualId) as [ritual |].
    + destruct (find_step (Ritual.steps ritual) stepId) as [step |];
        [| apply keeps_ret].
      destruct (Js.dependenciesMet realm (L.rituals st) ritual step); apply keeps_ret.
    + rewrite (reach_plain realm ritualId He). apply keeps_ret.
  - destruct (Obj.get (L.plants st) plantId) as [plant |].
    + apply keeps_bind; [apply keeps_water | intros plant'; apply keeps_ret].
    + apply keeps_bind; [apply keeps_the_realm |]. intros realm.
      rewrite (reach_plain realm plantId He). apply keeps_ret.
  - destruct (Obj.get (L.plants st) plantId) as [plant |]; [apply keeps_ret |].
    apply keeps_bind; [apply keeps_the_realm |]. intros realm.
    rewrite (reach_plain realm plantId He). apply keeps_ret.
Qed.

Lemma keeps_process_all (zone : Js.Zone) (events : list Event) :
  forallb Js.plain_event events = true ->
  forall (cell : nat) (st : L.t), Js.keeps_realm (Js.process_all zone cell events st).
Proof.
  induction events as [| e rest IH]; intros Hplain cell st; cbn [Js.process_all];
    [apply keeps_ret |].
  cbn [forallb] in Hplain. apply andb_true_iff in Hplain. destruct Hplain as [He Hrest].
  apply keeps_bind; [now apply keeps_process |]. intros st'. now apply IH.
Qed.

(** X26. Only an event whose ritual or plant id is not plain - it names a
    member of [Object.prototype], or [profile], [lastWatered], [nextDue] or
    [riskLevel], which the handlers can put there - can make a pass write
    outside its locals or throw a [TypeError]. Over a log of plain ids, in
    every zone, at every clock and whatever earlier passes have written on
    [Object.prototype], the pass leaves the realm exactly as it found it,
    whether it returns or throws; and if it throws, it is a [RangeError], a
    date having left the range of [Date]. *)
Theorem plain_ids_write_nothing :
  forall (zone : Js.Zone) (log : list Event) (realm realm' : Js.Realm)
         (c : Clock) (n k : nat) (o : Js.Outcome DerivedState),
    forallb Js.plain_event log = true ->
    Js.deriveState zone log realm c n = (o, realm', k) ->
    realm' = realm /\ (forall e, o = Js.Throws e -> e = Js.RangeError).
Proof.
  intros zone log realm realm' c n k o Hplain Hrun.
  assert (Hkeeps : Js.keeps_realm (Js.deriveState zone log)).
  { unfold Js.deriveState.
    apply keeps_bind; [apply keeps_now |]. intros today.
    apply keeps_bind; [apply keeps_seed_all |]. intros plants0.
    apply keeps_bind; [now apply keeps_process_all |]. intros st.
    apply keeps_bind; [apply keeps_now |]. intros t.
    apply keeps_bind; [apply keeps_the_realm |]. intros r. apply keeps_ret. }
  destruct (Hkeeps realm c n) as [Hrealm Herr]. rewrite Hrun in Hrealm, Herr.
  cbn [fst snd] in Hrealm, Herr. split; [exact Hrealm | exact Herr].
Qed.

(** With a profile already on [Object.prototype]: a log that waters the
    monstera leaves it there and nothing else, and a watering stamped at
    the end of the range of [Date] throws a [RangeError]. *)
Lemma plain_ids_write_nothing_witness :
  (exists d k,
      Js.deriveState Js.utc water_monstera_long_ago writtenRealm
                     (fun _ => thirty_days) 0%nat = (Js.Returns d, writtenRealm, k)) /\
  (exists k,
      Js.deriveState Js.utc [ watering_done 8640000000000000 "plant_monstera" ]
                     writtenRealm (fun _ => thirty_days) 0%nat
      = (Js.Throws Js.RangeError, writtenRealm, k)).
Proof.
  split.
  - destruct (Js.deriveState Js.utc water_monstera_long_ago writtenRealm
                (fun _ => thirty_days) 0%nat) as [[o realm'] k] eqn:Hrun.
    destruct (plain_ids_write_nothing Js.utc water_monstera_long_ago writtenRealm realm'
                (fun _ => thirty_days) 0%nat k o eq_refl Hrun) as [-> _].
    destruct o as [d | e]; [now exists d, k |].
    vm_compute in Hrun. discriminate.
  - destruct (Js.deriveState Js.utc [ watering_done 8640000000000000 "plant_monstera" ]
                writtenRealm (fun _ => thirty_days) 0%nat) as [[o realm'] k] eqn:Hrun.
    destruct (plain_ids_write_nothing Js.utc
                [ watering_done 8640000000000000 "plant_monstera" ] writtenRealm realm'
                (fun _ => thirty_days) 0%nat k o eq_refl Hrun) as [-> Herr].
    destruct o as [d | e]; [vm_compute in Hrun; discriminate |].
    rewrite (Herr e eq_refl). now exists k.
Defined.

(** ** Anchors and the overdue count *)

(** X9. On an ordinary log - plain ids, which name neither a member of
    [Object.prototype] nor [profile], [lastWatered], [nextDue] or
    [riskLevel], and dates well within the range of [Date] - in a zone
    without clock changes and a realm the program has not written to, the
    plants anchor of the state the pass returns is a plant of the catalog:
    one at high risk if any plant is, otherwise one at medium risk if any
    plant is; it is undefined exactly when every plant is at low risk. (Once
    something is written on [Object.prototype], [for ... in] visits it too,
    and the anchor can be a key that is no plant.) *)
Theorem anchor_is_the_most_urgent_plant :
  forall (offset : Z) (log : list Event) (realm : Js.Realm) (c : Clock) (n : nat),
    Js.clean realm -> Js.ordinary log = true -> Js.moderate_clock c ->
    exists d k,
      Js.deriveState (Js.fixedZone offset) log realm c n = (Js.Returns d, realm, k) /\
      (forall plantId, Anchors.plants (anchors d) = Some plantId ->
         In plantId plantIds /\
         exists plant,
           Obj.get (plants d) plantId = Some plant /\
           (Plant.riskLevel plant = Risk.high \/
            (Plant.riskLevel plant = Risk.medium /\
             forall q p, Obj.get (plants d) q = Some p ->
                         Plant.riskLevel p <> Risk.high))) /\
      (Anchors.plants (anchors d) = None <->
       forall q p, Obj.get (plants d) q = Some p -> Plant.riskLevel p = Risk.low).
Proof.
  intros offset log realm c n Hclean Hlog Hc.
  rewrite (deriveState_ordinary offset log realm c n Hclean Hlog Hc).
  eexists _, _. split; [reflexivity |].
  change (fst (deriveState log c n)) with (value_of (deriveState log) c n).
  destruct (plants_anchor_is_most_urgent log c n) as [Hsome Hnone].
  split; [| exact Hnone].
  intros plantId Hanchor. destruct (Hsome plantId Hanchor) as (plant & Hget & Hrisk).
  split.
  - rewrite <- (derived_plant_keys log c n). exact (key_of_get _ _ _ Hget).
  - exists plant. split; assumption.
Qed.

Lemma anchor_is_the_most_urgent_plant_witness :
  exists d k,
    Js.deriveState (Js.fixedZone 0) two_plants_due Js.cleanRealm
                   (fun _ => thirty_days) 0%nat = (Js.Returns d, Js.cleanRealm, k) /\
    Anchors.plants (anchors d) = Some "plant_monstera".
Proof.
  destruct (anchor_is_the_most_urgent_plant 0 two_plants_due Js.cleanRealm
              (fun _ => thirty_days) 0%nat) as (d & k & Hrun & _).
  - reflexivity.
  - reflexivity.
  - intro k. reflexivity.
  - exists d, k. split; [exact Hrun |].
    vm_compute in Hrun. injection Hrun as <- _. reflexivity.
Defined.

(** X10. On an ordinary log - plain ids, which name neither a member of
    [Object.prototype] nor [profile], [lastWatered], [nextDue] or
    [riskLevel], and dates well within the range of [Date] - at a standing
    instant, in a zone without clock changes and a realm the program has not
    written to, the overdue count of the state the pass returns is between 0
    and 11, and whenever it is positive the plants anchor names a plant at
    high risk. (With something written on [Object.prototype], [for ... in]
    counts it too.) *)
Theorem overdue_count_and_anchor :
  forall (offset : Z) (log : list Event) (realm : Js.Realm) (T : Z)
         (c : Clock) (n : nat),
    Js.clean realm -> Js.ordinary log = true ->
    fixed_at T c -> Js.moderate_instant T = true ->
    exists d k,
      Js.deriveState (Js.fixedZone offset) log realm c n = (Js.Returns d, realm, k) /\
      0 <= overdueCount d <= 11 /\
      (0 < overdueCount d ->
       exists plantId plant,
         Anchors.plants (anchors d) = Some plantId /\
         Obj.get (plants d) plantId = Some plant /\
         Plant.riskLevel plant = Risk.high).
Proof.
  intros offset log realm T c n Hclean Hlog Hc HT.
  rewrite (deriveState_ordinary offset log realm c n Hclean Hlog
             (standing_clock_moderate T c Hc HT)).
  eexists _, _. split; [reflexivity |].
  exact (overdue_plants_raise_the_anchor log T c n Hc).
Qed.

Lemma overdue_count_and_anchor_witness :
  exists d k,
    Js.deriveState (Js.fixedZone 0) two_plants_due Js.cleanRealm
                   (fun _ => thirty_days) 0%nat = (Js.Returns d, Js.cleanRealm, k) /\
    0 <= overdueCount d <= 11.
Proof.
  destruct (overdue_count_and_anchor 0 two_plants_due Js.cleanRealm thirty_days
              (fun _ => thirty_days) 0%nat) as (d & k & Hrun & Hcount & _).
  - reflexivity.
  - reflexivity.
  - intro k. reflexivity.
  - reflexivity.
  - exists d, k. split; assumption.
Defined.

(** ** Profiles *)

(** X11. On an ordinary log - plain ids, which name neither a member of
    [Object.prototype] nor [profile], [lastWatered], [nextDue] or
    [riskLevel], and dates well within the range of [Date] - in a zone
    without clock changes and a realm the program has not written to, a
    profile update for a plant of the catalog replaces the profile and
    nothing else: the plant keeps its [lastWatered], [nextDue] and risk
    level until it is watered again. When the lower bound of the new
    interval is a whole number of days, at most seven million, and the
    watering is stamped well within the range of [Date], that watering puts
    [nextDue] that many days of 24 hours after its instant. *)
Theorem profile_update_then_watering :
  forall (offset : Z) (log : list Event) (t ts : Z) (plantId : string)
         (P : PlantProfile) (realm : Js.Realm) (c : Clock) (n : nat),
    Js.clean realm -> Js.ordinary log = true -> Js.moderate_clock c ->
    In plantId plantIds ->
    Js.moderate_days (fst (baseInterval P)) = true ->
    Js.moderate_instant ts = true ->
    exists d0 d1 d2 k0 k1 k2 plant0 plant1 plant2,
      Js.deriveState (Js.fixedZone offset) log realm c n = (Js.Returns d0, realm, k0) /\
      Obj.get (plants d0) plantId = Some plant0 /\
      Js.deriveState (Js.fixedZone offset)
        (log ++ [plant_profile_updated t plantId P]) realm c n
        = (Js.Returns d1, realm, k1) /\
      Obj.get (plants d1) plantId = Some plant1 /\
      Plant.profile plant1 = P /\
      Plant.lastWatered plant1 = Plant.lastWatered plant0 /\
      Plant.nextDue plant1 = Plant.nextDue plant0 /\
      Plant.riskLevel plant1 = Plant.riskLevel plant0 /\
      Js.deriveState (Js.fixedZone offset)
        (log ++ [plant_profile_updated t plantId P; watering_done ts plantId]) realm c n
        = (Js.Returns d2, realm, k2) /\
      Obj.get (plants d2) plantId = Some plant2 /\
      Plant.profile plant2 = P /\
      Plant.lastWatered plant2 = Some ts /\
      Plant.nextDue plant2 = ts + fst (baseInterval P) * (24 * 60 * 60 * 1000).
Proof.
  intros offset log t ts plantId P realm c n Hclean Hlog Hc Hplant HP Hts.
  pose proof (plantIds_are_plain plantId Hplant) as Hplain.
  assert (H1 : Js.ordinary (log ++ [plant_profile_updated t plantId P]) = true).
  { rewrite ordinary_app, Hlog. unfold Js.ordinary. cbn [forallb andb].
    cbn [Js.plain_event Js.moderate_event]. now rewrite Hplain, HP. }
  assert (H2 : Js.ordinary (log ++ [plant_profile_updated t plantId P;
                                    watering_done ts plantId]) = true).
  { rewrite ordinary_app, Hlog. unfold Js.ordinary. cbn [forallb andb].
    cbn [Js.plain_event Js.moderate_event]. now rewrite Hplain, HP, Hts. }
  rewrite !deriveState_ordinary by assumption.
  assert (Hkey : In plantId (Obj.keys (plants (value_of (deriveState log) c n))))
    by now rewrite derived_plant_keys.
  destruct (get_of_key _ _ Hkey) as [plant0 Hget0].
  destruct (profile_update_waits_for_watering log t ts plantId P plant0 c n Hget0)
    as [(plant1 & Hget1 & Hp1 & Hl1 & Hd1 & Hr1) (plant2 & Hget2 & Hp2 & Hl2 & Hd2)].
  eexists _, _, _, _, _, _, plant0, plant1, plant2.
  repeat (split; [first [ reflexivity | eassumption ] |]). exact Hd2.
Qed.

Lemma profile_update_then_watering_witness :
  exists d2 k2 plant2,
    Js.deriveState (Js.fixedZone 0)
      ([] ++ [plant_profile_updated 1 "plant_nolina" monthly;
              watering_done 2 "plant_nolina"]) Js.cleanRealm (fun _ => 5) 0%nat
      = (Js.Returns d2, Js.cleanRealm, k2) /\
    Obj.get (plants d2) "plant_nolina" = Some plant2 /\
    Plant.nextDue plant2 = 2 + 30 * (24 * 60 * 60 * 1000).
Proof.
  edestruct profile_update_then_watering
    with (offset := 0) (log := @nil Event) (t := 1) (ts := 2)
         (plantId := "plant_nolina") (P := monthly) (realm := Js.cleanRealm)
         (c := fun _ : nat => 5) (n := 0%nat)
    as (d0 & d1 & d2 & k0 & k1 & k2 & plant0 & plant1 & plant2 & H).
  - reflexivity.
  - reflexivity.
  - intro k. reflexivity.
  - vm_compute. tauto.
  - reflexivity.
  - reflexivity.
  - exists d2, k2, plant2.
    destruct H as (_ & _ & _ & _ & _ & _ & _ & _ & Hrun & Hget & _ & _ & Hdue).
    repeat split; assumption.
Defined.

(** ** The plant anchor on the page *)

(** X23. On the page of an ordinary log - plain ids, which name neither a
    member of [Object.prototype] nor [profile], [lastWatered], [nextDue] or
    [riskLevel], dates and day counts well within the range of [Date] - at a
    standing instant in a zone without clock changes and a realm the program
    has not written to, a click on the plant anchor waters the plant it
    shows: the click adds a watering event for the anchored plant, stamped
    with the clock; the pass over the log with that event returns and
    records the watering, and when the plant's shortest interval is at least
    a day the plant is at low risk and no longer the anchor. *)
Theorem plant_anchor_click_waters :
  forall (offset : Z) (log : list Event) (realm : Js.Realm) (T : Z)
         (c : Clock) (n : nat) (dayOfWeek : Z) (answer : option number) (k : nat),
    Js.clean realm -> Js.ordinary log = true ->
    fixed_at T c -> Js.moderate_instant T = true ->
    exists d k0,
      Js.deriveState (Js.fixedZone offset) log realm c n = (Js.Returns d, realm, k0) /\
      forall item,
        In item (UI.anchorItems d dayOfWeek) ->
        AnchorItem.type item = "plant" ->
        exists key plant0 d1 k1 plant,
          Anchors.plants (anchors d) = Some key /\
          Obj.get (plants d) key = Some plant0 /\
          UI.click item answer c k = (Some (watering_done T key), S k) /\
          Js.deriveState (Js.fixedZone offset) (log ++ [watering_done T key]) realm c n
            = (Js.Returns d1, realm, k1) /\
          Obj.get (plants d1) key = Some plant /\
          Plant.lastWatered plant = Some T /\
          (1 <= fst (baseInterval (Plant.profile plant0)) ->
           Plant.riskLevel plant = Risk.low /\
           Anchors.plants (anchors d1) <> Some key).
Proof.
  intros offset log realm T c n dow answer k Hclean Hlog Hc HT.
  pose proof (standing_clock_moderate T c Hc HT) as Hmod.
  rewrite (deriveState_ordinary offset log realm c n Hclean Hlog Hmod).
  eexists _, _. split; [reflexivity |].
  change (fst (deriveState log c n)) with (value_of (deriveState log) c n).
  intros item Hin Htype.
  destruct (UIFacts.plant_anchor_click_waters_the_plant log T c n dow item answer k
              Hc Hin Htype)
    as (key & plant0 & Hanchor & Hget & Hclick & plant & Hget1 & Hlast & Hlow).
  assert (Hplain : Js.plain key = true).
  { apply plantIds_are_plain. rewrite <- (derived_plant_keys log c n).
    exact (key_of_get _ _ _ Hget). }
  assert (H1 : Js.ordinary (log ++ [watering_done T key]) = true).
  { rewrite ordinary_app, Hlog. unfold Js.ordinary. cbn [forallb andb].
    cbn [Js.plain_event Js.moderate_event]. now rewrite Hplain, HT. }
  exists key, plant0. eexists _, _, plant.
  split; [exact Hanchor |]. split; [exact Hget |]. split; [exact Hclick |].
  split; [exact (deriveState_ordinary offset _ realm c n Hclean H1 Hmod) |].
  split; [exact Hget1 |]. split; [exact Hlast | exact Hlow].
Qed.

Lemma plant_anchor_click_waters_witness :
  exists d k0,
    Js.deriveState (Js.fixedZone 0) two_plants_due Js.cleanRealm
                   (fun _ => thirty_days) 0%nat = (Js.Returns d, Js.cleanRealm, k0) /\
    In (AnchorItem.mk (label "Монстера") "🔴" "plant" None (Some "plant_monstera") None)
       (UI.anchorItems d 3).
Proof.
  destruct (plant_anchor_click_waters 0 two_plants_due Js.cleanRealm thirty_days
              (fun _ => thirty_days) 0%nat 3 None 0%nat) as (d & k0 & Hrun & _).
  - reflexivity.
  - reflexivity.
  - intro k. reflexivity.
  - reflexivity.
  - exists d, k0. split; [exact Hrun |].
    vm_compute in Hrun. injection Hrun as <- _. vm_compute. right. left. reflexivity.
Defined.

End JsFacts.

(** * The manager with callbacks that act: facts *)

Module LiveFacts.

(** ** The log *)






(** ** Callbacks that do nothing *)

Lemma skipn_nth {A : Type} (l : list A) (i : nat) (x : A) :
  nth_error l i = Some x -> skipn i l = x :: skipn (S i) l.
Proof.
  revert i. induction l as [| y rest IH]; intros [| i] H; try discriminate.
  - now injection H as <-.
  - cbn [skipn]. cbn [nth_error] in H. rewrite (IH i H). reflexivity.
Qed.

Lemma notify_events_quiet (cb : Live.Callbacks) (zone : Js.Zone) (c : Clock)
    (event : Event) (rest : list Live.Frame) (m : Manager.t) (realm : Js.Realm)
    (reads : nat) :
  (forall l, In l (Manager.eventListeners m) -> Live.onEvent cb l event = []) ->
  forall (k i fuel : nat) (calls : list Manager.Call),
    List.length (Manager.eventListeners m) = (i + k)%nat ->
    Live.run cb zone c (2 * k + fuel) (Live.notifyEvents i event :: rest)
             (Live.mkWorld m realm reads calls) =
    Live.run cb zone c fuel (Live.notifyEvents (i + k) event :: rest)
             (Live.mkWorld m realm reads
                (calls ++ map (fun l => Manager.event_call l event)
                              (skipn i (Manager.eventListeners m)))).
Proof.
  intros Hquiet. induction k as [| k IH]; intros i fuel calls Hlen.
  - rewrite Nat.add_0_r in *. rewrite <- Hlen, skipn_all.
    cbn [map]. now rewrite app_nil_r.
  - replace (2 * S k + fuel)%nat with (S (S (2 * k + fuel))) by lia.
    destruct (nth_error (Manager.eventListeners m) i) as [l |] eqn:Hnth.
    2:{ apply nth_error_None in Hnth. lia. }
    cbn [Live.run Live.step Live.manager]. rewrite Hnth.
    rewrite (Hquiet l (nth_error_In _ _ Hnth)).
    cbn [Live.run Live.step]. unfold Live.called.
    cbn [Live.manager Live.realm Live.reads Live.calls].
    rewrite IH by lia.
    rewrite (skipn_nth _ _ _ Hnth). cbn [map].
    rewrite <- app_assoc. cbn [app].
    now replace (S i + k)%nat with (i + S k)%nat by lia.
Qed.

Lemma notify_state_quiet (cb : Live.Callbacks) (zone : Js.Zone) (c : Clock)
    (d : DerivedState) (rest : list Live.Frame) (m : Manager.t) (realm : Js.Realm)
    (reads : nat) :
  (forall l, In l (Manager.stateListeners m) -> Live.onState cb l d = []) ->
  forall (k i fuel : nat) (calls : list Manager.Call),
    List.length (Manager.stateListeners m) = (i + k)%nat ->
    Live.run cb zone c (2 * k + fuel) (Live.notifyState i d :: rest)
             (Live.mkWorld m realm reads calls) =
    Live.run cb zone c fuel (Live.notifyState (i + k) d :: rest)
             (Live.mkWorld m realm reads
                (calls ++ map (fun l => Manager.state_call l d)
                              (skipn i (Manager.stateListeners m)))).
Proof.
  intros Hquiet. induction k as [| k IH]; intros i fuel calls Hlen.
  - rewrite Nat.add_0_r in *. rewrite <- Hlen, skipn_all.
    cbn [map]. now rewrite app_nil_r.
  - replace (2 * S k + fuel)%nat with (S (S (2 * k + fuel))) by lia.
    destruct (nth_error (Manager.stateListeners m) i) as [l |] eqn:Hnth.
    2:{ apply nth_error_None in Hnth. lia. }
    cbn [Live.run Live.step Live.manager]. rewrite Hnth.
    rewrite (Hquiet l (nth_error_In _ _ Hnth)).
    cbn [Live.run Live.step]. unfold Live.called.
    cbn [Live.manager Live.realm Live.reads Live.calls].
    rewrite IH by lia.
    rewrite (skipn_nth _ _ _ Hnth). cbn [map].
    rewrite <- app_assoc. cbn [app].
    now replace (S i + k)%nat with (i + S k)%nat by lia.
Qed.

(** The manager after [push]. *)
(** [addEvent] from outside when no subscribed callback acts: the event
    listeners are called in the order of their array; then the pass runs;
    if it returns, the state listeners are called with what it returned,
    and if it throws, none is. *)
Lemma addEvent_quiet (cb : Live.Callbacks) (zone : Js.Zone) (c : Clock)
    (w : Live.World) (event : Event) :
  (forall l, In l (Manager.eventListeners (Live.manager w)) ->
             Live.onEvent cb l event = []) ->
  (forall l d, In l (Manager.stateListeners (Live.manager w)) ->
               Live.onState cb l d = []) ->
  exists fuel,
    Live.call_addEvent cb zone c fuel w event =
    match Js.deriveState zone (events (Manager.state (Live.manager w)) ++ [event])
                         (Live.realm w) c (S (Live.reads w)) with
    | (Js.Returns d, realm', reads') =>
        Live.Finished (Js.Returns tt)
          (Live.mkWorld (pushed c w event) realm' reads'
             ((Live.calls w
               ++ map (fun l => Manager.event_call l event)
                      (Manager.eventListeners (Live.manager w)))
              ++ map (fun l => Manager.state_call l d)
                     (Manager.stateListeners (Live.manager w))))
    | (Js.Throws e, realm', reads') =>
        Live.Finished (Js.Throws e)
          (Live.mkWorld (pushed c w event) realm' reads'
             (Live.calls w
              ++ map (fun l => Manager.event_call l event)
                     (Manager.eventListeners (Live.manager w))))
    end.
Proof.
  intros He Hs. destruct w as [m realm reads calls].
  cbn [Live.manager Live.realm Live.reads Live.calls] in *.
  set (ne := List.length (Manager.eventListeners m)).
  set (ns := List.length (Manager.stateListeners m)).
  exists (S (2 * ne + S (2 * ns + 3))). unfold Live.call_addEvent.
  cbn [Live.run Live.step]. unfold Live.push at 1.
  cbn [Live.manager Live.realm Live.reads Live.calls Manager.state
       Manager.eventListeners Manager.stateListeners].
  set (m' := Manager.mk _ _ _).
  assert (Hm' : m' = pushed c (Live.mkWorld m realm reads calls) event) by reflexivity.
  rewrite (notify_events_quiet cb zone c event _ m' realm (S reads) He ne 0)
    by reflexivity.
  cbn [Nat.add skipn Manager.eventListeners m'].
  cbn [Live.run Live.step Live.manager Live.realm Live.reads Live.calls].
  rewrite (proj2 (nth_error_None (Manager.eventListeners m') ne)) by (subst ne; reflexivity).
  change (events (Manager.state m')) with (events (Manager.state m) ++ [event])%list.
  destruct (Js.deriveState zone (events (Manager.state m) ++ [event]) realm c (S reads))
    as [[[d | e] realm'] reads']; [| now rewrite Hm'].
  rewrite (notify_state_quiet cb zone c d _ m' realm' reads' (fun l => Hs l d) ns 0)
    by reflexivity.
  cbn [Nat.add skipn Manager.stateListeners m'].
  cbn [Live.run Live.step Live.manager].
  rewrite (proj2 (nth_error_None (Manager.stateListeners m') ns)) by (subst ns; reflexivity).
  now rewrite Hm'.
Qed.

(** X13. When no subscribed callback acts on the manager, changes what it
    is given or throws, one [addEvent] calls every event listener with the event, in the order of
    the array and once for each time it is subscribed, before anything
    else; this is so whether the derivation that follows returns or
    throws.  The arrays are left as they were and the event is last in
    the log. *)
Theorem event_listeners_are_called_in_order :
  forall (cb : Live.Callbacks) (zone : Js.Zone) (c : Clock) (w : Live.World)
         (event : Event),
    (forall l, In l (Manager.eventListeners (Live.manager w)) ->
               Live.onEvent cb l event = []) ->
    (forall l d, In l (Manager.stateListeners (Live.manager w)) ->
                 Live.onState cb l d = []) ->
    exists fuel o w' later,
      Live.call_addEvent cb zone c fuel w event = Live.Finished o w' /\
      Live.calls w' =
        (Live.calls w
         ++ map (fun l => Manager.event_call l event)
                (Manager.eventListeners (Live.manager w))
         ++ later)%list /\
      (forall call, In call later -> exists l d, call = Manager.state_call l d) /\
      Manager.eventListeners (Live.manager w') = Manager.eventListeners (Live.manager w) /\
      Manager.stateListeners (Live.manager w') = Manager.stateListeners (Live.manager w) /\
      events (Manager.state (Live.manager w')) =
        (events (Manager.state (Live.manager w)) ++ [event])%list.
Proof.
  intros cb zone c w event He Hs.
  destruct (addEvent_quiet cb zone c w event He Hs) as [fuel Hrun].
  exists fuel.
  destruct (Js.deriveState zone (events (Manager.state (Live.manager w)) ++ [event])
              (Live.realm w) c (S (Live.reads w))) as [[[d | e] realm'] reads'].
  - eexists _, _, (map (fun l => Manager.state_call l d)
                       (Manager.stateListeners (Live.manager w))).
    split; [exact Hrun |]. cbn [Live.calls Live.manager].
    split; [now rewrite app_assoc |]. split; [| repeat split].
    intros call Hin. apply in_map_iff in Hin. destruct Hin as (l & <- & _).
    now exists l, d.
  - eexists _, _, []. split; [exact Hrun |]. cbn [Live.calls Live.manager].
    split; [now rewrite app_nil_r |]. split; [intros call [] | repeat split].
Qed.

Lemma event_listeners_are_called_in_order_witness :
  exists fuel o w' later,
    Live.call_addEvent Live.passive Js.utc (fun _ => 100) fuel listening_world
                       (focus_lost 40) = Live.Finished o w' /\
    Live.calls w' =
      ([] ++ [Manager.event_call 7%nat (focus_lost 40);
              Manager.event_call 8%nat (focus_lost 40)] ++ later)%list.
Proof.
  destruct (event_listeners_are_called_in_order Live.passive Js.utc (fun _ => 100)
              listening_world (focus_lost 40))
    as (fuel & o & w' & later & Hrun & Hcalls & _).
  - reflexivity.
  - reflexivity.
  - exists fuel, o, w', later. split; [exact Hrun | exact Hcalls].
Defined.

(** A callback that uses its handle while the listeners are being called
    takes the call away from the next one: the loop asks the array, now
    shorter, for its second element and finds none. *)
Example unsubscribing_silences_the_next_listener :
  exists w' d,
    Live.call_addEvent leaving Js.utc (fun _ => 100) 20 listening_world
                       (focus_lost 40) = Live.Finished (Js.Returns tt) w' /\
    Manager.eventListeners listening_manager = [7%nat; 8%nat] /\
    Live.calls w' = [ Manager.event_call 7%nat (focus_lost 40);
                      Manager.state_call 9%nat d ] /\
    Manager.eventListeners (Live.manager w') = [8%nat].
Proof.
  eexists _, _. split; [vm_compute; reflexivity |].
  repeat split.
Qed.

(** X14. When no subscribed callback acts on the manager, changes what it is
    given or throws, and the log with the added event is ordinary - plain
    ids, which name neither a member of [Object.prototype] nor [profile],
    [lastWatered], [nextDue] or [riskLevel], and dates well within the range
    of [Date] -, in a zone without clock changes and a realm the program has
    not written to, [addEvent] at a standing instant returns, and after the
    event listeners it calls every state listener, in the order of the array
    and once for each time it is subscribed, with the state derived from the
    log up to and including the event at that instant; the realm is left as
    it was. *)
Theorem state_listeners_receive_the_derivation :
  forall (cb : Live.Callbacks) (offset : Z) (T : Z) (c : Clock) (w : Live.World)
         (event : Event),
    (forall l, In l (Manager.eventListeners (Live.manager w)) ->
               Live.onEvent cb l event = []) ->
    (forall l d, In l (Manager.stateListeners (Live.manager w)) ->
                 Live.onState cb l d = []) ->
    Js.clean (Live.realm w) ->
    Js.ordinary (events (Manager.state (Live.manager w)) ++ [event]) = true ->
    fixed_at T c -> Js.moderate_instant T = true ->
    exists fuel w' d k,
      Live.call_addEvent cb (Js.fixedZone offset) c fuel w event
        = Live.Finished (Js.Returns tt) w' /\
      Js.deriveState (Js.fixedZone offset)
        (events (Manager.state (Live.manager w)) ++ [event]) (Live.realm w) c
        (S (Live.reads w))
        = (Js.Returns d, Live.realm w, k) /\
      Live.realm w' = Live.realm w /\
      Live.calls w' =
        (Live.calls w
         ++ map (fun l => Manager.event_call l event)
                (Manager.eventListeners (Live.manager w))
         ++ map (fun l => Manager.state_call l d)
                (Manager.stateListeners (Live.manager w)))%list.
Proof.
  intros cb offset T c w event He Hs Hclean Hlog Hc HT.
  pose proof (JsFacts.standing_clock_moderate T c Hc HT) as Hmod.
  destruct (addEvent_quiet cb (Js.fixedZone offset) c w event He Hs) as [fuel Hrun].
  rewrite (JsFacts.deriveState_ordinary offset _ (Live.realm w) c _ Hclean Hlog Hmod)
    in Hrun.
  exists fuel. eexists _, _, _. split; [exact Hrun |].
  split; [apply (JsFacts.deriveState_ordinary offset _ (Live.realm w) c _
                   Hclean Hlog Hmod) |].
  split; [reflexivity |]. cbn [Live.calls].
  now rewrite <- app_assoc.
Qed.

Lemma state_listeners_receive_the_derivation_witness :
  exists fuel w' d k,
    Live.call_addEvent Live.passive (Js.fixedZone 0) (fun _ => 100) fuel
                       listening_world (focus_lost 40)
      = Live.Finished (Js.Returns tt) w' /\
    Js.deriveState (Js.fixedZone 0) (events sample_state ++ [focus_lost 40])
                   Js.cleanRealm (fun _ => 100) 1%nat
      = (Js.Returns d, Js.cleanRealm, k) /\
    Live.calls w' =
      ([] ++ [Manager.event_call 7%nat (focus_lost 40);
              Manager.event_call 8%nat (focus_lost 40)]
          ++ [Manager.state_call 9%nat d])%list.
Proof.
  destruct (state_listeners_receive_the_derivation Live.passive 0 100 (fun _ => 100)
              listening_world (focus_lost 40))
    as (fuel & w' & d & k & Hrun & Hd & _ & Hcalls).
  - reflexivity.
  - reflexivity.
  - reflexivity.
  - vm_compute. reflexivity.
  - intro k. reflexivity.
  - reflexivity.
  - exists fuel, w', d, k. repeat split; assumption.
Defined.

End LiveFacts.
